(** * Micronucleus bootloader driver (avrdude): shallow embedding and properties

    The embedded code is the Micronucleus programmer backend of avrdude
    (the second document of [src/src/urbootlist.h]): bootloader info
    decoding, reset-vector patching, paged writes, erase/reconnect,
    device discovery and the session finaliser.

    Conventions of the embedding:
    - C integers are [Z]; a store into a [uint8_t], [uint16_t] or
      [uint32_t] object is written [u8], [u16], [u32] (wrap-around).
      Arithmetic on promoted operands is done in [int] and never leaves
      the 32-bit range for the operand ranges that occur here.
    - [struct pdata] is the record [pdata]; it is passed and returned
      explicitly instead of being reached through [pgm->cookie].
    - libusb, [usleep] and [time] are the environment: every call is
      appended to a history of events (newest first) and the environment
      answers as a function of that history.
    - A run that would leave defined C behaviour (division by zero, an
      index outside a buffer) is [Undefined]; a loop that was given too
      little fuel is [OutOfFuel].
    - Diagnostics ([pmsg_*]) and the error flag [cx->usb_access_error] of
      the global context are not modelled. *)

From Stdlib Require Import ZArith Lia Bool String Ascii.
From stdpp Require Import base option list strings.

Local Open Scope Z_scope.

(** ** Integer conversions *)

Definition u8 (x : Z) : Z := x mod 256.
Definition u16 (x : Z) : Z := x mod 65536.
Definition u32 (x : Z) : Z := x mod 4294967296.
(** Conversion of an unsigned 32-bit value to [int] (two's complement). *)
Definition to_int (x : Z) : Z := (x + 2147483648) mod 4294967296 - 2147483648.

(** Mathematical ceiling of [a / b] for [0 < b]; used in statements only. *)
Definition ceil_div (a b : Z) : Z := - ((- a) / b).

(** ** Constants *)

Definition MICRONUCLEUS_VID : Z := 0x16D0.
Definition MICRONUCLEUS_PID : Z := 0x0753.
Definition MICRONUCLEUS_CONNECT_WAIT : Z := 100.
Definition MICRONUCLEUS_CMD_INFO : Z := 0.
Definition MICRONUCLEUS_CMD_TRANSFER : Z := 1.
Definition MICRONUCLEUS_CMD_ERASE : Z := 2.
Definition MICRONUCLEUS_CMD_PROGRAM : Z := 3.
Definition MICRONUCLEUS_CMD_START : Z := 4.
Definition MICRONUCLEUS_DEFAULT_TIMEOUT : Z := 500.
Definition MICRONUCLEUS_MAX_MAJOR_VERSION : Z := 2.

(** Values of libusb-0.1's [usb.h] and of [errno.h] (Linux). *)
Definition USB_ENDPOINT_IN : Z := 0x80.
Definition USB_ENDPOINT_OUT : Z := 0x00.
Definition USB_TYPE_VENDOR : Z := 0x40.
Definition USB_RECIP_DEVICE : Z := 0x00.
Definition EIO : Z := 5.
Definition EPIPE : Z := 32.

Definition REQUEST_IN : Z :=
  Z.lor (Z.lor USB_ENDPOINT_IN USB_TYPE_VENDOR) USB_RECIP_DEVICE.
Definition REQUEST_OUT : Z :=
  Z.lor (Z.lor USB_ENDPOINT_OUT USB_TYPE_VENDOR) USB_RECIP_DEVICE.

(** ** USB topology *)

Record usb_device : Type := {
  filename : string;
  idVendor : Z;
  idProduct : Z;
  bcdDevice : Z
}.

Record usb_bus : Type := {
  dirname : string;
  devices : list usb_device
}.

(** An open handle remembers the device it was opened on
    ([usb_device(handle)] in libusb). *)
Record usb_dev_handle : Type := { usb_device_of : usb_device }.

(** ** Session data: [struct pdata] *)

Record pdata : Type := {
  usb_handle : option usb_dev_handle;
  wait_until_device_present : bool;
  wait_timout : Z;
  major_version : Z;
  minor_version : Z;
  flash_size : Z;
  page_size : Z;
  write_sleep : Z;
  signature1 : Z;
  signature2 : Z;
  pages : Z;
  bootloader_start : Z;
  erase_sleep : Z;
  user_reset_vector : Z;
  write_last_page : bool;
  start_program : bool
}.

Definition set_usb_handle (v : option usb_dev_handle) (p : pdata) : pdata :=
  {| usb_handle := v;
     wait_until_device_present := wait_until_device_present p;
     wait_timout := wait_timout p;
     major_version := major_version p; minor_version := minor_version p;
     flash_size := flash_size p; page_size := page_size p;
     write_sleep := write_sleep p;
     signature1 := signature1 p; signature2 := signature2 p;
     pages := pages p; bootloader_start := bootloader_start p;
     erase_sleep := erase_sleep p;
     user_reset_vector := user_reset_vector p;
     write_last_page := write_last_page p;
     start_program := start_program p |}.

Definition set_version (major minor : Z) (p : pdata) : pdata :=
  {| usb_handle := usb_handle p;
     wait_until_device_present := wait_until_device_present p;
     wait_timout := wait_timout p;
     major_version := major; minor_version := minor;
     flash_size := flash_size p; page_size := page_size p;
     write_sleep := write_sleep p;
     signature1 := signature1 p; signature2 := signature2 p;
     pages := pages p; bootloader_start := bootloader_start p;
     erase_sleep := erase_sleep p;
     user_reset_vector := user_reset_vector p;
     write_last_page := write_last_page p;
     start_program := start_program p |}.

(** The three fields read from the info block. *)
Definition set_info (fs ps ws : Z) (p : pdata) : pdata :=
  {| usb_handle := usb_handle p;
     wait_until_device_present := wait_until_device_present p;
     wait_timout := wait_timout p;
     major_version := major_version p; minor_version := minor_version p;
     flash_size := fs; page_size := ps;
     write_sleep := ws;
     signature1 := signature1 p; signature2 := signature2 p;
     pages := pages p; bootloader_start := bootloader_start p;
     erase_sleep := erase_sleep p;
     user_reset_vector := user_reset_vector p;
     write_last_page := write_last_page p;
     start_program := start_program p |}.

Definition set_signature (s1 s2 : Z) (p : pdata) : pdata :=
  {| usb_handle := usb_handle p;
     wait_until_device_present := wait_until_device_present p;
     wait_timout := wait_timout p;
     major_version := major_version p; minor_version := minor_version p;
     flash_size := flash_size p; page_size := page_size p;
     write_sleep := write_sleep p;
     signature1 := s1; signature2 := s2;
     pages := pages p; bootloader_start := bootloader_start p;
     erase_sleep := erase_sleep p;
     user_reset_vector := user_reset_vector p;
     write_last_page := write_last_page p;
     start_program := start_program p |}.

Definition set_pages (v : Z) (p : pdata) : pdata :=
  {| usb_handle := usb_handle p;
     wait_until_device_present := wait_until_device_present p;
     wait_timout := wait_timout p;
     major_version := major_version p; minor_version := minor_version p;
     flash_size := flash_size p; page_size := page_size p;
     write_sleep := write_sleep p;
     signature1 := signature1 p; signature2 := signature2 p;
     pages := v; bootloader_start := bootloader_start p;
     erase_sleep := erase_sleep p;
     user_reset_vector := user_reset_vector p;
     write_last_page := write_last_page p;
     start_program := start_program p |}.

Definition set_bootloader_start (v : Z) (p : pdata) : pdata :=
  {| usb_handle := usb_handle p;
     wait_until_device_present := wait_until_device_present p;
     wait_timout := wait_timout p;
     major_version := major_version p; minor_version := minor_version p;
     flash_size := flash_size p; page_size := page_size p;
     write_sleep := write_sleep p;
     signature1 := signature1 p; signature2 := signature2 p;
     pages := pages p; bootloader_start := v;
     erase_sleep := erase_sleep p;
     user_reset_vector := user_reset_vector p;
     write_last_page := write_last_page p;
     start_program := start_program p |}.

Definition set_erase_sleep (v : Z) (p : pdata) : pdata :=
  {| usb_handle := usb_handle p;
     wait_until_device_present := wait_until_device_present p;
     wait_timout := wait_timout p;
     major_version := major_version p; minor_version := minor_version p;
     flash_size := flash_size p; page_size := page_size p;
     write_sleep := write_sleep p;
     signature1 := signature1 p; signature2 := signature2 p;
     pages := pages p; bootloader_start := bootloader_start p;
     erase_sleep := v;
     user_reset_vector := user_reset_vector p;
     write_last_page := write_last_page p;
     start_program := start_program p |}.

Definition set_user_reset_vector (v : Z) (p : pdata) : pdata :=
  {| usb_handle := usb_handle p;
     wait_until_device_present := wait_until_device_present p;
     wait_timout := wait_timout p;
     major_version := major_version p; minor_version := minor_version p;
     flash_size := flash_size p; page_size := page_size p;
     write_sleep := write_sleep p;
     signature1 := signature1 p; signature2 := signature2 p;
     pages := pages p; bootloader_start := bootloader_start p;
     erase_sleep := erase_sleep p;
     user_reset_vector := v;
     write_last_page := write_last_page p;
     start_program := start_program p |}.

Definition set_write_last_page (v : bool) (p : pdata) : pdata :=
  {| usb_handle := usb_handle p;
     wait_until_device_present := wait_until_device_present p;
     wait_timout := wait_timout p;
     major_version := major_version p; minor_version := minor_version p;
     flash_size := flash_size p; page_size := page_size p;
     write_sleep := write_sleep p;
     signature1 := signature1 p; signature2 := signature2 p;
     pages := pages p; bootloader_start := bootloader_start p;
     erase_sleep := erase_sleep p;
     user_reset_vector := user_reset_vector p;
     write_last_page := v;
     start_program := start_program p |}.

Definition set_start_program (v : bool) (p : pdata) : pdata :=
  {| usb_handle := usb_handle p;
     wait_until_device_present := wait_until_device_present p;
     wait_timout := wait_timout p;
     major_version := major_version p; minor_version := minor_version p;
     flash_size := flash_size p; page_size := page_size p;
     write_sleep := write_sleep p;
     signature1 := signature1 p; signature2 := signature2 p;
     pages := pages p; bootloader_start := bootloader_start p;
     erase_sleep := erase_sleep p;
     user_reset_vector := user_reset_vector p;
     write_last_page := write_last_page p;
     start_program := v |}.

(** ** Events, environment and the run monad *)

Inductive event : Type :=
| Usb_init
| Usb_find_devices
| Time_read
| Usb_open (device : usb_device)
| Usb_close (handle : option usb_dev_handle)
| Usb_control_msg (handle : option usb_dev_handle)
    (requesttype request value index : Z) (bytes : list Z) (size : Z)
| Delay_ms (duration : Z)
| Write_page (address : Z) (buffer : list Z) (size : Z).

(** The history of a run, newest event first. *)
Definition world : Type := list event.

(** The environment answers each call from the history that ends with
    the call itself. *)
Record environment : Type := {
  env_control_msg : world -> Z * list Z;
  env_open : world -> bool;
  env_busses : world -> list usb_bus;
  env_time : world -> Z
}.

Inductive outcome (A : Type) : Type :=
| Done (a : A) (w : world)
| Undefined
| OutOfFuel.
Arguments Done {A} a w.
Arguments Undefined {A}.
Arguments OutOfFuel {A}.

Definition M (A : Type) : Type := world -> outcome A.

Definition ret {A : Type} (a : A) : M A := fun w => Done a w.

Definition bind {A B : Type} (c : M A) (k : A -> M B) : M B :=
  fun w => match c w with
           | Done a w' => k a w'
           | Undefined => Undefined
           | OutOfFuel => OutOfFuel
           end.

Definition undefined {A : Type} : M A := fun _ => Undefined.
Definition out_of_fuel {A : Type} : M A := fun _ => OutOfFuel.

(** A partial pure computation run inside [M]. *)
Definition lift_option {A : Type} (o : option A) : M A :=
  match o with Some a => ret a | None => undefined end.

Notation "'let*' x ':=' c 'in' k" := (bind c (fun x => k))
  (at level 10, x pattern, c at level 100, k at level 200).

(** ** Buffers *)

Definition buf_get (buffer : list Z) (i : Z) : option Z :=
  if i <? 0 then None else buffer !! Z.to_nat i.

Definition buf_set (buffer : list Z) (i : Z) (v : Z) : option (list Z) :=
  if (0 <=? i) && (i <? Z.of_nat (length buffer))
  then Some (<[Z.to_nat i := u8 v]> buffer)
  else None.

(** What a device-to-host transfer leaves in [bytes]: the delivered data
    (as bytes) over the first positions, the rest unchanged. *)
Definition receive (data bytes : list Z) : list Z :=
  map u8 (take (length bytes) data) ++ drop (length data) bytes.

(** ** Memory descriptor: the fields of [AVRMEM] the driver reads.
    [mem_is_flash] stands for the macro of the same name. *)

Record AVRMEM : Type := {
  mem_is_flash : bool;
  size : Z;
  buf : list Z
}.

Definition set_buf (b : list Z) (mem : AVRMEM) : AVRMEM :=
  {| mem_is_flash := mem_is_flash mem; size := size mem; buf := b |}.

(** [memcpy(dst, src + offset, count)] and [memset(dst + offset, v, count)]
    on buffers. *)
Definition memcpy (dst src : list Z) (offset count : Z) : option (list Z) :=
  if (0 <=? offset) && (0 <=? count)
     && (offset + count <=? Z.of_nat (length src))
     && (count <=? Z.of_nat (length dst))
  then Some (take (Z.to_nat count) (drop (Z.to_nat offset) src)
             ++ drop (Z.to_nat count) dst)
  else None.

Definition memset (dst : list Z) (offset v count : Z) : option (list Z) :=
  if (0 <=? offset) && (0 <=? count)
     && (offset + count <=? Z.of_nat (length dst))
  then Some (take (Z.to_nat offset) dst
             ++ replicate (Z.to_nat count) (u8 v)
             ++ drop (Z.to_nat (offset + count)) dst)
  else None.

(** ** String helpers of the port parser *)

(** Modelled from the spec: [str_eq] and [str_starts] are avrdude string
    helpers declared outside this file; names "match exactly" when the
    strings are equal, and [str_starts] tests for a prefix. *)
Definition str_eq (s1 s2 : string) : bool := String.eqb s1 s2.
Definition str_starts (s prefix : string) : bool := String.prefix prefix s.

(** [s + n] on a C string. *)
Fixpoint string_drop (n : nat) (s : string) : string :=
  match n, s with
  | S n', String _ s' => string_drop n' s'
  | _, _ => s
  end.

(** [strchr(s, c)] followed by the split the parser performs at the hit:
    the text before the first [c] and the text after it. *)
Fixpoint split_at_char (c : ascii) (s : string) : option (string * string) :=
  match s with
  | EmptyString => None
  | String a s' =>
      if Ascii.eqb a c then Some (EmptyString, s')
      else match split_at_char c s' with
           | Some (l, r) => Some (String a l, r)
           | None => None
           end
  end.

(** The head of [micronucleus_open]: [(port, bus_name, dev_name)] with
    [None] for a [NULL] pointer. *)
Definition parse_port (port : string)
    : option string * option string * option string :=
  if str_eq port "usb" then (None, None, None)
  else if str_starts port "usb"
          && match String.get 3 port with
             | Some c => Ascii.eqb ":" c
             | None => false
             end
  then
    let bus_name := string_drop 4 port in
    match split_at_char ":" bus_name with
    | Some (bus, dev) => (Some port, Some bus, Some dev)
    | None => (Some port, Some bus_name, None)
    end
  else (Some port, None, None).

Section Driver.

Variable E : environment.

(** *** libusb and libc calls *)

Definition emit (e : event) : M unit := fun w => Done tt (e :: w).

Definition usb_control_msg (handle : option usb_dev_handle)
    (requesttype request value index : Z) (bytes : list Z) (size : Z)
    : M (Z * list Z) :=
  fun w =>
    let w' := Usb_control_msg handle requesttype request value index bytes size :: w in
    let '(result, data) := env_control_msg E w' in
    Done (result,
          if Z.land requesttype USB_ENDPOINT_IN =? 0 then bytes
          else receive data bytes) w'.

Definition usb_open (device : usb_device) : M (option usb_dev_handle) :=
  fun w =>
    let w' := Usb_open device :: w in
    Done (if env_open E w' then Some {| usb_device_of := device |} else None) w'.

Definition usb_close (handle : option usb_dev_handle) : M unit :=
  emit (Usb_close handle).

Definition delay_ms (duration : Z) : M unit := emit (Delay_ms duration).

(** *** Connection probe and reconnect *)

Definition micronucleus_check_connection (pd : pdata) : M Z :=
  if 2 <=? major_version pd then
    let* (result, buffer) := usb_control_msg (usb_handle pd) REQUEST_IN
                                MICRONUCLEUS_CMD_INFO 0 0 (replicate 6 0) 6 in
    ret (if result =? 6 then 0 else -1)
  else
    let* (result, buffer) := usb_control_msg (usb_handle pd) REQUEST_IN
                                MICRONUCLEUS_CMD_INFO 0 0 (replicate 4 0) 4 in
    ret (if result =? 4 then 0 else -1).

Definition micronucleus_is_device_responsive (pd : pdata) (device : usb_device)
    : M (bool * pdata) :=
  let* h := usb_open device in
  let pd := set_usb_handle h pd in
  match h with
  | None => ret (false, pd)
  | Some _ =>
      let* result := micronucleus_check_connection pd in
      let* _ := usb_close (usb_handle pd) in
      let pd := set_usb_handle None pd in
      ret (0 <=? result, pd)
  end.

(** The [for(int i = 0; i < 25; i++)] loop with [n] iterations left. *)
Fixpoint reconnect_loop (n : nat) (device : usb_device) (pd : pdata)
    : M (Z * pdata) :=
  match n with
  | O => ret (-1, pd)
  | S n' =>
      let* h := usb_open device in
      let pd := set_usb_handle h pd in
      match h with
      | Some _ => ret (0, pd)
      | None =>
          let* _ := delay_ms MICRONUCLEUS_CONNECT_WAIT in
          reconnect_loop n' device pd
      end
  end.

Definition micronucleus_reconnect (pd : pdata) : M (Z * pdata) :=
  match usb_handle pd with
  | None => undefined
  | Some h =>
      let device := usb_device_of h in
      let* _ := usb_close (usb_handle pd) in
      let pd := set_usb_handle None pd in
      reconnect_loop 25 device pd
  end.

(** *** Bootloader info *)

(** The part of both resolvers after the info fields are stored. *)
Definition derive_geometry (pd : pdata) : option pdata :=
  if page_size pd =? 0 then None
  else
    let pd := set_pages (u16 ((flash_size pd + page_size pd - 1) / page_size pd)) pd in
    let pd := set_bootloader_start (u16 (pages pd * page_size pd)) pd in
    Some (set_erase_sleep (u16 (write_sleep pd * pages pd)) pd).

Definition micronucleus_get_bootloader_info_v1 (pd : pdata) : M (Z * pdata) :=
  let* (result, buffer) := usb_control_msg (usb_handle pd) REQUEST_IN
                              MICRONUCLEUS_CMD_INFO 0 0 (replicate 4 0) 4 in
  if result <? 0 then ret (result, pd)
  else if result <? 4 then ret (-1, pd)
  else
    let* b0 := lift_option (buf_get buffer 0) in
    let* b1 := lift_option (buf_get buffer 1) in
    let* b2 := lift_option (buf_get buffer 2) in
    let* b3 := lift_option (buf_get buffer 3) in
    let pd := set_info (u16 (Z.lor (Z.shiftl b0 8) b1)) (u8 b2)
                       (u8 (Z.land b3 127)) pd in
    let pd :=
      if page_size pd =? 128 then set_signature 0x94 0x87 pd
      else if page_size pd =? 64 then
        if 4096 <? flash_size pd then set_signature 0x93 0x0B pd
        else set_signature 0x92 0x06 pd
      else if page_size pd =? 16 then set_signature 0x93 0x15 pd
      else set_signature 0 0 pd in
    let* pd := lift_option (derive_geometry pd) in
    ret (0, pd).

Definition micronucleus_get_bootloader_info_v2 (pd : pdata) : M (Z * pdata) :=
  let* (result, buffer) := usb_control_msg (usb_handle pd) REQUEST_IN
                              MICRONUCLEUS_CMD_INFO 0 0 (replicate 6 0) 6 in
  if result <? 0 then ret (result, pd)
  else if result <? 6 then ret (-1, pd)
  else
    let* b0 := lift_option (buf_get buffer 0) in
    let* b1 := lift_option (buf_get buffer 1) in
    let* b2 := lift_option (buf_get buffer 2) in
    let* b3 := lift_option (buf_get buffer 3) in
    let* b4 := lift_option (buf_get buffer 4) in
    let* b5 := lift_option (buf_get buffer 5) in
    let pd := set_info (u16 (Z.shiftl b0 8 + b1)) (u8 b2)
                       (u8 (Z.land b3 127 + 2)) pd in
    let pd := set_signature (u8 b4) (u8 b5) pd in
    let* pd := lift_option (derive_geometry pd) in
    let pd :=
      if negb (Z.land b3 128 =? 0) then set_erase_sleep (u16 (erase_sleep pd / 4)) pd
      else pd in
    ret (0, pd).

Definition micronucleus_get_bootloader_info (pd : pdata) : M (Z * pdata) :=
  if 2 <=? major_version pd then micronucleus_get_bootloader_info_v2 pd
  else micronucleus_get_bootloader_info_v1 pd.

(** *** Erase *)

Definition micronucleus_erase_device (pd : pdata) : M (Z * pdata) :=
  let* (result, _) := usb_control_msg (usb_handle pd) REQUEST_OUT
                        MICRONUCLEUS_CMD_ERASE 0 0 [] 0 in
  if (result <? 0) && negb ((result =? - EIO) || (result =? - EPIPE))
  then ret (result, pd)
  else
    let* _ := delay_ms (erase_sleep pd) in
    let* result := micronucleus_check_connection pd in
    if result <? 0 then
      let* (result, pd) := micronucleus_reconnect pd in
      if result <? 0 then ret (result, pd) else ret (0, pd)
    else ret (0, pd).

(** *** Firmware patches *)

(** The branch decoding at the head of [micronucleus_patch_reset_vector]:
    the target word address of the instruction at address 0, if it is a
    [jmp] or an [rjmp]. *)
Definition decode_reset_vector (word0 word1 : Z) : option Z :=
  if word0 =? 0x940C then Some word1
  else if Z.land word0 0xF000 =? 0xC000 then Some (Z.land word0 0x0FFF + 1)
  else None.

Definition micronucleus_patch_reset_vector (pd : pdata) (buffer : list Z)
    : option (Z * pdata * list Z) :=
  b0 ← buf_get buffer 0;
  b1 ← buf_get buffer 1;
  b2 ← buf_get buffer 2;
  b3 ← buf_get buffer 3;
  let word0 := u16 (Z.lor (Z.shiftl b1 8) b0) in
  let word1 := u16 (Z.lor (Z.shiftl b3 8) b2) in
  match decode_reset_vector word0 word1 with
  | None => Some (-1, pd, buffer)
  | Some target =>
      let pd := set_user_reset_vector (u16 target) pd in
      if 0x2000 <? bootloader_start pd then
        let data := 0x940C in
        buffer ← buf_set buffer 0 (Z.shiftr data 0);
        buffer ← buf_set buffer 1 (Z.shiftr data 8);
        buffer ← buf_set buffer 2 (Z.shiftr (bootloader_start pd) 0);
        buffer ← buf_set buffer 3 (Z.shiftr (bootloader_start pd) 8);
        Some (0, pd, buffer)
      else
        let data := u16 (Z.lor 0xC000
                           (Z.land (bootloader_start pd / 2 - 1) 0x0FFF)) in
        buffer ← buf_set buffer 0 (Z.shiftr data 0);
        buffer ← buf_set buffer 1 (Z.shiftr data 8);
        Some (0, pd, buffer)
  end.

Definition micronucleus_patch_user_vector (pd : pdata) (buffer : list Z)
    : option (list Z) :=
  let user_reset_addr := u16 (bootloader_start pd - 4) in
  let address := u16 (bootloader_start pd - page_size pd) in
  if 0x2000 <? user_reset_addr then
    let data := 0x940C in
    buffer ← buf_set buffer (user_reset_addr - address + 0) (Z.shiftr data 0);
    buffer ← buf_set buffer (user_reset_addr - address + 1) (Z.shiftr data 8);
    buffer ← buf_set buffer (user_reset_addr - address + 2)
                            (Z.shiftr (user_reset_vector pd) 0);
    buffer ← buf_set buffer (user_reset_addr - address + 3)
                            (Z.shiftr (user_reset_vector pd) 8);
    Some buffer
  else
    let data := u16 (Z.lor 0xC000
                       (Z.land (user_reset_vector pd - user_reset_addr / 2 - 1)
                               0x0FFF)) in
    buffer ← buf_set buffer (user_reset_addr - address + 0) (Z.shiftr data 0);
    buffer ← buf_set buffer (user_reset_addr - address + 1) (Z.shiftr data 8);
    Some buffer.

(** *** Page transfer *)

Definition micronucleus_write_page_v1 (pd : pdata) (address : Z)
    (buffer : list Z) (size : Z) : M Z :=
  let* (result, _) := usb_control_msg (usb_handle pd) REQUEST_OUT
                        MICRONUCLEUS_CMD_TRANSFER (to_int size) (to_int address)
                        buffer (to_int size) in
  if result <? 0 then ret result else ret 0.

(** The [for(uint32_t i = 0; i < size; i += 4)] loop, entered at [i]. *)
Fixpoint write_page_v2_loop (fuel : nat) (pd : pdata) (buffer : list Z)
    (size i : Z) : M Z :=
  if i <? size then
    match fuel with
    | O => out_of_fuel
    | S fuel' =>
        let* b0 := lift_option (buf_get buffer (i + 0)) in
        let* b1 := lift_option (buf_get buffer (i + 1)) in
        let* b2 := lift_option (buf_get buffer (i + 2)) in
        let* b3 := lift_option (buf_get buffer (i + 3)) in
        let w1 := Z.lor (Z.shiftl b1 8) (Z.shiftl b0 0) in
        let w2 := Z.lor (Z.shiftl b3 8) (Z.shiftl b2 0) in
        let* (result, _) := usb_control_msg (usb_handle pd) REQUEST_OUT
                              MICRONUCLEUS_CMD_PROGRAM w1 w2 [] 0 in
        if result <? 0 then ret result
        else write_page_v2_loop fuel' pd buffer size (i + 4)
    end
  else ret 0.

Definition micronucleus_write_page_v2 (pd : pdata) (address : Z)
    (buffer : list Z) (size : Z) : M Z :=
  let* (result, _) := usb_control_msg (usb_handle pd) REQUEST_OUT
                        MICRONUCLEUS_CMD_TRANSFER (to_int size) (to_int address)
                        [] 0 in
  if result <? 0 then ret result
  else write_page_v2_loop (Z.to_nat size) pd buffer size 0.

(** The tail of [micronucleus_write_page]: transfer and write sleep. *)
Definition write_page_transfer (pd : pdata) (address : Z) (buffer : list Z)
    (size : Z) : M (Z * pdata * list Z) :=
  let* result :=
    (if 2 <=? major_version pd
     then micronucleus_write_page_v2 pd address buffer size
     else micronucleus_write_page_v1 pd address buffer size) in
  if result <? 0 then ret (result, pd, buffer)
  else
    let* _ := delay_ms (write_sleep pd) in
    ret (0, pd, buffer).

(** [Write_page] records the entry into the function with its arguments.
    The buffer is returned because the patches change it in place. *)
Definition micronucleus_write_page (pd : pdata) (address : Z)
    (buffer : list Z) (size : Z) : M (Z * pdata * list Z) :=
  let* _ := emit (Write_page address buffer size) in
  if address =? 0 then
    if 2 <=? major_version pd then
      let* (result, pd', buffer') :=
        lift_option (micronucleus_patch_reset_vector pd buffer) in
      if result <? 0 then ret (result, pd', buffer')
      else
        let pd' := set_write_last_page true pd' in
        let pd' := set_start_program true pd' in
        write_page_transfer pd' address buffer' size
    else
      let pd := set_write_last_page true pd in
      let pd := set_start_program true pd in
      write_page_transfer pd address buffer size
  else if u32 (bootloader_start pd - page_size pd) <=? address then
    if 2 <=? major_version pd then
      let* buffer' := lift_option (micronucleus_patch_user_vector pd buffer) in
      let pd := set_write_last_page false pd in
      write_page_transfer pd address buffer' size
    else
      let pd := set_write_last_page false pd in
      write_page_transfer pd address buffer size
  else write_page_transfer pd address buffer size.

Definition micronucleus_start (pd : pdata) : M Z :=
  let* (result, _) := usb_control_msg (usb_handle pd) REQUEST_OUT
                        MICRONUCLEUS_CMD_START 0 0 [] 0 in
  if result <? 0 then ret result else ret 0.

(** *** Programmer interface *)

Definition micronucleus_initialize (pd : pdata) : M (Z * pdata) :=
  let* (result, pd) := micronucleus_get_bootloader_info pd in
  if result <? 0 then ret (result, pd) else ret (0, pd).

Definition micronucleus_powerdown (pd : pdata) : M pdata :=
  let* pd :=
    (if write_last_page pd then
       let pd := set_write_last_page false pd in
       let buffer := replicate (Z.to_nat (page_size pd)) 0xFF in
       let* (_, pd, _) :=
         micronucleus_write_page pd (u32 (bootloader_start pd - page_size pd))
                                 buffer (page_size pd) in
       ret pd
     else ret pd) in
  if start_program pd then
    let pd := set_start_program false pd in
    let* _ := micronucleus_start pd in
    ret pd
  else ret pd.

Definition micronucleus_chip_erase (pd : pdata) : M (Z * pdata) :=
  micronucleus_erase_device pd.

Definition micronucleus_read_sig_bytes (pd : pdata) (mem : AVRMEM)
    : option (Z * AVRMEM) :=
  if size mem <? 3 then Some (-1, mem)
  else
    b ← buf_set (buf mem) 0 0x1E;
    b ← buf_set b 1 (signature1 pd);
    b ← buf_set b 2 (signature2 pd);
    Some (0, set_buf b mem).

(** *** Discovery *)

(** The body of the device loop of [micronucleus_open]. *)
Definition scan_device (vid pid : Z) (port bus_name dev_name : option string)
    (bus : usb_bus) (device : usb_device) (pd : pdata) : M pdata :=
  if (idVendor device =? vid) && (idProduct device =? pid) then
    let pd := set_version (u8 (Z.shiftr (bcdDevice device) 8))
                          (u8 (Z.shiftr (bcdDevice device) 0)) pd in
    let* (responsive, pd) := micronucleus_is_device_responsive pd device in
    if negb responsive then ret pd
    else if match port with
            | Some _ =>
                match bus_name, dev_name with
                | Some bn, Some dn =>
                    negb (str_eq (dirname bus) bn)
                    || negb (str_eq (filename device) dn)
                | _, _ => true
                end
            | None => false
            end
    then ret pd
    else if MICRONUCLEUS_MAX_MAJOR_VERSION <? major_version pd then ret pd
    else
      let* h := usb_open device in
      ret (set_usb_handle h pd)
  else ret pd.

Fixpoint scan_devices (vid pid : Z) (port bus_name dev_name : option string)
    (bus : usb_bus) (devs : list usb_device) (pd : pdata) : M pdata :=
  match devs with
  | [] => ret pd
  | device :: rest =>
      match usb_handle pd with
      | Some _ => ret pd
      | None =>
          let* pd := scan_device vid pid port bus_name dev_name bus device pd in
          scan_devices vid pid port bus_name dev_name bus rest pd
      end
  end.

Fixpoint scan_busses (vid pid : Z) (port bus_name dev_name : option string)
    (busses : list usb_bus) (pd : pdata) : M pdata :=
  match busses with
  | [] => ret pd
  | bus :: rest =>
      match usb_handle pd with
      | Some _ => ret pd
      | None =>
          let* pd := scan_devices vid pid port bus_name dev_name bus
                                  (devices bus) pd in
          scan_busses vid pid port bus_name dev_name rest pd
      end
  end.

Definition usb_find : M (list usb_bus) :=
  fun w => let w' := Usb_find_devices :: w in Done (env_busses E w') w'.

Definition time : M Z :=
  fun w => let w' := Time_read :: w in Done (env_time E w') w'.

(** The [for(;;)] retry loop. *)
Fixpoint open_loop (fuel : nat) (vid pid : Z)
    (port bus_name dev_name : option string) (start_time : Z) (pd : pdata)
    : M pdata :=
  match fuel with
  | O => out_of_fuel
  | S fuel' =>
      let* busses := usb_find in
      let pd := set_usb_handle None pd in
      let* pd := scan_busses vid pid port bus_name dev_name busses pd in
      if match usb_handle pd with None => true | Some _ => false end
         && wait_until_device_present pd
      then
        if wait_timout pd <? 0 then
          let* _ := delay_ms MICRONUCLEUS_CONNECT_WAIT in
          open_loop fuel' vid pid port bus_name dev_name start_time pd
        else
          let* now := time in
          if now - start_time <? wait_timout pd then
            let* _ := delay_ms MICRONUCLEUS_CONNECT_WAIT in
            open_loop fuel' vid pid port bus_name dev_name start_time pd
          else ret pd
      else ret pd
  end.

Definition micronucleus_open (fuel : nat) (usbvid : Z) (usbpid : list Z)
    (pd : pdata) (port : string) : M (Z * pdata) :=
  let '(port, bus_name, dev_name) := parse_port port in
  if match port, dev_name with Some _, None => true | _, _ => false end
  then ret (-1, pd)
  else
    let vid := if usbvid =? 0 then MICRONUCLEUS_VID else usbvid in
    let pid := match usbpid with [] => MICRONUCLEUS_PID | p :: _ => p end in
    let* _ := emit Usb_init in
    let* start_time := time in
    let* pd := open_loop fuel vid pid port bus_name dev_name start_time pd in
    match usb_handle pd with
    | None => ret (-1, pd)
    | Some _ => ret (0, pd)
    end.

(** *** Paged write *)

(** The [while(n_bytes > 0)] loop. *)
Fixpoint paged_write_loop (fuel : nat) (pd : pdata) (mem : AVRMEM)
    (page_buffer : list Z) (addr n_bytes result : Z) : M (Z * pdata) :=
  if 0 <? n_bytes then
    match fuel with
    | O => out_of_fuel
    | S fuel' =>
        let chunk_size :=
          if n_bytes <? page_size pd then n_bytes else page_size pd in
        let* page_buffer :=
          lift_option (memcpy page_buffer (buf mem) addr chunk_size) in
        let* page_buffer :=
          lift_option (memset page_buffer chunk_size 0xFF
                              (page_size pd - chunk_size)) in
        let* (result, pd, page_buffer) :=
          micronucleus_write_page pd addr page_buffer (page_size pd) in
        if result <? 0 then ret (result, pd)
        else paged_write_loop fuel' pd mem page_buffer
               (u32 (addr + chunk_size)) (u32 (n_bytes - chunk_size)) result
    end
  else ret (result, pd).

Definition micronucleus_paged_write (fuel : nat) (pd : pdata) (mem : AVRMEM)
    (caller_page_size addr n_bytes : Z) : M (Z * pdata) :=
  if mem_is_flash mem then
    if caller_page_size <? n_bytes then ret (-1, pd)
    else if flash_size pd <? u32 (addr + n_bytes) then ret (-1, pd)
    else
      let page_buffer := replicate (Z.to_nat (page_size pd)) 0 in
      paged_write_loop fuel pd mem page_buffer addr n_bytes 0
  else ret (-1, pd).

End Driver.

(** ** Concrete sessions and environments used in examples *)

(** A freshly allocated, zeroed [struct pdata] with the given major version. *)
Definition fresh_pdata (major : Z) : pdata :=
  {| usb_handle := None; wait_until_device_present := false; wait_timout := 0;
     major_version := major; minor_version := 0;
     flash_size := 0; page_size := 0; write_sleep := 0;
     signature1 := 0; signature2 := 0;
     pages := 0; bootloader_start := 0; erase_sleep := 0;
     user_reset_vector := 0; write_last_page := false;
     start_program := false |}.

(** An environment whose control transfers always answer [reply], whose
    [usb_open] always succeeds and that sees no bus. *)
Definition steady_env (reply : Z * list Z) : environment :=
  {| env_control_msg := fun _ => reply;
     env_open := fun _ => true;
     env_busses := fun _ => [];
     env_time := fun _ => 0 |}.

(** The info request issued by the resolvers and by the connection probe. *)
Definition info_request (pd : pdata) (n : nat) : event :=
  Usb_control_msg (usb_handle pd) REQUEST_IN MICRONUCLEUS_CMD_INFO 0 0
                  (replicate n 0) (Z.of_nat n).

(** ** Specification-side definitions

    Predicates, observations on histories and the concrete sessions and
    environments the statements below refer to. *)

(** What the resolvers establish about the geometry fields. The start
    address is kept in a 16-bit field. *)
Definition geometry_derived (pd : pdata) : Prop :=
  0 <= flash_size pd < 65536 /\
  0 < page_size pd < 256 /\
  pages pd = ceil_div (flash_size pd) (page_size pd) /\
  bootloader_start pd = (pages pd * page_size pd) mod 65536.

(** The signature guess of the V1 resolver (the [if] chain on the page
    size), as it appears in the runs below. *)
Definition guess_signature (pd : pdata) : pdata :=
  if page_size pd =? 128 then set_signature 0x94 0x87 pd
  else if page_size pd =? 64 then
    if 4096 <? flash_size pd then set_signature 0x93 0x0B pd
    else set_signature 0x92 0x06 pd
  else if page_size pd =? 16 then set_signature 0x93 0x15 pd
  else set_signature 0 0 pd.

(** The outcome scenario A expects of the V1 resolver. *)
Definition scenario_A_claim (E : environment) (pd : pdata) (w : world) : Prop :=
  exists pd' w',
    micronucleus_get_bootloader_info_v1 E pd w = Done (0, pd') w' /\
    flash_size pd' = 4096 /\ page_size pd' = 64 /\ write_sleep pd' = 2 /\
    pages pd' = 64 /\ bootloader_start pd' = 4096 /\
    signature1 pd' = 0x93 /\ signature2 pd' = 0x0B.

(** The timing C4 expects of the V2 resolver, [byte4] being the fourth
    byte of the block. *)
Definition v2_timing_claim (E : environment) (pd : pdata) (w : world)
    (byte4 : Z) : Prop :=
  exists pd' w',
    micronucleus_get_bootloader_info_v2 E pd w = Done (0, pd') w' /\
    write_sleep pd' = Z.land byte4 127 + 2 /\
    erase_sleep pd' =
      if Z.testbit byte4 7 then write_sleep pd' * pages pd' / 4
      else write_sleep pd' * pages pd'.

(** The Bootloader Geometry of the session. *)
Definition geometry (pd : pdata) : Z * Z * Z * Z * Z * Z * Z * Z :=
  (flash_size pd, page_size pd, pages pd, bootloader_start pd,
   write_sleep pd, erase_sleep pd, signature1 pd, signature2 pd).

(** Everything in the session except the Session State (the two pending
    flags and the captured reset vector). *)
Definition device_part (pd : pdata)
    : option usb_dev_handle * Z * Z * bool * Z * (Z * Z * Z * Z * Z * Z * Z * Z) :=
  (usb_handle pd, major_version pd, minor_version pd,
   wait_until_device_present pd, wait_timout pd, geometry pd).

(** The page writes of a history, oldest first. *)
Fixpoint page_writes (w : world) : list (Z * list Z * Z) :=
  match w with
  | [] => []
  | Write_page address buffer size :: w' =>
      page_writes w' ++ [(address, buffer, size)]
  | _ :: w' => page_writes w'
  end.

(** The relation C3 expects between the decoded fields. *)
Definition geometry_claim (pd : pdata) : Prop :=
  pages pd = ceil_div (flash_size pd) (page_size pd) /\
  bootloader_start pd = pages pd * page_size pd.

(** The word at offset [i] of a page buffer, low byte first, as
    [micronucleus_patch_reset_vector] reads [word0] and [word1]. *)
Definition read_word (buffer : list Z) (i : Z) : option Z :=
  b0 ← buf_get buffer i;
  b1 ← buf_get buffer (i + 1);
  Some (u16 (Z.lor (Z.shiftl b1 8) b0)).

(** The decoding rule of [decode_reset_vector] applied to a branch that
    sits at byte address [addr]: a long jump names its target word, a
    relative jump encodes target - addr/2 - 1 in its low twelve bits. *)
Definition decode_branch_at (addr word0 word1 : Z) : option Z :=
  if word0 =? 0x940C then Some word1
  else if Z.land word0 0xF000 =? 0xC000
       then Some (addr / 2 + Z.land word0 0x0FFF + 1)
  else None.

(** The round trip C1 expects: page 0 starts with a branch to [target];
    after both patches the branch found at bootloader_start - 4 (offset
    page_size - 4 of the last page) decodes to [target] again. *)
Definition roundtrip_claim (pd : pdata) (page0 last : list Z) : Prop :=
  exists w0 w1 target pd1 page0' last' v0 v1,
    read_word page0 0 = Some w0 /\ read_word page0 2 = Some w1 /\
    decode_reset_vector w0 w1 = Some target /\
    micronucleus_patch_reset_vector pd page0 = Some (0, pd1, page0') /\
    micronucleus_patch_user_vector pd1 last = Some last' /\
    read_word last' (page_size pd - 4) = Some v0 /\
    read_word last' (page_size pd - 2) = Some v1 /\
    decode_branch_at (bootloader_start pd - 4) v0 v1 = Some target.

(** The round trip as the code performs it: after both patches the branch
    at offset page_size - 4 of the last page decodes, at byte address
    bootloader_start - 4, to a target congruent to the captured vector
    modulo 4096 words, and equal to it when that branch is a long jump.
    The last two clauses say which encoding each patch selects. *)
Definition roundtrip_modulo (pd : pdata) (page0 last : list Z) (target : Z)
    : Prop :=
  exists pd1 page0' last' v0 v1 target',
    micronucleus_patch_reset_vector pd page0 = Some (0, pd1, page0') /\
    user_reset_vector pd1 = target /\
    micronucleus_patch_user_vector pd1 last = Some last' /\
    read_word last' (page_size pd - 4) = Some v0 /\
    read_word last' (page_size pd - 2) = Some v1 /\
    decode_branch_at (bootloader_start pd - 4) v0 v1 = Some target' /\
    target' mod 4096 = target mod 4096 /\
    (0x2000 < bootloader_start pd - 4 -> target' = target) /\
    (read_word page0' 0 = Some 0x940C <-> 0x2000 < bootloader_start pd) /\
    (v0 = 0x940C <-> 0x2000 < bootloader_start pd - 4).

(** A V2 session with 64-byte pages and the bootloader at [start]. *)
Definition v2_session (start : Z) : pdata :=
  set_bootloader_start start
    (set_pages (start / 64) (set_info start 64 7 (fresh_pdata 2))).

(** [k] failed attempts to reopen [d], newest first: after each failed
    [usb_open] the driver sleeps [MICRONUCLEUS_CONNECT_WAIT]. *)
Definition failed_attempts (d : usb_device) (k : nat) : world :=
  concat (replicate k [Delay_ms MICRONUCLEUS_CONNECT_WAIT; Usb_open d]).

(** The history of a reconnect that needed [k] failed attempts out of at
    most [n]: the handle is closed, [k] attempts fail, and, if [k < n], one
    more attempt succeeds. *)
Definition reconnect_history (h : usb_dev_handle) (n k : nat) (w : world)
    : world :=
  (if (k <? n)%nat then [Usb_open (usb_device_of h)] else [])
  ++ failed_attempts (usb_device_of h) k ++ Usb_close (Some h) :: w.

(** The erase command and the history up to the connectivity probe. *)
Definition erase_request (pd : pdata) : event :=
  Usb_control_msg (usb_handle pd) REQUEST_OUT MICRONUCLEUS_CMD_ERASE 0 0 [] 0.

(** The size of the info block the session's protocol version asks for. *)
Definition info_size (pd : pdata) : nat :=
  if 2 <=? major_version pd then 6%nat else 4%nat.

(** The history after the erase command, the erase sleep and the
    connectivity probe. *)
Definition erase_probed (pd : pdata) (w : world) : world :=
  info_request pd (info_size pd)
    :: Delay_ms (erase_sleep pd) :: erase_request pd :: w.

(** Scenario D: the erase command ends in a broken pipe, every other
    control transfer is answered in full. *)
Definition scenario_D_env : environment :=
  {| env_control_msg := fun w =>
       match w with
       | Usb_control_msg _ _ request _ _ _ _ :: _ =>
           if request =? MICRONUCLEUS_CMD_ERASE then (- EPIPE, []) else (6, [])
       | _ => (0, [])
       end;
     env_open := fun _ => true;
     env_busses := fun _ => [];
     env_time := fun _ => 0 |}.

(** A Micronucleus V2.5 device named "004". *)
Definition some_device : usb_device :=
  {| filename := "004"; idVendor := MICRONUCLEUS_VID;
     idProduct := MICRONUCLEUS_PID; bcdDevice := 0x0205 |}.

(** The session with both pending flags raised. *)
Definition with_pending (pd : pdata) : pdata :=
  set_start_program true (set_write_last_page true pd).

(** The start command. *)
Definition start_request (pd : pdata) : event :=
  Usb_control_msg (usb_handle pd) REQUEST_OUT MICRONUCLEUS_CMD_START 0 0 [] 0.

(** The address and the buffer of the page write that [powerdown]
    synthesises. *)
Definition final_page_address (pd : pdata) : Z :=
  u32 (bootloader_start pd - page_size pd).

(** A page of [page_size] bytes 0xFF. *)
Definition blank_page (pd : pdata) : list Z :=
  replicate (Z.to_nat (page_size pd)) 0xFF.

(** What the V2 transfer needs of the geometry to stay inside its page
    buffer; a V1 session needs nothing. *)
Definition session_ok (pd : pdata) : Prop :=
  major_version pd < 2 \/
  (4 <= page_size pd /\ page_size pd mod 4 = 0 /\
   page_size pd <= bootloader_start pd < 65536).

(** What C7 expects of a powerdown: it returns with both flags false. *)
Definition powerdown_resets_claim (E : environment) (pd : pdata) (w : world)
    : Prop :=
  exists pd' w',
    micronucleus_powerdown E pd w = Done pd' w' /\
    write_last_page pd' = false /\ start_program pd' = false.

(** The [i]-th chunk the spec describes for a write of [n] bytes at [addr]
    with device page size [P]: its address, and the caller's bytes
    followed by 0xFF up to [P] bytes. *)
Definition chunk (src : list Z) (P addr n : Z) (i : nat) : Z * list Z :=
  let offset := addr + Z.of_nat i * P in
  let len := Z.min (n - Z.of_nat i * P) P in
  (offset,
   take (Z.to_nat len) (drop (Z.to_nat offset) src)
   ++ replicate (Z.to_nat (P - len)) 0xFF).

(** All ceil(n / P) chunks, in order. *)
Definition chunks (src : list Z) (P addr n : Z) : list (Z * list Z) :=
  map (chunk src P addr n) (seq 0 (Z.to_nat (ceil_div n P))).

(** Hand the chunks to the page-write routine one after another, each
    with size [page_size]; stop at the first one that fails. *)
Fixpoint write_chunks (E : environment) (pd : pdata)
    (cs : list (Z * list Z)) (result : Z) : M (Z * pdata) :=
  match cs with
  | [] => ret (result, pd)
  | (address, buffer) :: rest =>
      let* (r, pd', _) :=
        micronucleus_write_page E pd address buffer (page_size pd) in
      if r <? 0 then ret (r, pd') else write_chunks E pd' rest r
  end.

(** What C5 expects of every paged write that passes the bounds checks:
    the call returns and has handed ceil(S/P) buffers of P bytes to the
    page-write routine. *)
Definition chunking_claim (E : environment) (fuel : nat) (pd : pdata)
    (mem : AVRMEM) (caller_page_size addr n_bytes : Z) (w : world) : Prop :=
  exists r pd' w' calls,
    micronucleus_paged_write E fuel pd mem caller_page_size addr n_bytes w
      = Done (r, pd') w' /\
    page_writes w' = page_writes w ++ calls /\
    Z.of_nat (length calls) = ceil_div n_bytes (page_size pd) /\
    Forall (fun c => Z.of_nat (length (snd (fst c))) = page_size pd) calls.

(** The history of a probe of [d] that found it responsive: open, info
    request, close. *)
Definition probe_history (pd : pdata) (d : usb_device) (w : world) : world :=
  let h := Some {| usb_device_of := d |} in
  Usb_close h
    :: info_request (set_usb_handle h pd) (info_size pd)
    :: Usb_open d :: w.

(** The session version read from the device descriptor. *)
Definition with_device_version (d : usb_device) (pd : pdata) : pdata :=
  set_version (u8 (Z.shiftr (bcdDevice d) 8)) (u8 (Z.shiftr (bcdDevice d) 0)) pd.

(** A bus "001" carrying two responsive Micronucleus V2.5 devices, "005"
    listed before "004". *)
Definition device_005 : usb_device :=
  {| filename := "005"; idVendor := MICRONUCLEUS_VID;
     idProduct := MICRONUCLEUS_PID; bcdDevice := 0x0205 |}.

(** Scenario C: that bus is all the environment shows, and both devices
    answer the info request in full. *)
Definition scenario_C_env : environment :=
  {| env_control_msg := fun _ => (6, [0x18; 0x00; 0x40; 0x85; 0x93; 0x0B]);
     env_open := fun _ => true;
     env_busses := fun _ =>
       [{| dirname := "001"; devices := [device_005; some_device] |}];
     env_time := fun _ => 0 |}.

(** ** Further parts of the sources *)

(** *** The bootloader template index of [urbootlist.h] *)

Definition UL_MCU_N : Z := 166.
Definition UL_IOTYPE_N : Z := 31.
Definition UL_BLTYPE_N : Z := 3.
Definition UL_CONFIG_N : Z := 14.

(** The macro [UL_BLN(mcu, io, blt, cfg)]. *)
Definition UL_BLN (mcu io blt cfg : Z) : Z :=
  ((mcu * UL_IOTYPE_N + io) * UL_BLTYPE_N + blt) * UL_CONFIG_N + cfg.

(** *** Closing the session *)

Definition micronucleus_close (pd : pdata) : M pdata :=
  match usb_handle pd with
  | Some _ =>
      let* _ := usb_close (usb_handle pd) in
      ret (set_usb_handle None pd)
  | None => ret pd
  end.

(** *** Extended parameters *)

Definition set_wait (present : bool) (timeout : Z) (p : pdata) : pdata :=
  {| usb_handle := usb_handle p;
     wait_until_device_present := present;
     wait_timout := timeout;
     major_version := major_version p; minor_version := minor_version p;
     flash_size := flash_size p; page_size := page_size p;
     write_sleep := write_sleep p;
     signature1 := signature1 p; signature2 := signature2 p;
     pages := pages p; bootloader_start := bootloader_start p;
     erase_sleep := erase_sleep p;
     user_reset_vector := user_reset_vector p;
     write_last_page := write_last_page p;
     start_program := start_program p |}.

Section ExtendedParameters.

(** The C library's [atoi] and the constant [LIBAVRDUDE_EXIT] of
    libavrdude are taken as given. *)
Variable atoi : string -> Z.
Variable LIBAVRDUDE_EXIT : Z.

(** The loop over the parameter list. It returns at the first parameter
    that is neither [wait] nor [wait=...]; the usage text it prints there
    is a diagnostic. *)
Fixpoint micronucleus_parseextparams (pd : pdata) (xparams : list string)
    : Z * pdata :=
  match xparams with
  | [] => (0, pd)
  | extended_param :: rest =>
      if str_eq extended_param "wait"
      then micronucleus_parseextparams (set_wait true (-1) pd) rest
      else if str_starts extended_param "wait="
      then micronucleus_parseextparams
             (set_wait true (atoi (string_drop 5 extended_param)) pd) rest
      else if str_eq extended_param "help" then (LIBAVRDUDE_EXIT, pd)
      else (-1, pd)
  end.

End ExtendedParameters.

(** *** Observations used in the statements on the wire format *)

(** The two parameter words of each PROGRAM request of a history, oldest
    first. *)
Fixpoint program_words (w : world) : list (Z * Z) :=
  match w with
  | [] => []
  | Usb_control_msg _ _ request value index _ _ :: w' =>
      if request =? MICRONUCLEUS_CMD_PROGRAM
      then program_words w' ++ [(value, index)]
      else program_words w'
  | _ :: w' => program_words w'
  end.

(** The sleeps of a history, oldest first. *)
Fixpoint delays (w : world) : list Z :=
  match w with
  | [] => []
  | Delay_ms duration :: w' => delays w' ++ [duration]
  | _ :: w' => delays w'
  end.

(** Four bytes at a time as two little-endian words, and back. *)
Fixpoint words_of_bytes (l : list Z) : list (Z * Z) :=
  match l with
  | b0 :: b1 :: b2 :: b3 :: rest =>
      (Z.lor (Z.shiftl b1 8) (Z.shiftl b0 0),
       Z.lor (Z.shiftl b3 8) (Z.shiftl b2 0)) :: words_of_bytes rest
  | _ => []
  end.

Definition bytes_of_words (ws : list (Z * Z)) : list Z :=
  flat_map (fun p => [fst p mod 256; fst p / 256; snd p mod 256; snd p / 256])
           ws.

(** Whether a locator is [usb:<bus>:<device>] for the given names. *)
Definition locator (bus dev : string) : string :=
  ("usb:" ++ bus ++ ":" ++ dev)%string.

(** No character of [s] is a colon. *)
Fixpoint colon_free (s : string) : Prop :=
  match s with
  | EmptyString => True
  | String a s' => a <> ":"%char /\ colon_free s'
  end.

(** What discovery guarantees of a session that holds a handle: the device
    has the identifiers searched for, and the session carries its version,
    which is one this driver understands. *)
Definition retained_ok (vid pid : Z) (pd : pdata) : Prop :=
  match usb_handle pd with
  | None => True
  | Some h =>
      let d := usb_device_of h in
      idVendor d = vid /\ idProduct d = pid /\
      major_version pd = u8 (Z.shiftr (bcdDevice d) 8) /\
      minor_version pd = u8 (Z.shiftr (bcdDevice d) 0) /\
      major_version pd <= MICRONUCLEUS_MAX_MAJOR_VERSION
  end.

(** The identifiers [micronucleus_open] searches for. *)
Definition search_vid (usbvid : Z) : Z :=
  if usbvid =? 0 then MICRONUCLEUS_VID else usbvid.

Definition search_pid (usbpid : list Z) : Z :=
  match usbpid with [] => MICRONUCLEUS_PID | p :: _ => p end.

(** The extended parameters that [micronucleus_parseextparams] accepts
    and goes on after. *)
Definition is_wait_param (p : string) : bool :=
  str_eq p "wait" || str_starts p "wait=".

(** The timeout a wait parameter asks for. *)
Definition wait_timeout_of (atoi : string -> Z) (p : string) : Z :=
  if str_eq p "wait" then -1 else atoi (string_drop 5 p).

(** ** Observations used in the statements on bounds, reconnection and
    the scan *)

(** What C6 expects of a call whose address + size exceeds the flash size
    or whose size exceeds the caller's page size: -1, nothing added to the
    history, the session returned as it was. *)
Definition bounds_rejection_claim (E : environment) (fuel : nat) (pd : pdata)
    (mem : AVRMEM) (caller_page_size addr n_bytes : Z) (w : world) : Prop :=
  caller_page_size < n_bytes \/ flash_size pd < addr + n_bytes ->
  micronucleus_paged_write E fuel pd mem caller_page_size addr n_bytes w
  = Done (-1, pd) w.

(** What [usb_open] answers to reopen attempt number [j] (counted from 0)
    of a reconnect that starts in history [w] with handle [h]: the attempt
    comes after the close and [j] failed attempts. *)
Definition reopen_answer (E : environment) (h : usb_dev_handle) (w : world)
    (j : nat) : bool :=
  env_open E (Usb_open (usb_device_of h)
                :: failed_attempts (usb_device_of h) j
                ++ Usb_close (Some h) :: w).

(** The number of [usb_open] calls of a history. *)
Fixpoint opens (w : world) : nat :=
  match w with
  | [] => 0%nat
  | Usb_open _ :: w' => S (opens w')
  | _ :: w' => opens w'
  end.

(** Scenario D with a device that drops off the bus: the erase command
    ends in a broken pipe, the connectivity probe fails, and the device can
    be opened again only at the third attempt. *)
Definition scenario_D_reconnect_env : environment :=
  {| env_control_msg := fun w =>
       match w with
       | Usb_control_msg _ _ request _ _ _ _ :: _ =>
           if request =? MICRONUCLEUS_CMD_ERASE then (- EPIPE, []) else (-1, [])
       | _ => (0, [])
       end;
     env_open := fun w => (3 <=? opens w)%nat;
     env_busses := fun _ => [];
     env_time := fun _ => 0 |}.

(** The candidates of a scan in the order the two loops of
    [micronucleus_open] visit them. *)
Definition candidates (busses : list usb_bus) : list (usb_bus * usb_device) :=
  flat_map (fun b => map (fun d => (b, d)) (devices b)) busses.

(** The tests a responsive candidate has to pass to be retained when a
    locator is given: identifiers, bus and device name, version. *)
Definition accepted (vid pid : Z) (bn dn : string)
    (c : usb_bus * usb_device) : bool :=
  (idVendor (snd c) =? vid) && (idProduct (snd c) =? pid)
  && str_eq (dirname (fst c)) bn && str_eq (filename (snd c)) dn
  && (u8 (Z.shiftr (bcdDevice (snd c)) 8) <=? MICRONUCLEUS_MAX_MAJOR_VERSION).

Definition first_accepted (vid pid : Z) (bn dn : string)
    (busses : list usb_bus) : option usb_device :=
  match find (accepted vid pid bn dn) (candidates busses) with
  | Some c => Some (snd c)
  | None => None
  end.

(** An environment in which every device can be opened and answers every
    info request in full. *)
Definition all_respond (E : environment) : Prop :=
  (forall w, env_open E w = true) /\
  (forall w pd n,
     fst (env_control_msg E (info_request pd n :: w)) = Z.of_nat n).

(** Scenario C on two busses: a bus "002" with a V2.4 device named "004",
    then the bus "001" with the V2.5 devices "005" and "004", in this
    order. All three are responsive Micronucleus devices. *)
Definition device_002_004 : usb_device :=
  {| filename := "004"; idVendor := MICRONUCLEUS_VID;
     idProduct := MICRONUCLEUS_PID; bcdDevice := 0x0204 |}.

Definition scenario_C_busses : list usb_bus :=
  [{| dirname := "002"; devices := [device_002_004] |};
   {| dirname := "001"; devices := [device_005; some_device] |}].

Definition scenario_C_two_bus_env : environment :=
  {| env_control_msg := fun w =>
       match w with
       | Usb_control_msg _ _ _ _ _ _ size :: _ => (size, [])
       | _ => (0, [])
       end;
     env_open := fun _ => true;
     env_busses := fun _ => scenario_C_busses;
     env_time := fun _ => 0 |}.

(** The single request of a V1 page transfer: the page is its payload. *)
Definition transfer_request_v1 (pd : pdata) (address : Z) (buffer : list Z)
    (size : Z) : event :=
  Usb_control_msg (usb_handle pd) REQUEST_OUT MICRONUCLEUS_CMD_TRANSFER
                  (to_int size) (to_int address) buffer (to_int size).

(** A V1 session with pages of 64 bytes and the given bootloader start. *)
Definition v1_session (start : Z) : pdata :=
  set_bootloader_start start
    (set_pages (start / 64) (set_info start 64 7 (fresh_pdata 1))).

(** * Properties *)

(** ** Arithmetic helpers *)

Lemma u8_range x : 0 <= u8 x < 256.
Proof. unfold u8. apply Z.mod_pos_bound. lia. Qed.

Lemma u16_range x : 0 <= u16 x < 65536.
Proof. unfold u16. apply Z.mod_pos_bound. lia. Qed.

Lemma u32_range x : 0 <= u32 x < 4294967296.
Proof. unfold u32. apply Z.mod_pos_bound. lia. Qed.

Lemma u8_small x : 0 <= x < 256 -> u8 x = x.
Proof. intros H. unfold u8. apply Z.mod_small. exact H. Qed.

Lemma u16_small x : 0 <= x < 65536 -> u16 x = x.
Proof. intros H. unfold u16. apply Z.mod_small. exact H. Qed.

Lemma u32_small x : 0 <= x < 4294967296 -> u32 x = x.
Proof. intros H. unfold u32. apply Z.mod_small. exact H. Qed.

(** The rounding-up division of the resolvers is the ceiling. *)
Lemma round_up_div_ceil a b : 0 < b -> (a + b - 1) / b = ceil_div a b.
Proof.
  intros Hb. unfold ceil_div.
  pose proof (Z.div_mod (a + b - 1) b ltac:(lia)) as H1.
  pose proof (Z.mod_pos_bound (a + b - 1) b Hb) as H2.
  set (q := (a + b - 1) / b) in *.
  set (r := (a + b - 1) mod b) in *.
  assert (- a / b = - q) as ->; [| lia].
  symmetry. apply (Z.div_unique (- a) b (- q) (b - 1 - r)); lia.
Qed.

Lemma ceil_div_bounds a b :
  0 < b -> a <= ceil_div a b * b < a + b.
Proof.
  intros Hb. rewrite <- round_up_div_ceil by exact Hb.
  pose proof (Z.div_mod (a + b - 1) b ltac:(lia)) as H1.
  pose proof (Z.mod_pos_bound (a + b - 1) b Hb) as H2.
  nia.
Qed.

Lemma page_count_fits fs ps :
  0 <= fs < 65536 -> 0 < ps -> 0 <= (fs + ps - 1) / ps < 65536.
Proof.
  intros Hfs Hps. split.
  - apply Z.div_pos; lia.
  - apply Z.div_lt_upper_bound; nia.
Qed.

Lemma land_127_range x : 0 <= Z.land x 127 < 128.
Proof.
  change 127 with (Z.ones 7). rewrite Z.land_ones by lia.
  apply Z.mod_pos_bound. lia.
Qed.

(** ** Buffers *)

Lemma length_receive data bytes : length (receive data bytes) = length bytes.
Proof.
  unfold receive. rewrite length_app, length_map, length_take, length_drop. lia.
Qed.

Lemma buf_get_is_Some buffer i :
  0 <= i < Z.of_nat (length buffer) -> exists b, buf_get buffer i = Some b.
Proof.
  intros H. unfold buf_get.
  destruct (Z.ltb_spec i 0); [lia |].
  apply lookup_lt_is_Some. lia.
Qed.

Lemma buf_get_receive_range data bytes i b :
  Forall (fun x => 0 <= x < 256) bytes ->
  buf_get (receive data bytes) i = Some b -> 0 <= b < 256.
Proof.
  intros Hbytes. unfold buf_get. destruct (i <? 0); [discriminate |].
  intros H. apply list_elem_of_lookup_2 in H.
  unfold receive in H. apply elem_of_app in H as [H | H].
  - apply list_elem_of_fmap in H as (x & -> & _). apply u8_range.
  - rewrite Forall_forall in Hbytes. apply Hbytes.
    eapply subseteq_drop. exact H.
Qed.

Lemma zeros_are_bytes n : Forall (fun x => 0 <= x < 256) (replicate n 0).
Proof. apply Forall_replicate. lia. Qed.

(** ** The info resolvers *)

Lemma derive_geometry_Some pd pd' :
  0 <= flash_size pd < 65536 ->
  0 <= page_size pd < 256 ->
  derive_geometry pd = Some pd' ->
  geometry_derived pd' /\
  flash_size pd' = flash_size pd /\ page_size pd' = page_size pd /\
  write_sleep pd' = write_sleep pd /\
  signature1 pd' = signature1 pd /\ signature2 pd' = signature2 pd /\
  erase_sleep pd' = (write_sleep pd * pages pd') mod 65536.
Proof.
  intros Hfs Hps. unfold derive_geometry.
  destruct (Z.eqb_spec (page_size pd) 0) as [|Hne]; [discriminate |].
  intros [= <-]. cbn.
  assert (0 < page_size pd) as Hpos by lia.
  rewrite (u16_small ((flash_size pd + page_size pd - 1) / page_size pd))
    by (apply page_count_fits; lia).
  rewrite round_up_div_ceil by exact Hpos.
  unfold geometry_derived; cbn. unfold u16. repeat split; try lia; reflexivity.
Qed.

Lemma derive_geometry_defined pd :
  page_size pd <> 0 -> exists pd', derive_geometry pd = Some pd'.
Proof.
  intros Hne. unfold derive_geometry.
  destruct (Z.eqb_spec (page_size pd) 0); [contradiction | eauto].
Qed.

Section Resolver.

Variable E : environment.

Lemma bind_Done {A B : Type} (c : M A) (k : A -> M B) w b w' :
  bind c k w = Done b w' ->
  exists a w1, c w = Done a w1 /\ k a w1 = Done b w'.
Proof.
  unfold bind. destruct (c w) as [a w1| |]; [eauto | discriminate | discriminate].
Qed.

Lemma lift_option_Done {A : Type} (o : option A) w a w' :
  lift_option o w = Done a w' -> o = Some a /\ w' = w.
Proof.
  destruct o; cbn; [intros [= -> ->]; auto | discriminate].
Qed.

Lemma request_in_is_in : (Z.land REQUEST_IN USB_ENDPOINT_IN =? 0) = false.
Proof. reflexivity. Qed.

Lemma request_out_is_out : (Z.land REQUEST_OUT USB_ENDPOINT_IN =? 0) = true.
Proof. reflexivity. Qed.

Lemma receive_bytes data bytes :
  Forall (fun x => 0 <= x < 256) bytes ->
  Forall (fun x => 0 <= x < 256) (receive data bytes).
Proof.
  intros H. unfold receive. apply Forall_app. split.
  - apply Forall_fmap, Forall_true. intros x. apply u8_range.
  - apply Forall_drop. exact H.
Qed.

Lemma receive_4 data :
  exists b0 b1 b2 b3,
    receive data (replicate 4 0) = [b0; b1; b2; b3] /\
    0 <= b0 < 256 /\ 0 <= b1 < 256 /\ 0 <= b2 < 256 /\ 0 <= b3 < 256.
Proof.
  pose proof (length_receive data (replicate 4 0)) as Hlen.
  pose proof (receive_bytes data _ (zeros_are_bytes 4)) as Hall.
  destruct (receive data (replicate 4 0)) as [|b0 [|b1 [|b2 [|b3 [|? ?]]]]];
    try discriminate Hlen.
  exists b0, b1, b2, b3.
  repeat match goal with H : Forall _ (_ :: _) |- _ =>
    apply Forall_cons in H as [? H] end.
  auto.
Qed.

Lemma receive_6 data :
  exists b0 b1 b2 b3 b4 b5,
    receive data (replicate 6 0) = [b0; b1; b2; b3; b4; b5] /\
    0 <= b0 < 256 /\ 0 <= b1 < 256 /\ 0 <= b2 < 256 /\ 0 <= b3 < 256 /\
    0 <= b4 < 256 /\ 0 <= b5 < 256.
Proof.
  pose proof (length_receive data (replicate 6 0)) as Hlen.
  pose proof (receive_bytes data _ (zeros_are_bytes 6)) as Hall.
  destruct (receive data (replicate 6 0))
    as [|b0 [|b1 [|b2 [|b3 [|b4 [|b5 [|? ?]]]]]]]; try discriminate Hlen.
  exists b0, b1, b2, b3, b4, b5.
  repeat match goal with H : Forall _ (_ :: _) |- _ =>
    apply Forall_cons in H as [? H] end.
  repeat split; lia.
Qed.

Lemma guess_signature_fields pd :
  flash_size (guess_signature pd) = flash_size pd /\
  page_size (guess_signature pd) = page_size pd /\
  write_sleep (guess_signature pd) = write_sleep pd.
Proof. unfold guess_signature. repeat case_match; auto. Qed.

(** The run of the V1 resolver when the answer fills the buffer. *)
Lemma info_v1_run pd w r data b0 b1 b2 b3 :
  env_control_msg E (info_request pd 4 :: w) = (r, data) ->
  receive data (replicate 4 0) = [b0; b1; b2; b3] ->
  4 <= r ->
  micronucleus_get_bootloader_info_v1 E pd w =
  lift_option
    (pd' ← derive_geometry
       (guess_signature
          (set_info (u16 (Z.lor (Z.shiftl b0 8) b1)) (u8 b2)
                    (u8 (Z.land b3 127)) pd));
     Some (0, pd'))
    (info_request pd 4 :: w).
Proof.
  intros Hresp Hrecv Hr.
  unfold micronucleus_get_bootloader_info_v1, bind, usb_control_msg.
  change (Usb_control_msg (usb_handle pd) REQUEST_IN MICRONUCLEUS_CMD_INFO 0 0
            (replicate 4 0) 4) with (info_request pd 4).
  rewrite Hresp, request_in_is_in, Hrecv.
  destruct (Z.ltb_spec r 0); [lia |].
  destruct (Z.ltb_spec r 4); [lia |].
  unfold buf_get, guess_signature. simpl.
  destruct (derive_geometry _); reflexivity.
Qed.

Lemma info_v1_short pd w r data :
  env_control_msg E (info_request pd 4 :: w) = (r, data) ->
  r < 4 ->
  micronucleus_get_bootloader_info_v1 E pd w =
  Done (if r <? 0 then r else -1, pd) (info_request pd 4 :: w).
Proof.
  intros Hresp Hr.
  unfold micronucleus_get_bootloader_info_v1, bind, usb_control_msg.
  change (Usb_control_msg (usb_handle pd) REQUEST_IN MICRONUCLEUS_CMD_INFO 0 0
            (replicate 4 0) 4) with (info_request pd 4).
  rewrite Hresp.
  destruct (Z.ltb_spec r 0); [reflexivity |].
  destruct (Z.ltb_spec r 4); [reflexivity | lia].
Qed.

(** The run of the V2 resolver when the answer fills the buffer. *)
Lemma info_v2_run pd w r data b0 b1 b2 b3 b4 b5 :
  env_control_msg E (info_request pd 6 :: w) = (r, data) ->
  receive data (replicate 6 0) = [b0; b1; b2; b3; b4; b5] ->
  6 <= r ->
  micronucleus_get_bootloader_info_v2 E pd w =
  lift_option
    (pd' ← derive_geometry
       (set_signature (u8 b4) (u8 b5)
          (set_info (u16 (Z.shiftl b0 8 + b1)) (u8 b2)
                    (u8 (Z.land b3 127 + 2)) pd));
     Some (0, if negb (Z.land b3 128 =? 0)
              then set_erase_sleep (u16 (erase_sleep pd' / 4)) pd'
              else pd'))
    (info_request pd 6 :: w).
Proof.
  intros Hresp Hrecv Hr.
  unfold micronucleus_get_bootloader_info_v2, bind, usb_control_msg.
  change (Usb_control_msg (usb_handle pd) REQUEST_IN MICRONUCLEUS_CMD_INFO 0 0
            (replicate 6 0) 6) with (info_request pd 6).
  rewrite Hresp, request_in_is_in, Hrecv.
  destruct (Z.ltb_spec r 0); [lia |].
  destruct (Z.ltb_spec r 6); [lia |].
  unfold buf_get. simpl. destruct (derive_geometry _); reflexivity.
Qed.

Lemma info_v2_short pd w r data :
  env_control_msg E (info_request pd 6 :: w) = (r, data) ->
  r < 6 ->
  micronucleus_get_bootloader_info_v2 E pd w =
  Done (if r <? 0 then r else -1, pd) (info_request pd 6 :: w).
Proof.
  intros Hresp Hr.
  unfold micronucleus_get_bootloader_info_v2, bind, usb_control_msg.
  change (Usb_control_msg (usb_handle pd) REQUEST_IN MICRONUCLEUS_CMD_INFO 0 0
            (replicate 6 0) 6) with (info_request pd 6).
  rewrite Hresp.
  destruct (Z.ltb_spec r 0); [reflexivity |].
  destruct (Z.ltb_spec r 6); [reflexivity | lia].
Qed.

Lemma geometry_derived_erase_sleep v pd :
  geometry_derived pd -> geometry_derived (set_erase_sleep v pd).
Proof. intros H. exact H. Qed.

Lemma info_v1_success pd w pd' w' :
  micronucleus_get_bootloader_info_v1 E pd w = Done (0, pd') w' ->
  geometry_derived pd'.
Proof.
  destruct (env_control_msg E (info_request pd 4 :: w)) as [r data] eqn:Hresp.
  destruct (Z.lt_ge_cases r 4) as [Hr | Hr].
  - rewrite (info_v1_short _ _ _ _ Hresp Hr).
    intros [= Hcode _ _]. destruct (Z.ltb_spec r 0); lia.
  - destruct (receive_4 data) as (b0 & b1 & b2 & b3 & Hrecv & _).
    rewrite (info_v1_run _ _ _ _ _ _ _ _ Hresp Hrecv Hr).
    destruct (derive_geometry _) as [pd1|] eqn:Hd; [| discriminate].
    cbn. intros [= <- _].
    pose proof (guess_signature_fields
                  (set_info (u16 (Z.lor (Z.shiftl b0 8) b1)) (u8 b2)
                            (u8 (Z.land b3 127)) pd)) as (Hf & Hp & _).
    cbn in Hf, Hp.
    apply derive_geometry_Some in Hd as [Hg _]; [exact Hg | |].
    + rewrite Hf. apply u16_range.
    + rewrite Hp. apply u8_range.
Qed.

Lemma info_v2_success pd w pd' w' :
  micronucleus_get_bootloader_info_v2 E pd w = Done (0, pd') w' ->
  geometry_derived pd'.
Proof.
  destruct (env_control_msg E (info_request pd 6 :: w)) as [r data] eqn:Hresp.
  destruct (Z.lt_ge_cases r 6) as [Hr | Hr].
  - rewrite (info_v2_short _ _ _ _ Hresp Hr).
    intros [= Hcode _ _]. destruct (Z.ltb_spec r 0); lia.
  - destruct (receive_6 data) as (b0 & b1 & b2 & b3 & b4 & b5 & Hrecv & _).
    rewrite (info_v2_run _ _ _ _ _ _ _ _ _ _ Hresp Hrecv Hr).
    destruct (derive_geometry _) as [pd1|] eqn:Hd; [| discriminate].
    cbn. intros [= <- _].
    apply derive_geometry_Some in Hd as [Hg _];
      [| cbn; apply u16_range | cbn; apply u8_range].
    destruct (negb _); [apply geometry_derived_erase_sleep |]; exact Hg.
Qed.

Lemma info_success pd w pd' w' :
  micronucleus_get_bootloader_info E pd w = Done (0, pd') w' ->
  geometry_derived pd'.
Proof.
  unfold micronucleus_get_bootloader_info.
  destruct (2 <=? major_version pd);
    [apply info_v2_success | apply info_v1_success].
Qed.

End Resolver.

(** ** Scenario A: the V1 info block [0x10, 0x00, 0x40, 0x02] *)

(** C2, as stated, fails: on the block of scenario A the resolver does not
    guess the signature (0x93, 0x0B). *)
Lemma scenario_A_signature_counterexample :
  ~ scenario_A_claim (steady_env (4, [0x10; 0x00; 0x40; 0x02])) (fresh_pdata 1) [].
Proof.
  intros (pd' & w' & Hrun & _ & _ & _ & _ & _ & Hs1 & _).
  vm_compute in Hrun. injection Hrun as <- _.
  discriminate Hs1.
Qed.

(** C2 (amended): for the V1 info block [0x10, 0x00, 0x40, 0x02] the
    resolver yields flash_size 4096, page_size 64, write_sleep 2,
    page_count 64, bootloader_start 4096 and the guessed signature
    (0x92, 0x06): a flash size of exactly 4096 is not greater than 4096, so
    the page-size-64 rule takes its other (ATtiny45) branch. *)
Theorem scenario_A_decode (E : environment) (pd : pdata) (w : world) :
  env_control_msg E (info_request pd 4 :: w) = (4, [0x10; 0x00; 0x40; 0x02]) ->
  exists pd',
    micronucleus_get_bootloader_info_v1 E pd w
      = Done (0, pd') (info_request pd 4 :: w) /\
    flash_size pd' = 4096 /\ page_size pd' = 64 /\ write_sleep pd' = 2 /\
    pages pd' = 64 /\ bootloader_start pd' = 4096 /\
    signature1 pd' = 0x92 /\ signature2 pd' = 0x06.
Proof.
  intros Hresp.
  rewrite (info_v1_run E pd w 4 _ 0x10 0x00 0x40 0x02 Hresp eq_refl ltac:(lia)).
  eexists. split; [reflexivity |].
  repeat split.
Qed.

Lemma scenario_A_decode_witness :
  exists pd',
    micronucleus_get_bootloader_info_v1
      (steady_env (4, [0x10; 0x00; 0x40; 0x02])) (fresh_pdata 1) []
      = Done (0, pd') [info_request (fresh_pdata 1) 4] /\
    flash_size pd' = 4096 /\ page_size pd' = 64 /\ write_sleep pd' = 2 /\
    pages pd' = 64 /\ bootloader_start pd' = 4096 /\
    signature1 pd' = 0x92 /\ signature2 pd' = 0x06.
Proof.
  apply (scenario_A_decode (steady_env (4, [0x10; 0x00; 0x40; 0x02]))
           (fresh_pdata 1) []).
  reflexivity.
Defined.

(** ** V2 timing *)

Lemma land_128_testbit b :
  (Z.land b 128 =? 0) = negb (Z.testbit b 7).
Proof.
  assert (Z.land b 128 = if Z.testbit b 7 then 128 else 0) as ->.
  { apply Z.bits_inj'. intros n Hn.
    rewrite Z.land_spec. change 128 with (2 ^ 7).
    rewrite Z.pow2_bits_eqb by lia.
    destruct (Z.eqb_spec 7 n) as [<- | Hne].
    - rewrite andb_true_r. destruct (Z.testbit b 7).
      + rewrite Z.pow2_bits_eqb by lia. reflexivity.
      + rewrite Z.bits_0. reflexivity.
    - rewrite andb_false_r. destruct (Z.testbit b 7).
      + rewrite Z.pow2_bits_eqb by lia. symmetry. apply Z.eqb_neq. exact Hne.
      + rewrite Z.bits_0. reflexivity. }
  destruct (Z.testbit b 7); reflexivity.
Qed.

(** C4, as stated, fails: for the block [0x80, 0x00, 0x40, 0x7F, 0x93, 0x0B]
    (flash 32768, page 64, so 512 pages; write sleep 129) the product
    129 * 512 does not fit the 16-bit erase_sleep field, which holds 512. *)
Lemma v2_timing_counterexample :
  ~ v2_timing_claim (steady_env (6, [0x80; 0x00; 0x40; 0x7F; 0x93; 0x0B]))
                    (fresh_pdata 2) [] 0x7F.
Proof.
  intros (pd' & w' & Hrun & _ & He).
  vm_compute in Hrun. injection Hrun as <- _.
  vm_compute in He. discriminate He.
Qed.

(** C4 (amended): for every six-byte V2 info block with a nonzero page
    size, write_sleep is (byte4 & 127) + 2 and erase_sleep is
    write_sleep * page_count reduced modulo 65536 (the field is 16 bits
    wide), divided by 4 with integer division when bit 7 of byte 4 is set;
    it is write_sleep * page_count itself (divided by 4 when bit 7 is set)
    whenever that product is below 65536. For byte4 = 0x85: write_sleep is 7
    and erase_sleep is ((7 * page_count) mod 65536) / 4. *)
Theorem v2_timing (E : environment) (pd : pdata) (w : world)
    (r : Z) (data : list Z) (b0 b1 b2 b3 b4 b5 : Z) :
  env_control_msg E (info_request pd 6 :: w) = (r, data) ->
  receive data (replicate 6 0) = [b0; b1; b2; b3; b4; b5] ->
  6 <= r ->
  u8 b2 <> 0 ->
  exists pd',
    micronucleus_get_bootloader_info_v2 E pd w
      = Done (0, pd') (info_request pd 6 :: w) /\
    write_sleep pd' = Z.land b3 127 + 2 /\
    erase_sleep pd' =
      (if Z.testbit b3 7
       then (write_sleep pd' * pages pd') mod 65536 / 4
       else (write_sleep pd' * pages pd') mod 65536) /\
    (write_sleep pd' * pages pd' < 65536 ->
     erase_sleep pd' =
       if Z.testbit b3 7 then write_sleep pd' * pages pd' / 4
       else write_sleep pd' * pages pd') /\
    (b3 = 0x85 ->
     write_sleep pd' = 7 /\
     erase_sleep pd' = (7 * pages pd') mod 65536 / 4).
Proof.
  intros Hresp Hrecv Hr Hps.
  rewrite (info_v2_run E pd w r data _ _ _ _ _ _ Hresp Hrecv Hr).
  set (pdi := set_signature (u8 b4) (u8 b5)
                (set_info (u16 (Z.shiftl b0 8 + b1)) (u8 b2)
                          (u8 (Z.land b3 127 + 2)) pd)).
  destruct (derive_geometry_defined pdi Hps) as [pd1 Hd].
  rewrite Hd.
  apply derive_geometry_Some in Hd
    as ((Hfs & Hpsr & Hpages & _) & _ & _ & Hws & _ & _ & Hes);
    [| cbn; apply u16_range | cbn; apply u8_range].
  cbn in Hws.
  pose proof (land_127_range b3) as Hland.
  rewrite (u8_small (Z.land b3 127 + 2)) in Hws by lia.
  assert (0 <= pages pd1) as Hpg.
  { pose proof (ceil_div_bounds (flash_size pd1) (page_size pd1)
                  ltac:(lia)) as Hb.
    rewrite <- Hpages in Hb. nia. }
  pose proof (Z.mod_pos_bound (write_sleep pdi * pages pd1) 65536
                ltac:(lia)) as Hmod.
  assert (write_sleep pdi = Z.land b3 127 + 2) as Hwsi
    by (subst pdi; cbn; apply u8_small; lia).
  rewrite Hwsi in Hes, Hmod.
  rewrite land_128_testbit, negb_involutive.
  eexists. split; [reflexivity |].
  destruct (Z.testbit b3 7) eqn:Hbit; cbn.
  - rewrite Hes.
    assert (0 <= ((Z.land b3 127 + 2) * pages pd1) mod 65536 / 4 < 65536) as Hq.
    { split; [apply Z.div_pos; lia |].
      apply Z.div_lt_upper_bound; lia. }
    rewrite (u16_small _ Hq), Hws.
    split; [reflexivity |]. split; [reflexivity |]. split.
    + intros Hlt. rewrite Z.mod_small by nia. reflexivity.
    + intros ->. split; reflexivity.
  - rewrite Hes, Hws.
    split; [reflexivity |]. split; [reflexivity |]. split.
    + intros Hlt. rewrite Z.mod_small by nia. reflexivity.
    + intros ->. discriminate Hbit.
Qed.

Lemma v2_timing_witness :
  exists pd',
    micronucleus_get_bootloader_info_v2
      (steady_env (6, [0x18; 0x00; 0x40; 0x85; 0x93; 0x0B])) (fresh_pdata 2) []
      = Done (0, pd') [info_request (fresh_pdata 2) 6] /\
    write_sleep pd' = Z.land 0x85 127 + 2 /\
    erase_sleep pd' =
      (if Z.testbit 0x85 7
       then (write_sleep pd' * pages pd') mod 65536 / 4
       else (write_sleep pd' * pages pd') mod 65536) /\
    (write_sleep pd' * pages pd' < 65536 ->
     erase_sleep pd' =
       if Z.testbit 0x85 7 then write_sleep pd' * pages pd' / 4
       else write_sleep pd' * pages pd') /\
    (0x85 = 0x85 ->
     write_sleep pd' = 7 /\
     erase_sleep pd' = (7 * pages pd') mod 65536 / 4).
Proof.
  apply (v2_timing (steady_env (6, [0x18; 0x00; 0x40; 0x85; 0x93; 0x0B]))
           (fresh_pdata 2) [] 6 [0x18; 0x00; 0x40; 0x85; 0x93; 0x0B]
           0x18 0x00 0x40 0x85 0x93 0x0B).
  - reflexivity.
  - reflexivity.
  - lia.
  - vm_compute. discriminate.
Defined.

(** ** Runs: inversion of the monad and of the primitives *)

Lemma ret_Done {A : Type} (a b : A) w w' :
  ret a w = Done b w' -> b = a /\ w' = w.
Proof. intros [= -> ->]. auto. Qed.

Lemma emit_Done e w u w' : emit e w = Done u w' -> w' = e :: w.
Proof. intros [= _ <-]. reflexivity. Qed.

Lemma usb_control_msg_Done E h rt rq v i bytes s w r b w' :
  usb_control_msg E h rt rq v i bytes s w = Done (r, b) w' ->
  w' = Usb_control_msg h rt rq v i bytes s :: w /\
  r = fst (env_control_msg E w').
Proof.
  unfold usb_control_msg.
  destruct (env_control_msg E _) as [r0 d0] eqn:Hresp.
  intros [= <- _ <-]. rewrite Hresp. auto.
Qed.

Lemma usb_open_Done E device w h w' :
  usb_open E device w = Done h w' ->
  w' = Usb_open device :: w /\
  h = if env_open E w' then Some {| usb_device_of := device |} else None.
Proof. unfold usb_open. intros [= <- <-]. auto. Qed.

(** Take apart a hypothesis that says a run has finished. *)
Ltac run_inv :=
  repeat match goal with
  | H : bind _ _ _ = Done _ _ |- _ =>
      apply bind_Done in H as (? & ? & ? & H)
  | H : ret _ _ = Done _ _ |- _ =>
      apply ret_Done in H as [? ?]; subst
  | H : lift_option _ _ = Done _ _ |- _ =>
      apply lift_option_Done in H as [? ?]; subst
  | H : undefined _ = Done _ _ |- _ => discriminate H
  | H : out_of_fuel _ = Done _ _ |- _ => discriminate H
  | H : emit _ _ = Done _ _ |- _ => apply emit_Done in H; subst
  | H : usb_control_msg _ _ _ _ _ _ _ _ _ = Done _ _ |- _ =>
      apply usb_control_msg_Done in H as [? ?]; subst
  | H : usb_open _ _ _ = Done _ _ |- _ =>
      apply usb_open_Done in H as [? ?]; subst
  | H : delay_ms _ _ = Done _ _ |- _ => apply emit_Done in H; subst
  | H : usb_close _ _ = Done _ _ |- _ => apply emit_Done in H; subst
  | H : (_, _) = (_, _) |- _ => injection H as ? ?; subst
  | H : (match ?x with (_, _) => _ end) _ = Done _ _ |- _ => destruct x
  | H : (if ?c then _ else _) _ = Done _ _ |- _ => destruct c eqn:?
  | H : (match (if ?c then _ else _) with Some _ => _ | None => _ end) _
        = Done _ _ |- _ => destruct c eqn:?
  | H : (match ?x with Some _ => _ | None => _ end) _ = Done _ _ |- _ =>
      destruct x eqn:?
  end.

Section Runs.

Variable E : environment.

(** *** Page transfer: what changes and what is logged *)

Lemma write_page_v1_writes pd a b s w r w' :
  micronucleus_write_page_v1 E pd a b s w = Done r w' ->
  page_writes w' = page_writes w.
Proof.
  unfold micronucleus_write_page_v1. intros H. run_inv; reflexivity.
Qed.

Lemma write_page_v2_loop_writes fuel pd b s i w r w' :
  write_page_v2_loop E fuel pd b s i w = Done r w' ->
  page_writes w' = page_writes w.
Proof.
  revert i w. induction fuel as [|fuel IH]; intros i w; cbn.
  - destruct (i <? s); intros H; run_inv. reflexivity.
  - destruct (i <? s); intros H; run_inv; [reflexivity | | reflexivity].
    apply IH in H. exact H.
Qed.

Lemma write_page_v2_writes pd a b s w r w' :
  micronucleus_write_page_v2 E pd a b s w = Done r w' ->
  page_writes w' = page_writes w.
Proof.
  unfold micronucleus_write_page_v2. intros H. run_inv; [reflexivity |].
  apply write_page_v2_loop_writes in H. exact H.
Qed.

Lemma write_page_transfer_Done pd a b s w r pd' b' w' :
  write_page_transfer E pd a b s w = Done (r, pd', b') w' ->
  pd' = pd /\ b' = b /\ page_writes w' = page_writes w.
Proof.
  unfold write_page_transfer. intros H. run_inv;
    match goal with
    | H : micronucleus_write_page_v2 _ _ _ _ _ _ = _ |- _ =>
        apply write_page_v2_writes in H
    | H : micronucleus_write_page_v1 _ _ _ _ _ _ = _ |- _ =>
        apply write_page_v1_writes in H
    end; auto.
Qed.

Lemma patch_reset_vector_Some pd b r pd' b' :
  micronucleus_patch_reset_vector pd b = Some (r, pd', b') ->
  device_part pd' = device_part pd /\
  write_last_page pd' = write_last_page pd /\
  start_program pd' = start_program pd /\
  (r = 0 \/ (r = -1 /\ pd' = pd /\ b' = b)).
Proof.
  unfold micronucleus_patch_reset_vector. intros H.
  repeat (apply bind_Some in H as (? & ? & H)).
  destruct (decode_reset_vector _ _).
  - destruct (_ <? _);
      repeat (apply bind_Some in H as (? & ? & H));
      injection H as <- <- <-; auto.
  - injection H as <- <- <-. repeat split; auto.
Qed.

Lemma write_page_Done pd a b s w r pd' b' w' :
  micronucleus_write_page E pd a b s w = Done (r, pd', b') w' ->
  device_part pd' = device_part pd /\
  page_writes w' = page_writes w ++ [(a, b, s)].
Proof.
  unfold micronucleus_write_page. intros H. run_inv;
    repeat match goal with
    | H : write_page_transfer _ _ _ _ _ _ = Done _ _ |- _ =>
        apply write_page_transfer_Done in H as (-> & -> & ->)
    | H : micronucleus_patch_reset_vector _ _ = Some _ |- _ =>
        apply patch_reset_vector_Some in H as (? & _)
    end; auto.
Qed.

Lemma device_part_geometry pd pd' :
  device_part pd' = device_part pd -> geometry pd' = geometry pd.
Proof. unfold device_part. intros H. congruence. Qed.

Lemma device_part_page_size pd pd' :
  device_part pd' = device_part pd -> page_size pd' = page_size pd.
Proof. unfold device_part, geometry. intros H. congruence. Qed.

(** *** Operations after initialisation keep the geometry *)

Lemma reconnect_loop_geometry n device pd w r pd' w' :
  reconnect_loop E n device pd w = Done (r, pd') w' ->
  geometry pd' = geometry pd.
Proof.
  revert pd w. induction n as [|n IH]; intros pd w; cbn; intros H; run_inv;
    try reflexivity.
  match goal with
  | H : reconnect_loop _ _ _ _ _ = Done _ _ |- _ => apply IH in H; exact H
  end.
Qed.

Lemma reconnect_geometry pd w r pd' w' :
  micronucleus_reconnect E pd w = Done (r, pd') w' ->
  geometry pd' = geometry pd.
Proof.
  unfold micronucleus_reconnect. intros H. run_inv.
  match goal with
  | H : reconnect_loop _ _ _ _ _ = Done _ _ |- _ =>
      apply reconnect_loop_geometry in H; exact H
  end.
Qed.

Lemma erase_device_geometry pd w r pd' w' :
  micronucleus_erase_device E pd w = Done (r, pd') w' ->
  geometry pd' = geometry pd.
Proof.
  unfold micronucleus_erase_device. intros H. run_inv; try reflexivity;
    match goal with
    | H : micronucleus_reconnect _ _ _ = Done _ _ |- _ =>
        apply reconnect_geometry in H; exact H
    end.
Qed.

Lemma paged_write_loop_geometry fuel pd mem pb addr n res w r pd' w' :
  paged_write_loop E fuel pd mem pb addr n res w = Done (r, pd') w' ->
  geometry pd' = geometry pd.
Proof.
  revert pd pb addr n res w.
  induction fuel as [|fuel IH]; intros pd pb addr n res w; cbn;
    destruct (0 <? n); intros H; run_inv; try reflexivity;
    match goal with
    | H : micronucleus_write_page _ _ _ _ _ _ = Done _ _ |- _ =>
        apply write_page_Done in H as [Hd _];
        apply device_part_geometry in Hd
    end; [exact Hd |].
  match goal with
  | H : paged_write_loop _ _ _ _ _ _ _ _ _ = Done _ _ |- _ =>
      apply IH in H; rewrite H; exact Hd
  end.
Qed.

Lemma paged_write_geometry fuel pd mem cps addr n w r pd' w' :
  micronucleus_paged_write E fuel pd mem cps addr n w = Done (r, pd') w' ->
  geometry pd' = geometry pd.
Proof.
  unfold micronucleus_paged_write. intros H. run_inv; try reflexivity.
  match goal with
  | H : paged_write_loop _ _ _ _ _ _ _ _ _ = Done _ _ |- _ =>
      apply paged_write_loop_geometry in H; exact H
  end.
Qed.

Lemma powerdown_geometry pd w pd' w' :
  micronucleus_powerdown E pd w = Done pd' w' ->
  geometry pd' = geometry pd.
Proof.
  unfold micronucleus_powerdown. intros H. run_inv; try reflexivity;
    match goal with
    | H : micronucleus_write_page _ _ _ _ _ _ = Done _ _ |- _ =>
        apply write_page_Done in H as [Hd _];
        apply device_part_geometry in Hd; exact Hd
    end.
Qed.

End Runs.

(** ** The geometry invariant *)

(** C3, as stated, fails: the V1 block [0xFF, 0xFF, 0x40, 0x02] (flash
    65535, page 64) decodes successfully with a nonzero page size and
    1024 pages, but 1024 * 64 = 65536 does not fit the 16-bit
    bootloader_start field, which holds 0. *)
Lemma geometry_counterexample :
  exists pd',
    micronucleus_get_bootloader_info
      (steady_env (4, [0xFF; 0xFF; 0x40; 0x02])) (fresh_pdata 1) []
      = Done (0, pd') [info_request (fresh_pdata 1) 4] /\
    page_size pd' <> 0 /\
    ~ geometry_claim pd'.
Proof.
  eexists. split; [vm_compute; reflexivity |].
  split; [discriminate |].
  intros [_ Hbs]. vm_compute in Hbs. discriminate Hbs.
Qed.

(** C3 (amended): every info block that the V1 or the V2 resolver decodes
    successfully has a nonzero page size, page_count equal to
    ceil(flash_size / page_size), and bootloader_start equal to
    page_count * page_size reduced modulo 65536 (the field is 16 bits wide),
    which is page_count * page_size itself whenever that product is below
    65536. chip_erase, write_page, paged_write and powerdown leave all
    geometry fields unchanged. *)
Theorem geometry_invariant (E : environment) (pd : pdata) (w : world)
    (pd' : pdata) (w' : world) :
  micronucleus_get_bootloader_info E pd w = Done (0, pd') w' ->
  (page_size pd' <> 0 /\
   pages pd' = ceil_div (flash_size pd') (page_size pd') /\
   bootloader_start pd' = (pages pd' * page_size pd') mod 65536 /\
   (pages pd' * page_size pd' < 65536 ->
    bootloader_start pd' = pages pd' * page_size pd')) /\
  (forall p1 w1 r p2 w2,
     micronucleus_chip_erase E p1 w1 = Done (r, p2) w2 ->
     geometry p2 = geometry p1) /\
  (forall p1 a b s w1 r p2 b2 w2,
     micronucleus_write_page E p1 a b s w1 = Done (r, p2, b2) w2 ->
     geometry p2 = geometry p1) /\
  (forall fuel p1 mem cps a n w1 r p2 w2,
     micronucleus_paged_write E fuel p1 mem cps a n w1 = Done (r, p2) w2 ->
     geometry p2 = geometry p1) /\
  (forall p1 w1 p2 w2,
     micronucleus_powerdown E p1 w1 = Done p2 w2 ->
     geometry p2 = geometry p1).
Proof.
  intros Hrun. apply info_success in Hrun as (Hfs & Hps & Hpages & Hbs).
  split; [| split; [| split; [| split]]].
  - split; [lia |]. split; [exact Hpages |]. split; [exact Hbs |].
    intros Hlt. rewrite Hbs. apply Z.mod_small.
    pose proof (ceil_div_bounds (flash_size pd') (page_size pd')
                  ltac:(lia)) as Hb.
    rewrite <- Hpages in Hb. lia.
  - intros p1 w1 r p2 w2 H. apply erase_device_geometry in H. exact H.
  - intros p1 a b s w1 r p2 b2 w2 H. apply write_page_Done in H as [H _].
    apply device_part_geometry. exact H.
  - intros fuel p1 mem cps a n w1 r p2 w2 H.
    apply paged_write_geometry in H. exact H.
  - intros p1 w1 p2 w2 H. apply powerdown_geometry in H. exact H.
Qed.

Lemma geometry_invariant_witness :
  let E := steady_env (6, [0x18; 0x00; 0x40; 0x85; 0x93; 0x0B]) in
  let pd' :=
    {| usb_handle := None; wait_until_device_present := false;
       wait_timout := 0; major_version := 2; minor_version := 0;
       flash_size := 6144; page_size := 64; write_sleep := 7;
       signature1 := 0x93; signature2 := 0x0B;
       pages := 96; bootloader_start := 6144; erase_sleep := 168;
       user_reset_vector := 0; write_last_page := false;
       start_program := false |} in
  micronucleus_get_bootloader_info E (fresh_pdata 2) []
    = Done (0, pd') [info_request (fresh_pdata 2) 6] /\
  pages pd' = ceil_div (flash_size pd') (page_size pd') /\
  bootloader_start pd' = pages pd' * page_size pd'.
Proof.
  intros E pd'.
  assert (micronucleus_get_bootloader_info E (fresh_pdata 2) []
          = Done (0, pd') [info_request (fresh_pdata 2) 6]) as Hrun
    by (vm_compute; reflexivity).
  split; [exact Hrun |].
  pose proof (geometry_invariant E (fresh_pdata 2) [] pd' _ Hrun)
    as ((_ & Hpages & _ & Hbs) & _).
  split; [exact Hpages |]. apply Hbs. vm_compute. reflexivity.
Defined.

(** ** Words and bytes *)

Lemma lor_shiftl_low a k n :
  0 <= n -> 0 <= k < 2 ^ n -> Z.lor (Z.shiftl a n) k = a * 2 ^ n + k.
Proof.
  intros Hn Hk.
  assert (Z.land (Z.shiftl a n) k = 0) as Hland.
  { apply Z.bits_inj'. intros m Hm.
    rewrite Z.land_spec, Z.bits_0.
    destruct (Z.lt_ge_cases m n) as [Hlt | Hge].
    - rewrite Z.shiftl_spec_low by exact Hlt. reflexivity.
    - rewrite <- (Z.mod_small k (2 ^ n)) by exact Hk.
      rewrite Z.mod_pow2_bits_high by lia. apply andb_false_r. }
  pose proof (Z.add_lor_land (Z.shiftl a n) k) as Hadd.
  rewrite Hland, Z.shiftl_mul_pow2 in Hadd by exact Hn.
  rewrite Z.shiftl_mul_pow2 by exact Hn. lia.
Qed.

Lemma land_low_shiftl a k n :
  0 <= n -> 0 <= k < 2 ^ n -> Z.land k (Z.shiftl a n) = 0.
Proof.
  intros Hn Hk. apply Z.bits_inj'. intros m Hm.
  rewrite Z.land_spec, Z.bits_0.
  destruct (Z.lt_ge_cases m n) as [Hlt | Hge].
  - rewrite Z.shiftl_spec_low by exact Hlt. apply andb_false_r.
  - rewrite <- (Z.mod_small k (2 ^ n)) by exact Hk.
    rewrite Z.mod_pow2_bits_high by lia. reflexivity.
Qed.

(** A 16-bit word stored low byte first and read back. *)
Lemma word_of_its_bytes d :
  0 <= d < 65536 ->
  u16 (Z.lor (Z.shiftl (u8 (Z.shiftr d 8)) 8) (u8 (Z.shiftr d 0))) = d.
Proof.
  intros Hd. rewrite lor_shiftl_low by (try apply u8_range; lia).
  rewrite Z.shiftr_0_r, Z.shiftr_div_pow2 by lia.
  unfold u8, u16. change (2 ^ 8) with 256.
  rewrite (Z.mod_small (d / 256) 256)
    by (split; [apply Z.div_pos | apply Z.div_lt_upper_bound]; lia).
  pose proof (Z.div_mod d 256 ltac:(lia)) as Hdm.
  rewrite Z.mod_small; lia.
Qed.

(** The [rjmp] opcode with a 12-bit offset field. *)
Lemma rjmp_word k :
  0 <= k < 4096 ->
  Z.lor 0xC000 k = 0xC000 + k /\
  Z.land (Z.lor 0xC000 k) 0xF000 = 0xC000 /\
  Z.land (Z.lor 0xC000 k) 0x0FFF = k.
Proof.
  intros Hk. split; [| split].
  - change 0xC000 with (Z.shiftl 12 12).
    rewrite lor_shiftl_low by (change (2 ^ 12) with 4096; lia). reflexivity.
  - rewrite Z.land_lor_distr_l.
    change (Z.land 0xC000 0xF000) with 0xC000.
    change 0xF000 with (Z.shiftl 15 12).
    rewrite land_low_shiftl by (change (2 ^ 12) with 4096; lia).
    apply Z.lor_0_r.
  - rewrite Z.land_lor_distr_l.
    change (Z.land 0xC000 0x0FFF) with 0.
    change 0x0FFF with (Z.ones 12).
    rewrite Z.land_ones by lia. change (2 ^ 12) with 4096.
    rewrite Z.mod_small by exact Hk. reflexivity.
Qed.

Lemma land_0FFF x : Z.land x 0x0FFF = x mod 4096.
Proof. change 0x0FFF with (Z.ones 12). rewrite Z.land_ones by lia. reflexivity. Qed.

(** ** Reading back what the patches wrote *)

Lemma buf_set_Some buffer i v :
  0 <= i < Z.of_nat (length buffer) ->
  buf_set buffer i v = Some (<[Z.to_nat i := u8 v]> buffer).
Proof.
  intros Hi. unfold buf_set.
  destruct (Z.leb_spec 0 i); [| lia].
  destruct (Z.ltb_spec i (Z.of_nat (length buffer))); [reflexivity | lia].
Qed.

Lemma buf_set_inv buffer i v buffer' :
  buf_set buffer i v = Some buffer' ->
  0 <= i < Z.of_nat (length buffer) /\
  buffer' = <[Z.to_nat i := u8 v]> buffer /\
  length buffer' = length buffer.
Proof.
  unfold buf_set.
  destruct (Z.leb_spec 0 i); [| discriminate].
  destruct (Z.ltb_spec i (Z.of_nat (length buffer))); [| discriminate].
  cbn. intros [= <-]. rewrite length_insert. auto.
Qed.

Lemma buf_get_set_eq buffer i v :
  0 <= i < Z.of_nat (length buffer) ->
  buf_get (<[Z.to_nat i := v]> buffer) i = Some v.
Proof.
  intros Hi. unfold buf_get. destruct (Z.ltb_spec i 0); [lia |].
  apply list_lookup_insert_eq. lia.
Qed.

Lemma buf_get_set_ne buffer i j v :
  0 <= i -> 0 <= j -> i <> j ->
  buf_get (<[Z.to_nat j := v]> buffer) i = buf_get buffer i.
Proof.
  intros Hi Hj Hne. unfold buf_get. destruct (Z.ltb_spec i 0); [lia |].
  apply list_lookup_insert_ne. lia.
Qed.

Lemma read_word_set_ne buffer i j v :
  0 <= i -> 0 <= j -> j <> i -> j <> i + 1 ->
  read_word (<[Z.to_nat j := v]> buffer) i = read_word buffer i.
Proof.
  intros Hi Hj H1 H2. unfold read_word.
  rewrite (buf_get_set_ne _ i j), (buf_get_set_ne _ (i + 1) j) by lia.
  reflexivity.
Qed.

(** Two byte stores of a word, low byte first, read back as that word. *)
Lemma read_word_stored buffer i d :
  0 <= i -> i + 1 < Z.of_nat (length buffer) -> 0 <= d < 65536 ->
  read_word (<[Z.to_nat (i + 1) := u8 (Z.shiftr d 8)]>
               (<[Z.to_nat i := u8 (Z.shiftr d 0)]> buffer)) i = Some d.
Proof.
  intros Hi Hlen Hd. unfold read_word.
  rewrite (buf_get_set_ne _ i (i + 1)) by lia.
  rewrite (buf_get_set_eq buffer i) by lia. cbn.
  rewrite (buf_get_set_eq _ (i + 1)) by (rewrite length_insert; lia). cbn.
  rewrite word_of_its_bytes by exact Hd. reflexivity.
Qed.

Lemma read_word_is_Some buffer i :
  0 <= i -> i + 1 < Z.of_nat (length buffer) ->
  exists d, read_word buffer i = Some d /\ 0 <= d < 65536.
Proof.
  intros Hi Hlen. unfold read_word.
  destruct (buf_get_is_Some buffer i ltac:(lia)) as [b0 ->].
  destruct (buf_get_is_Some buffer (i + 1) ltac:(lia)) as [b1 ->].
  cbn. eexists. split; [reflexivity | apply u16_range].
Qed.

Lemma read_word_range buffer i d :
  read_word buffer i = Some d -> 0 <= d < 65536.
Proof.
  unfold read_word. intros H.
  repeat (apply bind_Some in H as (? & ? & H)).
  injection H as <-. apply u16_range.
Qed.

Lemma read_word_bytes buffer i d :
  read_word buffer i = Some d ->
  exists b0 b1, buf_get buffer i = Some b0 /\ buf_get buffer (i + 1) = Some b1 /\
                d = u16 (Z.lor (Z.shiftl b1 8) b0).
Proof.
  unfold read_word. intros H.
  repeat (apply bind_Some in H as (? & ? & H)).
  injection H as <-. eauto.
Qed.

Lemma buf_get_inv buffer i b :
  buf_get buffer i = Some b -> 0 <= i < Z.of_nat (length buffer).
Proof.
  unfold buf_get. destruct (Z.ltb_spec i 0); [discriminate |].
  intros Hget. apply lookup_lt_Some in Hget. lia.
Qed.

(** ** The two patches *)

Lemma decode_reset_vector_range w0 w1 target :
  0 <= w1 < 65536 ->
  decode_reset_vector w0 w1 = Some target -> 0 <= target < 65536.
Proof.
  intros Hw1. unfold decode_reset_vector.
  destruct (w0 =? 0x940C); [intros [= <-]; exact Hw1 |].
  destruct (_ =? 0xC000); [| discriminate].
  intros [= <-]. rewrite land_0FFF.
  pose proof (Z.mod_pos_bound w0 4096 ltac:(lia)). lia.
Qed.

(** Page 0: the vector is captured and the first words are overwritten. *)
Lemma patch_reset_vector_run pd page0 w0 w1 target :
  read_word page0 0 = Some w0 ->
  read_word page0 2 = Some w1 ->
  decode_reset_vector w0 w1 = Some target ->
  0 <= bootloader_start pd < 65536 ->
  exists page0',
    micronucleus_patch_reset_vector pd page0
      = Some (0, set_user_reset_vector target pd, page0') /\
    length page0' = length page0 /\
    read_word page0' 0 =
      Some (if 0x2000 <? bootloader_start pd then 0x940C
            else 0xC000 + (bootloader_start pd / 2 - 1) mod 4096).
Proof.
  intros Hw0 Hw1 Hdec Hbs.
  pose proof (read_word_range _ _ _ Hw1) as Hw1r.
  pose proof (decode_reset_vector_range _ _ _ Hw1r Hdec) as Htr.
  apply read_word_bytes in Hw0 as (b0 & b1 & Hb0 & Hb1 & ->).
  apply read_word_bytes in Hw1 as (b2 & b3 & Hb2 & Hb3 & ->).
  change (0 + 1) with 1 in Hb1. change (2 + 1) with 3 in Hb3.
  pose proof (buf_get_inv _ _ _ Hb3) as Hlen.
  unfold micronucleus_patch_reset_vector.
  rewrite Hb0, Hb1, Hb2, Hb3. cbn [mbind option_bind].
  rewrite Hdec. rewrite (u16_small target Htr).
  change (bootloader_start (set_user_reset_vector target pd))
    with (bootloader_start pd).
  destruct (0x2000 <? bootloader_start pd).
  - rewrite buf_set_Some by lia. cbn [mbind option_bind].
    rewrite buf_set_Some by (rewrite !length_insert; lia).
    cbn [mbind option_bind].
    rewrite buf_set_Some by (rewrite !length_insert; lia).
    cbn [mbind option_bind].
    rewrite buf_set_Some by (rewrite !length_insert; lia).
    cbn [mbind option_bind].
    eexists. split; [reflexivity |].
    split; [rewrite !length_insert; reflexivity |].
    rewrite !read_word_set_ne by lia.
    apply (read_word_stored page0 0 0x940C); lia.
  - pose proof (Z.mod_pos_bound (bootloader_start pd / 2 - 1) 4096
                  ltac:(lia)) as Hk.
    rewrite land_0FFF.
    destruct (rjmp_word _ Hk) as (-> & _ & _).
    rewrite u16_small by lia.
    rewrite buf_set_Some by lia. cbn [mbind option_bind].
    rewrite buf_set_Some by (rewrite !length_insert; lia).
    cbn [mbind option_bind].
    eexists. split; [reflexivity |].
    split; [rewrite !length_insert; reflexivity |].
    apply (read_word_stored page0 0); lia.
Qed.

(** Last page: a branch to the captured vector is stored four bytes
    below the bootloader. *)
Lemma patch_user_vector_run pd last :
  4 <= page_size pd ->
  page_size pd <= bootloader_start pd < 65536 ->
  length last = Z.to_nat (page_size pd) ->
  0 <= user_reset_vector pd < 65536 ->
  exists last',
    micronucleus_patch_user_vector pd last = Some last' /\
    length last' = length last /\
    if 0x2000 <? bootloader_start pd - 4
    then read_word last' (page_size pd - 4) = Some 0x940C /\
         read_word last' (page_size pd - 2) = Some (user_reset_vector pd)
    else read_word last' (page_size pd - 4) =
           Some (0xC000 + (user_reset_vector pd
                           - (bootloader_start pd - 4) / 2 - 1) mod 4096) /\
         read_word last' (page_size pd - 2) = read_word last (page_size pd - 2).
Proof.
  intros Hps Hbs Hlen Hurv.
  unfold micronucleus_patch_user_vector.
  rewrite (u16_small (bootloader_start pd - 4)) by lia.
  rewrite (u16_small (bootloader_start pd - page_size pd)) by lia.
  replace (bootloader_start pd - 4 - (bootloader_start pd - page_size pd) + 0)
    with (page_size pd - 4) by lia.
  replace (bootloader_start pd - 4 - (bootloader_start pd - page_size pd) + 1)
    with (page_size pd - 4 + 1) by lia.
  replace (bootloader_start pd - 4 - (bootloader_start pd - page_size pd) + 2)
    with (page_size pd - 2) by lia.
  replace (bootloader_start pd - 4 - (bootloader_start pd - page_size pd) + 3)
    with (page_size pd - 2 + 1) by lia.
  destruct (0x2000 <? bootloader_start pd - 4).
  - rewrite buf_set_Some by lia. cbn [mbind option_bind].
    rewrite buf_set_Some by (rewrite !length_insert; lia).
    cbn [mbind option_bind].
    rewrite buf_set_Some by (rewrite !length_insert; lia).
    cbn [mbind option_bind].
    rewrite buf_set_Some by (rewrite !length_insert; lia).
    cbn [mbind option_bind].
    eexists. split; [reflexivity |].
    split; [rewrite !length_insert; reflexivity |]. split.
    + rewrite !read_word_set_ne by lia.
      apply (read_word_stored last (page_size pd - 4) 0x940C); lia.
    + apply read_word_stored; rewrite ?length_insert; lia.
  - pose proof (Z.mod_pos_bound
                  (user_reset_vector pd - (bootloader_start pd - 4) / 2 - 1)
                  4096 ltac:(lia)) as Hk.
    rewrite land_0FFF.
    destruct (rjmp_word _ Hk) as (-> & _ & _).
    rewrite u16_small by lia.
    rewrite buf_set_Some by lia. cbn [mbind option_bind].
    rewrite buf_set_Some by (rewrite !length_insert; lia).
    cbn [mbind option_bind].
    eexists. split; [reflexivity |].
    split; [rewrite !length_insert; reflexivity |]. split.
    + apply (read_word_stored last (page_size pd - 4)); lia.
    + rewrite !read_word_set_ne by lia. reflexivity.
Qed.

(** ** The reset-vector round trip *)

Lemma decode_branch_at_0 word0 word1 :
  decode_branch_at 0 word0 word1 = decode_reset_vector word0 word1.
Proof. reflexivity. Qed.

(** C1, as stated, fails at bootloader_start = 0x2000 for both encodings.
    A relative jump to word 0x10 ([0xC00F]) is patched back as [0xC011] at
    byte address 0x1FFC, which decodes to 0xFFE + 0x11 + 1 = 0x1010. A long
    jump to word 0x5000 is patched back as the relative jump [0xC001],
    which decodes to 0x1000. *)
Lemma roundtrip_counterexample :
  ~ roundtrip_claim (v2_session 0x2000)
      ([0x0F; 0xC0] ++ replicate 62 0) (replicate 64 0xFF) /\
  ~ roundtrip_claim (v2_session 0x2000)
      ([0x0C; 0x94; 0x00; 0x50] ++ replicate 60 0) (replicate 64 0xFF).
Proof.
  split.
  - intros (w0 & w1 & target & pd1 & page0' & last' & v0 & v1 &
            Hw0 & Hw1 & Hdec & Hp0 & Hpl & Hv0 & Hv1 & Hback).
    vm_compute in Hw0, Hw1. injection Hw0 as <-. injection Hw1 as <-.
    vm_compute in Hdec. injection Hdec as <-.
    vm_compute in Hp0. injection Hp0 as <- _.
    vm_compute in Hpl. injection Hpl as <-.
    vm_compute in Hv0, Hv1. injection Hv0 as <-. injection Hv1 as <-.
    vm_compute in Hback. discriminate Hback.
  - intros (w0 & w1 & target & pd1 & page0' & last' & v0 & v1 &
            Hw0 & Hw1 & Hdec & Hp0 & Hpl & Hv0 & Hv1 & Hback).
    vm_compute in Hw0, Hw1. injection Hw0 as <-. injection Hw1 as <-.
    vm_compute in Hdec. injection Hdec as <-.
    vm_compute in Hp0. injection Hp0 as <- _.
    vm_compute in Hpl. injection Hpl as <-.
    vm_compute in Hv0, Hv1. injection Hv0 as <-. injection Hv1 as <-.
    vm_compute in Hback. discriminate Hback.
Qed.

(** C1 (amended): for every page-0 buffer whose first word is a long jump
    or a relative jump, patching page 0 captures the target as the user
    reset vector, and patching the last page then writes at
    bootloader_start - 4 (offset page_size - 4 of that page) a branch that,
    decoded at that address, yields the user reset vector modulo 4096 words
    (the reach of a relative jump), and exactly the user reset vector when
    the branch written back is a long jump. Page 0 gets a long jump when
    bootloader_start > 0x2000, the last page when
    bootloader_start - 4 > 0x2000; otherwise a relative jump is written.
    This holds in particular for bootloader_start = 0x2000 and 0x2000 - 1. *)
Theorem reset_vector_roundtrip (pd : pdata) (page0 last : list Z)
    (w0 w1 target : Z) :
  read_word page0 0 = Some w0 ->
  read_word page0 2 = Some w1 ->
  decode_reset_vector w0 w1 = Some target ->
  4 <= page_size pd ->
  page_size pd <= bootloader_start pd < 65536 ->
  length last = Z.to_nat (page_size pd) ->
  roundtrip_modulo pd page0 last target.
Proof.
  intros Hw0 Hw1 Hdec Hps Hbs Hlen. unfold roundtrip_modulo.
  pose proof (read_word_range _ _ _ Hw1) as Hw1r.
  pose proof (decode_reset_vector_range _ _ _ Hw1r Hdec) as Htr.
  destruct (patch_reset_vector_run pd page0 w0 w1 target Hw0 Hw1 Hdec
              ltac:(lia)) as (page0' & Hp0 & _ & Hr0).
  set (pd1 := set_user_reset_vector target pd) in *.
  destruct (patch_user_vector_run pd1 last Hps Hbs Hlen Htr)
    as (last' & Hpl & Hlen' & Hread).
  change (page_size pd1) with (page_size pd) in Hread.
  change (bootloader_start pd1) with (bootloader_start pd) in Hread.
  change (user_reset_vector pd1) with target in Hread.
  assert (read_word page0' 0 = Some 0x940C <-> 0x2000 < bootloader_start pd)
    as Hsel0.
  { rewrite Hr0. destruct (Z.ltb_spec 0x2000 (bootloader_start pd)).
    - split; [intros _; assumption | reflexivity].
    - pose proof (Z.mod_pos_bound (bootloader_start pd / 2 - 1) 4096
                    ltac:(lia)).
      split; [intros [= Heq]; lia | lia]. }
  destruct (Z.ltb_spec 0x2000 (bootloader_start pd - 4)) as [Hjmp | Hrjmp].
  - destruct Hread as [Hv0 Hv1].
    exists pd1, page0', last', 0x940C, target, target.
    split; [exact Hp0 |]. split; [reflexivity |]. split; [exact Hpl |].
    split; [exact Hv0 |]. split; [exact Hv1 |]. split; [reflexivity |].
    split; [reflexivity |]. split; [reflexivity |].
    split; [exact Hsel0 |]. split; [intros _; exact Hjmp | reflexivity].
  - destruct Hread as [Hv0 Hv1].
    destruct (read_word_is_Some last (page_size pd - 2) ltac:(lia)
                ltac:(lia)) as (v1 & Hv1' & _).
    rewrite Hv1' in Hv1.
    set (k := (target - (bootloader_start pd - 4) / 2 - 1) mod 4096) in *.
    pose proof (Z.mod_pos_bound
                  (target - (bootloader_start pd - 4) / 2 - 1) 4096
                  ltac:(lia)) as Hk.
    fold k in Hk.
    exists pd1, page0', last', (0xC000 + k), v1,
           ((bootloader_start pd - 4) / 2 + k + 1).
    destruct (rjmp_word k Hk) as (Hlor & Hhi & Hlo).
    rewrite Hlor in Hhi, Hlo.
    split; [exact Hp0 |]. split; [reflexivity |]. split; [exact Hpl |].
    split; [exact Hv0 |]. split; [exact Hv1 |]. split.
    { unfold decode_branch_at.
      destruct (Z.eqb_spec (0xC000 + k) 0x940C); [lia |].
      rewrite Hhi, Hlo. reflexivity. }
    split.
    { subst k. rewrite <- Z.add_assoc, (Z.add_comm _ 1), Z.add_assoc.
      rewrite Zplus_mod_idemp_r. f_equal. lia. }
    split; [lia |]. split; [exact Hsel0 |]. lia.
Qed.

Lemma reset_vector_roundtrip_witness :
  roundtrip_modulo (v2_session 0x2000)
    ([0x0F; 0xC0] ++ replicate 62 0) (replicate 64 0xFF) 0x10 /\
  roundtrip_modulo (v2_session (0x2000 - 1))
    ([0x0C; 0x94; 0x34; 0x02] ++ replicate 60 0) (replicate 64 0xFF) 0x0234.
Proof.
  split.
  - apply (reset_vector_roundtrip (v2_session 0x2000)
             ([0x0F; 0xC0] ++ replicate 62 0) (replicate 64 0xFF)
             0xC00F 0 0x10).
    + reflexivity.
    + reflexivity.
    + reflexivity.
    + vm_compute. discriminate.
    + vm_compute. split; [discriminate | reflexivity].
    + reflexivity.
  - apply (reset_vector_roundtrip (v2_session (0x2000 - 1))
             ([0x0C; 0x94; 0x34; 0x02] ++ replicate 60 0) (replicate 64 0xFF)
             0x940C 0x0234 0x0234).
    + reflexivity.
    + reflexivity.
    + reflexivity.
    + vm_compute. discriminate.
    + vm_compute. split; [discriminate | reflexivity].
    + reflexivity.
Defined.

(** ** Signature bytes *)

(** C10: read_sig_bytes fails with -1 and writes nothing when the
    destination memory has size below 3; otherwise it returns 0 and the
    first three bytes of the buffer become 0x1E, signature1, signature2,
    the rest of the buffer and of the descriptor being unchanged. The
    session is an input only, so it cannot change. *)
Theorem read_sig_bytes_spec (pd : pdata) (mem : AVRMEM) :
  (size mem < 3 -> micronucleus_read_sig_bytes pd mem = Some (-1, mem)) /\
  (3 <= size mem ->
   Z.of_nat (length (buf mem)) = size mem ->
   0 <= signature1 pd < 256 ->
   0 <= signature2 pd < 256 ->
   exists mem',
     micronucleus_read_sig_bytes pd mem = Some (0, mem') /\
     take 3 (buf mem') = [0x1E; signature1 pd; signature2 pd] /\
     drop 3 (buf mem') = drop 3 (buf mem) /\
     length (buf mem') = length (buf mem) /\
     size mem' = size mem /\ mem_is_flash mem' = mem_is_flash mem).
Proof.
  unfold micronucleus_read_sig_bytes. split.
  - intros Hsmall. destruct (Z.ltb_spec (size mem) 3); [reflexivity | lia].
  - intros Hsize Hlen Hs1 Hs2.
    destruct (Z.ltb_spec (size mem) 3); [lia |].
    destruct (buf mem) as [|x0 [|x1 [|x2 rest]]] eqn:Hbuf;
      cbn in Hlen; try lia.
    rewrite buf_set_Some by (cbn [length]; lia). cbn [mbind option_bind].
    rewrite buf_set_Some by (rewrite !length_insert; cbn [length]; lia).
    cbn [mbind option_bind].
    rewrite buf_set_Some by (rewrite !length_insert; cbn [length]; lia).
    cbn [mbind option_bind].
    rewrite (u8_small (signature1 pd)), (u8_small (signature2 pd))
      by assumption.
    eexists. split; [reflexivity |]. simpl. rewrite ?take_0, ?length_insert.
    repeat split; reflexivity.
Qed.

Lemma read_sig_bytes_spec_witness :
  let pd := set_signature 0x93 0x0B (fresh_pdata 2) in
  micronucleus_read_sig_bytes pd
    {| mem_is_flash := false; size := 2; buf := [0; 0] |}
    = Some (-1, {| mem_is_flash := false; size := 2; buf := [0; 0] |}) /\
  exists mem',
    micronucleus_read_sig_bytes pd
      {| mem_is_flash := false; size := 4; buf := [7; 7; 7; 7] |}
      = Some (0, mem') /\
    take 3 (buf mem') = [0x1E; 0x93; 0x0B] /\
    drop 3 (buf mem') = [7] /\
    length (buf mem') = 4%nat /\
    size mem' = 4 /\ mem_is_flash mem' = false.
Proof.
  intros pd. split.
  - apply (read_sig_bytes_spec pd
             {| mem_is_flash := false; size := 2; buf := [0; 0] |}).
    cbn. lia.
  - apply (read_sig_bytes_spec pd
             {| mem_is_flash := false; size := 4; buf := [7; 7; 7; 7] |}).
    + cbn. lia.
    + reflexivity.
    + cbn. lia.
    + cbn. lia.
Defined.

(** ** Bounds rejection *)

(** C6, as stated, fails: the code forms address + size in unsigned int.
    For address 4294967295 and size 1 the sum 4294967296 is far beyond the
    flash size 6144, but it wraps to 0: both checks pass, the loop is
    entered, and instead of returning -1 the call goes on to read the
    memory buffer at offset 4294967295. *)
Lemma paged_write_bounds_counterexample :
  ~ bounds_rejection_claim (steady_env (0, [])) 1 (v2_session 0x1800)
      {| mem_is_flash := true; size := 64; buf := replicate 64 0 |}
      64 4294967295 1 [].
Proof.
  unfold bounds_rejection_claim. intros Hclaim.
  assert (micronucleus_paged_write (steady_env (0, [])) 1 (v2_session 0x1800)
            {| mem_is_flash := true; size := 64; buf := replicate 64 0 |}
            64 4294967295 1 [] = Undefined) as Hrun
    by (vm_compute; reflexivity).
  rewrite Hrun in Hclaim.
  assert (flash_size (v2_session 0x1800) < 4294967295 + 1) as Hover
    by (cbn; lia).
  specialize (Hclaim (or_intror Hover)). discriminate Hclaim.
Qed.

(** C6 (amended): a flash paged_write whose size exceeds the caller's page
    size, or whose address + size, formed in unsigned int (that is, modulo
    2^32), exceeds the session's flash size, returns -1, adds nothing to
    the history (so no transport request is issued) and returns the session
    unchanged. For arguments whose sum stays below 2^32 that is the plain
    sum. A call that passes both tests on the wrapped sum is not rejected:
    it goes into the write loop. *)
Theorem paged_write_bounds_rejection (E : environment) (fuel : nat)
    (pd : pdata) (mem : AVRMEM) (caller_page_size addr n_bytes : Z)
    (w : world) :
  mem_is_flash mem = true ->
  (caller_page_size < n_bytes \/ flash_size pd < u32 (addr + n_bytes) ->
   micronucleus_paged_write E fuel pd mem caller_page_size addr n_bytes w
     = Done (-1, pd) w) /\
  (0 <= addr -> 0 <= n_bytes -> addr + n_bytes < 4294967296 ->
   flash_size pd < addr + n_bytes ->
   micronucleus_paged_write E fuel pd mem caller_page_size addr n_bytes w
     = Done (-1, pd) w) /\
  (n_bytes <= caller_page_size -> u32 (addr + n_bytes) <= flash_size pd ->
   micronucleus_paged_write E fuel pd mem caller_page_size addr n_bytes w
     = paged_write_loop E fuel pd mem
         (replicate (Z.to_nat (page_size pd)) 0) addr n_bytes 0 w).
Proof.
  intros Hflash.
  assert (caller_page_size < n_bytes \/ flash_size pd < u32 (addr + n_bytes) ->
          micronucleus_paged_write E fuel pd mem caller_page_size addr
            n_bytes w = Done (-1, pd) w) as Hreject.
  { intros Hbad. unfold micronucleus_paged_write. rewrite Hflash.
    destruct (Z.ltb_spec caller_page_size n_bytes); [reflexivity |].
    destruct (Z.ltb_spec (flash_size pd) (u32 (addr + n_bytes)));
      [reflexivity | lia]. }
  split; [exact Hreject |]. split.
  - intros Haddr Hn Hsum Hover. apply Hreject. right.
    rewrite u32_small by lia. exact Hover.
  - intros Hsize Hsum. unfold micronucleus_paged_write. rewrite Hflash.
    destruct (Z.ltb_spec caller_page_size n_bytes); [lia |].
    destruct (Z.ltb_spec (flash_size pd) (u32 (addr + n_bytes))); [lia |].
    reflexivity.
Qed.

Lemma paged_write_bounds_rejection_witness :
  let pd := set_write_last_page true (v2_session 0x1800) in
  let mem := {| mem_is_flash := true; size := 64;
                buf := replicate 64 0 |} in
  micronucleus_paged_write (steady_env (0, [])) 64 pd mem 64 0x17F0 64 []
    = Done (-1, pd) [] /\
  micronucleus_paged_write (steady_env (0, [])) 64 pd mem 64 0 65 []
    = Done (-1, pd) [].
Proof.
  intros pd mem. split.
  - destruct (paged_write_bounds_rejection (steady_env (0, [])) 64 pd mem
                64 0x17F0 64 [] eq_refl) as (_ & Hsum & _).
    apply Hsum; [lia | lia | lia | vm_compute; reflexivity].
  - destruct (paged_write_bounds_rejection (steady_env (0, [])) 64 pd mem
                64 0 65 [] eq_refl) as [Hcheck _].
    apply Hcheck. left. lia.
Defined.

(** ** Erase and reconnect *)

Lemma failed_attempts_snoc d k w :
  failed_attempts d k ++ Delay_ms MICRONUCLEUS_CONNECT_WAIT :: Usb_open d :: w
  = failed_attempts d (S k) ++ w.
Proof.
  unfold failed_attempts. induction k as [|k IH]; [reflexivity |].
  change (replicate (S k) ?x) with (x :: replicate k x).
  rewrite !concat_cons, <- !app_assoc, IH.
  change (replicate (S k) ?x) with (x :: replicate k x).
  rewrite concat_cons, <- app_assoc. reflexivity.
Qed.

Lemma reconnect_loop_run E n d pd w :
  exists (k : nat) pd',
    (k <= n)%nat /\
    reconnect_loop E n d pd w
      = Done (if (k <? n)%nat then 0 else -1, pd')
             ((if (k <? n)%nat then [Usb_open d] else [])
              ++ failed_attempts d k ++ w) /\
    pd' = set_usb_handle
            (if (k <? n)%nat then Some {| usb_device_of := d |}
             else if (n =? 0)%nat then usb_handle pd else None) pd.
Proof.
  revert pd w. induction n as [|n IH]; intros pd w.
  - exists 0%nat, pd. split; [lia |]. split; [reflexivity |].
    destruct pd; reflexivity.
  - cbn [reconnect_loop]. unfold bind at 1. unfold usb_open.
    destruct (env_open E (Usb_open d :: w)) eqn:Hopen.
    + exists 0%nat, (set_usb_handle (Some {| usb_device_of := d |}) pd).
      split; [lia |]. split; reflexivity.
    + unfold bind, delay_ms, emit.
      destruct (IH (set_usb_handle None pd)
                   (Delay_ms MICRONUCLEUS_CONNECT_WAIT :: Usb_open d :: w))
        as (k & pd' & Hk & Hrun & Hpd').
      exists (S k), pd'. split; [lia |].
      change (S k <? S n)%nat with (k <? n)%nat.
      rewrite Hrun. split.
      * rewrite failed_attempts_snoc. reflexivity.
      * rewrite Hpd'. destruct (k <? n)%nat; [reflexivity |].
        destruct n; reflexivity.
Qed.

Lemma reconnect_run E pd h w :
  usb_handle pd = Some h ->
  exists (k : nat),
    (k <= 25)%nat /\
    micronucleus_reconnect E pd w
      = Done (if (k <? 25)%nat then 0 else -1,
              set_usb_handle
                (if (k <? 25)%nat
                 then Some {| usb_device_of := usb_device_of h |}
                 else None) pd)
             (reconnect_history h 25 k w).
Proof.
  intros Hh. unfold micronucleus_reconnect. rewrite Hh.
  unfold bind at 1. unfold usb_close, emit.
  destruct (reconnect_loop_run E 25 (usb_device_of h)
              (set_usb_handle None pd) (Usb_close (Some h) :: w))
    as (k & pd' & Hk & Hrun & Hpd').
  exists k. split; [exact Hk |].
  rewrite Hrun, Hpd'. unfold reconnect_history.
  destruct (k <? 25)%nat; reflexivity.
Qed.

(** The reconnect loop takes the first attempt that [usb_open] answers:
    [k] attempts are refused, and attempt [k] succeeds unless all [n] were
    refused. *)
Lemma reconnect_loop_attempts E n d pd w :
  exists (k : nat),
    (k <= n)%nat /\
    (forall j, (j < k)%nat ->
       env_open E (Usb_open d :: failed_attempts d j ++ w) = false) /\
    ((k < n)%nat ->
       env_open E (Usb_open d :: failed_attempts d k ++ w) = true) /\
    reconnect_loop E n d pd w
      = Done (if (k <? n)%nat then 0 else -1,
              set_usb_handle
                (if (k <? n)%nat then Some {| usb_device_of := d |}
                 else if (n =? 0)%nat then usb_handle pd else None) pd)
             ((if (k <? n)%nat then [Usb_open d] else [])
              ++ failed_attempts d k ++ w).
Proof.
  revert pd w. induction n as [|n IH]; intros pd w.
  - exists 0%nat. split; [lia |]. split; [intros j Hj; lia |].
    split; [intros Hlt; lia |]. cbn. destruct pd; reflexivity.
  - cbn [reconnect_loop]. unfold bind at 1. unfold usb_open.
    destruct (env_open E (Usb_open d :: w)) eqn:Hopen.
    + exists 0%nat. split; [lia |]. split; [intros j Hj; lia |].
      split; [intros _; exact Hopen | reflexivity].
    + unfold bind, delay_ms, emit.
      destruct (IH (set_usb_handle None pd)
                   (Delay_ms MICRONUCLEUS_CONNECT_WAIT :: Usb_open d :: w))
        as (k & Hk & Hfail & Hlast & Hrun).
      exists (S k). split; [lia |]. split; [| split].
      * intros [|j] Hj; [exact Hopen |].
        rewrite <- failed_attempts_snoc. apply Hfail. lia.
      * intros Hlt. rewrite <- failed_attempts_snoc. apply Hlast. lia.
      * change (S k <? S n)%nat with (k <? n)%nat.
        rewrite Hrun, failed_attempts_snoc.
        destruct (k <? n)%nat; [reflexivity |].
        destruct n; reflexivity.
Qed.

Lemma reconnect_attempts E pd h w :
  usb_handle pd = Some h ->
  exists (k : nat),
    (k <= 25)%nat /\
    (forall j, (j < k)%nat -> reopen_answer E h w j = false) /\
    ((k < 25)%nat -> reopen_answer E h w k = true) /\
    micronucleus_reconnect E pd w
      = Done (if (k <? 25)%nat then 0 else -1,
              set_usb_handle
                (if (k <? 25)%nat
                 then Some {| usb_device_of := usb_device_of h |}
                 else None) pd)
             (reconnect_history h 25 k w).
Proof.
  intros Hh. unfold micronucleus_reconnect. rewrite Hh.
  unfold bind at 1. unfold usb_close, emit.
  destruct (reconnect_loop_attempts E 25 (usb_device_of h)
              (set_usb_handle None pd) (Usb_close (Some h) :: w))
    as (k & Hk & Hfail & Hlast & Hrun).
  exists k. split; [exact Hk |].
  split; [exact Hfail |]. split; [exact Hlast |].
  rewrite Hrun. unfold reconnect_history.
  destruct (k <? 25)%nat; reflexivity.
Qed.

Lemma check_connection_run E pd w :
  micronucleus_check_connection E pd w
    = Done (if fst (env_control_msg E (info_request pd (info_size pd) :: w))
               =? Z.of_nat (info_size pd) then 0 else -1)
           (info_request pd (info_size pd) :: w).
Proof.
  unfold micronucleus_check_connection, info_size.
  destruct (2 <=? major_version pd);
    unfold bind, usb_control_msg, ret, info_request;
    [change (Z.of_nat 6) with 6 | change (Z.of_nat 4) with 4];
    cbv zeta;
    destruct (env_control_msg E _) as [r d]; reflexivity.
Qed.

Lemma erase_device_run E pd w :
  micronucleus_erase_device E pd w =
  let r := fst (env_control_msg E (erase_request pd :: w)) in
  if (r <? 0) && negb ((r =? - EIO) || (r =? - EPIPE))
  then Done (r, pd) (erase_request pd :: w)
  else if fst (env_control_msg E (erase_probed pd w))
            =? Z.of_nat (info_size pd)
  then Done (0, pd) (erase_probed pd w)
  else match micronucleus_reconnect E pd (erase_probed pd w) with
       | Done (res, pd') w' => Done (if res <? 0 then res else 0, pd') w'
       | Undefined => Undefined
       | OutOfFuel => OutOfFuel
       end.
Proof.
  unfold micronucleus_erase_device.
  unfold bind at 1. unfold usb_control_msg at 1. cbv zeta.
  change (Usb_control_msg (usb_handle pd) REQUEST_OUT MICRONUCLEUS_CMD_ERASE
            0 0 [] 0) with (erase_request pd).
  destruct (env_control_msg E (erase_request pd :: w)) as [r d].
  cbn [fst].
  destruct ((r <? 0) && negb ((r =? - EIO) || (r =? - EPIPE)));
    [reflexivity |].
  unfold bind at 1. unfold delay_ms, emit.
  unfold bind at 1. rewrite check_connection_run.
  fold (erase_probed pd w).
  destruct (_ =? Z.of_nat (info_size pd)); [reflexivity |].
  change (-1 <? 0) with true. cbn iota.
  unfold bind.
  destruct (micronucleus_reconnect E pd (erase_probed pd w))
    as [[res pd'] w'| |]; [| reflexivity | reflexivity].
  destruct (res <? 0); reflexivity.
Qed.

(** C8: chip_erase on a connected session. An erase result that is
    negative and neither -EIO nor -EPIPE is returned at once, with no sleep
    and no probe. Any other erase result (success, -EIO, -EPIPE) is followed
    by the erase sleep and the connectivity probe; if the probe is answered
    in full the call returns 0. If not, the handle is closed and the same
    device is reopened, taking the first attempt that usb_open answers:
    [k] is the number of attempts usb_open refuses before it, each followed
    by a 100 ms delay, with [k <= 25]; the call returns 0 with the new
    handle after the successful attempt number [k + 1 <= 25], and -1 only
    when all 25 attempts were refused. *)
Theorem erase_error_tolerance (E : environment) (pd : pdata)
    (h : usb_dev_handle) (w : world) :
  usb_handle pd = Some h ->
  let r := fst (env_control_msg E (erase_request pd :: w)) in
  let c := fst (env_control_msg E (erase_probed pd w)) in
  (r < 0 -> r <> - EIO -> r <> - EPIPE ->
   micronucleus_chip_erase E pd w = Done (r, pd) (erase_request pd :: w)) /\
  (0 <= r \/ r = - EIO \/ r = - EPIPE ->
   (c = Z.of_nat (info_size pd) ->
    micronucleus_chip_erase E pd w = Done (0, pd) (erase_probed pd w)) /\
   (c <> Z.of_nat (info_size pd) ->
    exists k : nat,
      (k <= 25)%nat /\
      (forall j, (j < k)%nat ->
         reopen_answer E h (erase_probed pd w) j = false) /\
      ((k < 25)%nat -> reopen_answer E h (erase_probed pd w) k = true) /\
      micronucleus_chip_erase E pd w
        = Done (if (k <? 25)%nat then 0 else -1,
                set_usb_handle
                  (if (k <? 25)%nat
                   then Some {| usb_device_of := usb_device_of h |}
                   else None) pd)
               (reconnect_history h 25 k (erase_probed pd w)))).
Proof.
  intros Hh r c.
  unfold micronucleus_chip_erase. rewrite erase_device_run. cbv zeta.
  fold r. fold c.
  split.
  - intros Hneg Hio Hpipe.
    destruct (Z.ltb_spec r 0); [| lia].
    destruct (Z.eqb_spec r (- EIO)); [contradiction |].
    destruct (Z.eqb_spec r (- EPIPE)); [contradiction |].
    reflexivity.
  - intros Hok.
    assert ((r <? 0) && negb ((r =? - EIO) || (r =? - EPIPE)) = false)
      as ->.
    { destruct (Z.ltb_spec r 0); [| reflexivity].
      destruct (Z.eqb_spec r (- EIO)); [reflexivity |].
      destruct (Z.eqb_spec r (- EPIPE)); [reflexivity | lia]. }
    split.
    + intros Hc. rewrite Hc, Z.eqb_refl. reflexivity.
    + intros Hc. destruct (Z.eqb_spec c (Z.of_nat (info_size pd)));
        [contradiction |].
      destruct (reconnect_attempts E pd h (erase_probed pd w) Hh)
        as (k & Hk & Hfail & Hlast & Hrun).
      exists k. split; [exact Hk |].
      split; [exact Hfail |]. split; [exact Hlast |].
      rewrite Hrun. destruct (k <? 25)%nat; reflexivity.
Qed.

Lemma erase_error_tolerance_witness :
  let h := {| usb_device_of := some_device |} in
  let pd := set_usb_handle (Some h) (v2_session 0x1800) in
  micronucleus_chip_erase scenario_D_env pd []
    = Done (0, pd) (erase_probed pd []) /\
  micronucleus_chip_erase scenario_D_reconnect_env pd []
    = Done (0, pd) (reconnect_history h 25 2 (erase_probed pd [])).
Proof.
  intros h pd. split.
  - destruct (erase_error_tolerance scenario_D_env pd h [] eq_refl)
      as [_ Hok].
    apply Hok.
    + right. right. reflexivity.
    + reflexivity.
  - destruct (erase_error_tolerance scenario_D_reconnect_env pd h []
                eq_refl) as [_ Hok].
    destruct (Hok (or_intror (or_intror eq_refl))) as [_ Hreconnect].
    destruct Hreconnect as (k & Hk & Hfail & Hlast & Hrun);
      [vm_compute; discriminate |].
    assert (k = 2%nat) as ->.
    { destruct k as [|[|[|k]]].
      - specialize (Hlast ltac:(lia)). vm_compute in Hlast.
        discriminate Hlast.
      - specialize (Hlast ltac:(lia)). vm_compute in Hlast.
        discriminate Hlast.
      - reflexivity.
      - specialize (Hfail 2%nat ltac:(lia)). vm_compute in Hfail.
        discriminate Hfail. }
    exact Hrun.
Defined.

(** ** Page writes: when they return, and what they do to the flags *)

Section PageWrites.

Variable E : environment.

Lemma write_page_v1_total pd a b s w :
  exists r w', micronucleus_write_page_v1 E pd a b s w = Done r w'.
Proof.
  unfold micronucleus_write_page_v1, bind, usb_control_msg.
  destruct (env_control_msg E _) as [r d].
  destruct (r <? 0); eauto.
Qed.

Lemma write_page_v2_loop_total fuel pd b s i w :
  0 <= i -> i mod 4 = 0 -> s mod 4 = 0 ->
  s <= Z.of_nat (length b) ->
  s - i <= 4 * Z.of_nat fuel ->
  exists r w', write_page_v2_loop E fuel pd b s i w = Done r w'.
Proof.
  revert i w. induction fuel as [|fuel IH]; intros i w Hi Hi4 Hs4 Hlen Hfuel.
  - cbn. destruct (Z.ltb_spec i s); [lia |]. unfold ret. eauto.
  - cbn [write_page_v2_loop]. destruct (Z.ltb_spec i s); [| unfold ret; eauto].
    assert (i + 4 <= s) as Hstep.
    { pose proof (Z.div_mod i 4 ltac:(lia)).
      pose proof (Z.div_mod s 4 ltac:(lia)). lia. }
    destruct (buf_get_is_Some b (i + 0) ltac:(lia)) as [b0 Hb0].
    destruct (buf_get_is_Some b (i + 1) ltac:(lia)) as [b1 Hb1].
    destruct (buf_get_is_Some b (i + 2) ltac:(lia)) as [b2 Hb2].
    destruct (buf_get_is_Some b (i + 3) ltac:(lia)) as [b3 Hb3].
    unfold bind. rewrite Hb0, Hb1, Hb2, Hb3. cbn [lift_option ret].
    unfold usb_control_msg.
    destruct (env_control_msg E _) as [r d].
    destruct (r <? 0); [eauto |].
    apply IH; try lia.
    rewrite <- Zplus_mod_idemp_l, Hi4. reflexivity.
Qed.

Lemma write_page_v2_total pd a b s w :
  s mod 4 = 0 -> s <= Z.of_nat (length b) ->
  exists r w', micronucleus_write_page_v2 E pd a b s w = Done r w'.
Proof.
  intros Hs4 Hlen.
  unfold micronucleus_write_page_v2, bind, usb_control_msg.
  destruct (env_control_msg E _) as [r d].
  destruct (r <? 0); [unfold ret; eauto |].
  apply write_page_v2_loop_total; try lia; reflexivity.
Qed.

(** [write_page_transfer] returns the session and the buffer it was given. *)
Lemma write_page_transfer_total pd a b s w :
  major_version pd < 2 \/ (s mod 4 = 0 /\ s <= Z.of_nat (length b)) ->
  exists r w', write_page_transfer E pd a b s w = Done (r, pd, b) w'.
Proof.
  intros Hok. unfold write_page_transfer.
  destruct (Z.leb_spec 2 (major_version pd)) as [Hv2 | Hv1].
  - destruct Hok as [Hv | [Hs4 Hlen]]; [lia |].
    destruct (write_page_v2_total pd a b s w Hs4 Hlen) as (r & w' & Hrun).
    unfold bind. rewrite Hrun.
    destruct (r <? 0); unfold ret, delay_ms, emit; eauto.
  - destruct (write_page_v1_total pd a b s w) as (r & w' & Hrun).
    unfold bind. rewrite Hrun.
    destruct (r <? 0); unfold ret, delay_ms, emit; eauto.
Qed.

End PageWrites.

Lemma patch_user_vector_defined pd b :
  4 <= page_size pd ->
  page_size pd <= bootloader_start pd < 65536 ->
  page_size pd <= Z.of_nat (length b) ->
  exists b', micronucleus_patch_user_vector pd b = Some b' /\
             length b' = length b.
Proof.
  intros Hps Hbs Hlen.
  unfold micronucleus_patch_user_vector.
  rewrite (u16_small (bootloader_start pd - 4)) by lia.
  rewrite (u16_small (bootloader_start pd - page_size pd)) by lia.
  destruct (0x2000 <? bootloader_start pd - 4).
  - rewrite buf_set_Some by lia. cbn [mbind option_bind].
    rewrite buf_set_Some by (rewrite !length_insert; lia).
    cbn [mbind option_bind].
    rewrite buf_set_Some by (rewrite !length_insert; lia).
    cbn [mbind option_bind].
    rewrite buf_set_Some by (rewrite !length_insert; lia).
    cbn [mbind option_bind].
    eexists. split; [reflexivity | rewrite !length_insert; reflexivity].
  - rewrite buf_set_Some by lia. cbn [mbind option_bind].
    rewrite buf_set_Some by (rewrite !length_insert; lia).
    cbn [mbind option_bind].
    eexists. split; [reflexivity | rewrite !length_insert; reflexivity].
Qed.

(** A blank page is no reset vector: its first word is 0xFFFF. *)
Lemma patch_reset_vector_blank pd n :
  (4 <= n)%nat ->
  micronucleus_patch_reset_vector pd (replicate n 0xFF)
    = Some (-1, pd, replicate n 0xFF).
Proof.
  intros Hn. do 4 (destruct n as [|n]; [lia |]). reflexivity.
Qed.

Section PageWriteCases.

Variable E : environment.

(** Page 0 under V1: nothing is patched, both flags are raised. *)
Lemma write_page_first_v1 pd b s w :
  major_version pd < 2 ->
  exists r w',
    micronucleus_write_page E pd 0 b s w = Done (r, with_pending pd, b) w'.
Proof.
  intros Hv. unfold micronucleus_write_page, bind, emit.
  change (0 =? 0) with true. cbn iota.
  destruct (Z.leb_spec 2 (major_version pd)); [lia |].
  apply write_page_transfer_total. left. exact Hv.
Qed.

(** Page 0 under V2 when the page starts with a branch. *)
Lemma write_page_first_v2 pd b s w w0 w1 target :
  2 <= major_version pd ->
  read_word b 0 = Some w0 -> read_word b 2 = Some w1 ->
  decode_reset_vector w0 w1 = Some target ->
  0 <= bootloader_start pd < 65536 ->
  s mod 4 = 0 -> s <= Z.of_nat (length b) ->
  exists r b' w',
    micronucleus_write_page E pd 0 b s w
      = Done (r, with_pending (set_user_reset_vector target pd), b') w'.
Proof.
  intros Hv Hw0 Hw1 Hdec Hbs Hs4 Hlen.
  destruct (patch_reset_vector_run pd b w0 w1 target Hw0 Hw1 Hdec Hbs)
    as (b' & Hpatch & Hlen' & _).
  unfold micronucleus_write_page, bind, emit.
  change (0 =? 0) with true. cbn iota.
  destruct (Z.leb_spec 2 (major_version pd)); [| lia].
  rewrite Hpatch. cbn [lift_option ret]. change (0 <? 0) with false.
  cbn iota.
  destruct (write_page_transfer_total E
              (with_pending (set_user_reset_vector target pd)) 0 b' s
              (Write_page 0 b s :: w)) as (r & w' & Hrun).
  { right. split; [exact Hs4 | rewrite Hlen'; exact Hlen]. }
  exists r, b', w'. exact Hrun.
Qed.

(** Page 0 under V2 when the page does not start with a branch: the call
    fails before anything is sent and the session is unchanged. *)
Lemma write_page_first_v2_rejected pd b s w r pd' b' :
  2 <= major_version pd ->
  micronucleus_patch_reset_vector pd b = Some (r, pd', b') ->
  r < 0 ->
  micronucleus_write_page E pd 0 b s w
    = Done (-1, pd, b) (Write_page 0 b s :: w).
Proof.
  intros Hv Hpatch Hr.
  apply patch_reset_vector_Some in Hpatch as Hcases.
  destruct Hcases as (_ & _ & _ & [-> | (-> & -> & ->)]); [lia |].
  unfold micronucleus_write_page, bind, emit.
  change (0 =? 0) with true. cbn iota.
  destruct (Z.leb_spec 2 (major_version pd)); [| lia].
  rewrite Hpatch. reflexivity.
Qed.

(** A page at or above the last page, other than page 0. *)
Lemma write_page_last pd a b s w :
  a <> 0 ->
  u32 (bootloader_start pd - page_size pd) <= a ->
  major_version pd < 2 \/
  (4 <= page_size pd /\ page_size pd <= bootloader_start pd < 65536 /\
   page_size pd <= Z.of_nat (length b) /\
   s mod 4 = 0 /\ s <= Z.of_nat (length b)) ->
  exists r b' w',
    micronucleus_write_page E pd a b s w
      = Done (r, set_write_last_page false pd, b') w' /\
    (major_version pd < 2 -> b' = b) /\
    (2 <= major_version pd -> micronucleus_patch_user_vector pd b = Some b').
Proof.
  intros Ha Hlast Hok.
  unfold micronucleus_write_page, bind, emit.
  destruct (Z.eqb_spec a 0); [contradiction |].
  destruct (Z.leb_spec (u32 (bootloader_start pd - page_size pd)) a);
    [| lia].
  destruct (Z.leb_spec 2 (major_version pd)) as [Hv2 | Hv1].
  - destruct Hok as [Hv | (Hps & Hbs & Hlen & Hs4 & Hs)]; [lia |].
    destruct (patch_user_vector_defined pd b Hps Hbs Hlen)
      as (b' & Hpatch & Hlen').
    rewrite Hpatch. cbn [lift_option ret].
    destruct (write_page_transfer_total E (set_write_last_page false pd)
                a b' s (Write_page a b s :: w)) as (r & w' & Hrun).
    { right. split; [exact Hs4 | rewrite Hlen'; exact Hs]. }
    exists r, b', w'. split; [exact Hrun |]. split; [lia | auto].
  - destruct (write_page_transfer_total E (set_write_last_page false pd)
                a b s (Write_page a b s :: w)) as (r & w' & Hrun).
    { left. exact Hv1. }
    exists r, b, w'. split; [exact Hrun |]. split; [auto | lia].
Qed.

End PageWriteCases.

(** ** The session finaliser *)

Section Powerdown.

Variable E : environment.

Lemma start_run pd w :
  exists r, micronucleus_start E pd w = Done r (start_request pd :: w).
Proof.
  unfold micronucleus_start, bind, usb_control_msg. cbv zeta.
  fold (start_request pd).
  destruct (env_control_msg E _) as [r d].
  destruct (r <? 0); unfold ret; eauto.
Qed.

(** The second half of [powerdown]: the start command. *)
Lemma powerdown_start_run pd w :
  exists pd' w',
    (if start_program pd
     then bind (micronucleus_start E (set_start_program false pd))
               (fun _ => ret (set_start_program false pd))
     else ret pd) w = Done pd' w' /\
    pd' = (if start_program pd then set_start_program false pd else pd) /\
    w' = (if start_program pd then start_request pd :: w else w).
Proof.
  destruct (start_program pd) eqn:Hsp.
  - destruct (start_run (set_start_program false pd) w) as [r Hrun].
    unfold bind. rewrite Hrun. unfold ret. eauto.
  - unfold ret. eauto.
Qed.

(** The first half of [powerdown] when the last page is pending. *)
Lemma powerdown_last_page_run pd w :
  session_ok pd ->
  exists r pd1 b1 w1,
    micronucleus_write_page E (set_write_last_page false pd)
      (final_page_address pd) (blank_page pd) (page_size pd) w
      = Done (r, pd1, b1) w1 /\
    device_part pd1 = device_part pd /\
    page_writes w1
      = page_writes w
        ++ [(final_page_address pd, blank_page pd, page_size pd)] /\
    (final_page_address pd <> 0 ->
     write_last_page pd1 = false /\ start_program pd1 = start_program pd).
Proof.
  intros Hok.
  assert (exists r pd1 b1 w1,
    micronucleus_write_page E (set_write_last_page false pd)
      (final_page_address pd) (blank_page pd) (page_size pd) w
      = Done (r, pd1, b1) w1 /\
    (final_page_address pd <> 0 ->
     write_last_page pd1 = false /\ start_program pd1 = start_program pd))
    as (r & pd1 & b1 & w1 & Hrun & Hflags).
  { destruct (Z.eq_dec (final_page_address pd) 0) as [Hz | Hnz].
    - rewrite Hz.
      destruct (Z.leb_spec 2 (major_version pd)) as [Hv2 | Hv1].
      + destruct Hok as [Hv | (Hps & Hps4 & Hbs)]; [lia |].
        assert (4 <= Z.to_nat (page_size pd))%nat as Hn by lia.
        pose proof (patch_reset_vector_blank (set_write_last_page false pd)
                      _ Hn) as Hblank.
        fold (blank_page pd) in Hblank.
        rewrite (write_page_first_v2_rejected E
                   (set_write_last_page false pd) _ _ w _ _ _ Hv2 Hblank
                   ltac:(lia)).
        do 4 eexists. split; [reflexivity |]. intros Hne. lia.
      + destruct (write_page_first_v1 E (set_write_last_page false pd)
                    (blank_page pd) (page_size pd) w Hv1)
          as (r & w1 & Hrun).
        do 4 eexists. split; [exact Hrun |]. intros Hne. lia.
    - destruct (write_page_last E (set_write_last_page false pd)
                  (final_page_address pd) (blank_page pd) (page_size pd) w
                  Hnz) as (r & b1 & w1 & Hrun & _).
      + unfold final_page_address. cbn. lia.
      + destruct Hok as [Hv | (Hps & Hps4 & Hbs)]; [left; exact Hv |].
        right. unfold blank_page. rewrite length_replicate. cbn.
        repeat split; lia.
      + do 4 eexists. split; [exact Hrun |]. intros _. split; reflexivity. }
  exists r, pd1, b1, w1. split; [exact Hrun |].
  apply write_page_Done in Hrun as [Hdev Hwrites].
  split; [exact Hdev |]. split; [exact Hwrites | exact Hflags].
Qed.

Lemma powerdown_unfold pd w :
  micronucleus_powerdown E pd w =
  bind (if write_last_page pd
        then bind (micronucleus_write_page E (set_write_last_page false pd)
                     (final_page_address pd) (blank_page pd) (page_size pd))
                  (fun '(_, pd1, _) => ret pd1)
        else ret pd)
       (fun pd1 =>
          if start_program pd1
          then bind (micronucleus_start E (set_start_program false pd1))
                    (fun _ => ret (set_start_program false pd1))
          else ret pd1) w.
Proof. reflexivity. Qed.

Lemma powerdown_run pd w :
  session_ok pd ->
  exists pd' w',
    micronucleus_powerdown E pd w = Done pd' w' /\
    start_program pd' = false /\
    (final_page_address pd <> 0 -> write_last_page pd' = false) /\
    page_writes w'
      = page_writes w
        ++ (if write_last_page pd
            then [(final_page_address pd, blank_page pd, page_size pd)]
            else []) /\
    (start_program pd = true -> exists w1, w' = start_request pd :: w1) /\
    (write_last_page pd = false -> start_program pd = false ->
     pd' = pd /\ w' = w).
Proof.
  intros Hok. rewrite powerdown_unfold.
  destruct (write_last_page pd) eqn:Hwlp.
  - destruct (powerdown_last_page_run pd w Hok)
      as (r & pd1 & b1 & w1 & Hrun & Hdev & Hwrites & Hflags).
    unfold bind at 1. unfold bind at 1. rewrite Hrun. cbn [ret].
    destruct (powerdown_start_run pd1 w1) as (pd' & w' & Hrun2 & -> & ->).
    rewrite Hrun2. do 2 eexists. split; [reflexivity |].
    assert (usb_handle pd1 = usb_handle pd) as Hh
      by (unfold device_part in Hdev; congruence).
    split; [destruct (start_program pd1) eqn:Hsp; [reflexivity | exact Hsp] |].
    split.
    { intros Hne. destruct (Hflags Hne) as [Hw _].
      destruct (start_program pd1); exact Hw. }
    split.
    { destruct (start_program pd1); cbn [page_writes start_request];
        exact Hwrites. }
    split; [| discriminate].
    intros Hsp. destruct (Z.eq_dec (final_page_address pd) 0) as [Hz | Hnz].
    + destruct (start_program pd1) eqn:Hsp1.
      * unfold start_request. rewrite Hh. eauto.
      * exfalso. clear Hflags.
        destruct (Z.leb_spec 2 (major_version pd)) as [Hv2 | Hv1].
        -- destruct Hok as [Hv | (Hps & Hps4 & Hbs)]; [lia |].
           assert (4 <= Z.to_nat (page_size pd))%nat as Hn by lia.
           pose proof (patch_reset_vector_blank
                         (set_write_last_page false pd) _ Hn) as Hblank.
           fold (blank_page pd) in Hblank.
           rewrite Hz in Hrun.
           rewrite (write_page_first_v2_rejected E
                      (set_write_last_page false pd) _ _ w _ _ _ Hv2 Hblank
                      ltac:(lia)) in Hrun.
           injection Hrun as _ <- _ _. cbn in Hsp1. congruence.
        -- rewrite Hz in Hrun.
           destruct (write_page_first_v1 E (set_write_last_page false pd)
                       (blank_page pd) (page_size pd) w Hv1)
             as (r' & w1' & Hrun').
           rewrite Hrun' in Hrun. injection Hrun as _ <- _ _.
           discriminate Hsp1.
    + destruct (Hflags Hnz) as [_ Hsame].
      rewrite Hsame, Hsp. unfold start_request. rewrite Hh. eauto.
  - unfold bind at 1. cbn [ret].
    destruct (powerdown_start_run pd w) as (pd' & w' & Hrun2 & -> & ->).
    rewrite Hrun2. do 2 eexists. split; [reflexivity |].
    split; [destruct (start_program pd) eqn:Hsp; [reflexivity | exact Hsp] |].
    split; [intros _; destruct (start_program pd); exact Hwlp |].
    split; [destruct (start_program pd); cbn [page_writes start_request];
            rewrite app_nil_r; reflexivity |].
    split; [intros ->; eauto |].
    intros _ ->. auto.
Qed.

End Powerdown.

(** ** The session-state lifecycle *)

(** C7, as stated, fails on a one-page V1 device. The info block
    [0x00, 0x40, 0x40, 0x02] gives flash 64, page 64, bootloader_start 64,
    so the final page is page 0. Writing page 0 raises both flags; the
    page write that powerdown synthesises goes to address 0 again, takes
    the page-0 branch and raises the pending-last-page flag instead of
    clearing it, and every transfer succeeds. *)
Lemma lifecycle_counterexample :
  let E := steady_env (4, [0x00; 0x40; 0x40; 0x02]) in
  exists pd1 w1 pd2 b2 w2,
    micronucleus_get_bootloader_info E (fresh_pdata 1) [] = Done (0, pd1) w1 /\
    bootloader_start pd1 - page_size pd1 = 0 /\
    micronucleus_write_page E pd1 0 (replicate 64 0) 64 w1
      = Done (0, pd2, b2) w2 /\
    ~ powerdown_resets_claim E pd2 w2.
Proof.
  intros E. do 5 eexists.
  split; [vm_compute; reflexivity |].
  split; [reflexivity |].
  split; [vm_compute; reflexivity |].
  intros (pd' & w' & Hrun & Hwlp & _).
  vm_compute in Hrun. injection Hrun as <- _.
  discriminate Hwlp.
Qed.

(** C7 (amended): writing the page at address 0 sets both the
    pending-last-page and the pending-start flag (under V2 provided the
    page starts with a branch, which is then captured; otherwise the call
    fails and the session is unchanged). Writing a page at a nonzero
    address at or above bootloader_start - page_size clears the
    pending-last-page flag and leaves pending-start alone. Powerdown, when
    pending-last-page is set, hands a 0xFF-filled page of page_size bytes
    for address bootloader_start - page_size to the page-write routine
    (under V2 and a nonzero address that routine applies the
    application-vector patch) and, when pending-start is set, issues the
    start command last; afterwards pending-start is false, and
    pending-last-page is false provided the final page is not page 0. *)
Theorem session_state_lifecycle (E : environment) (pd : pdata) (w : world) :
  (forall b s,
     major_version pd < 2 ->
     exists r pd' b' w',
       micronucleus_write_page E pd 0 b s w = Done (r, pd', b') w' /\
       write_last_page pd' = true /\ start_program pd' = true) /\
  (forall b s w0 w1 target,
     2 <= major_version pd ->
     read_word b 0 = Some w0 -> read_word b 2 = Some w1 ->
     decode_reset_vector w0 w1 = Some target ->
     0 <= bootloader_start pd < 65536 ->
     s mod 4 = 0 -> s <= Z.of_nat (length b) ->
     exists r pd' b' w',
       micronucleus_write_page E pd 0 b s w = Done (r, pd', b') w' /\
       write_last_page pd' = true /\ start_program pd' = true /\
       user_reset_vector pd' = target) /\
  (forall b s r pd' b',
     2 <= major_version pd ->
     micronucleus_patch_reset_vector pd b = Some (r, pd', b') -> r < 0 ->
     micronucleus_write_page E pd 0 b s w
       = Done (-1, pd, b) (Write_page 0 b s :: w)) /\
  (forall a b s,
     a <> 0 -> final_page_address pd <= a ->
     major_version pd < 2 \/
     (4 <= page_size pd /\ page_size pd <= bootloader_start pd < 65536 /\
      page_size pd <= Z.of_nat (length b) /\
      s mod 4 = 0 /\ s <= Z.of_nat (length b)) ->
     exists r pd' b' w',
       micronucleus_write_page E pd a b s w = Done (r, pd', b') w' /\
       write_last_page pd' = false /\
       start_program pd' = start_program pd /\
       (2 <= major_version pd ->
        micronucleus_patch_user_vector pd b = Some b')) /\
  (session_ok pd ->
   exists pd' w',
     micronucleus_powerdown E pd w = Done pd' w' /\
     start_program pd' = false /\
     (final_page_address pd <> 0 -> write_last_page pd' = false) /\
     page_writes w'
       = page_writes w
         ++ (if write_last_page pd
             then [(final_page_address pd, blank_page pd, page_size pd)]
             else []) /\
     (start_program pd = true -> exists w1, w' = start_request pd :: w1) /\
     (write_last_page pd = false -> start_program pd = false ->
      pd' = pd /\ w' = w)).
Proof.
  split; [| split; [| split; [| split]]].
  - intros b s Hv.
    destruct (write_page_first_v1 E pd b s w Hv) as (r & w' & Hrun).
    exists r, (with_pending pd), b, w'. auto.
  - intros b s w0 w1 target Hv Hw0 Hw1 Hdec Hbs Hs4 Hlen.
    destruct (write_page_first_v2 E pd b s w w0 w1 target
                Hv Hw0 Hw1 Hdec Hbs Hs4 Hlen) as (r & b' & w' & Hrun).
    exists r, (with_pending (set_user_reset_vector target pd)), b', w'.
    auto.
  - intros b s r pd' b' Hv Hpatch Hr.
    exact (write_page_first_v2_rejected E pd b s w r pd' b' Hv Hpatch Hr).
  - intros a b s Ha Hlast Hok.
    destruct (write_page_last E pd a b s w Ha Hlast Hok)
      as (r & b' & w' & Hrun & _ & Hpatch).
    exists r, (set_write_last_page false pd), b', w'. auto.
  - apply powerdown_run.
Qed.

Lemma session_state_lifecycle_witness :
  let E := steady_env (4, [0x18; 0x00; 0x40; 0x02]) in
  let pd := with_pending
              (set_bootloader_start 0x1800
                 (set_pages 96 (set_info 0x1800 64 2 (fresh_pdata 1)))) in
  exists pd' w',
    micronucleus_powerdown E pd [] = Done pd' w' /\
    start_program pd' = false /\ write_last_page pd' = false /\
    page_writes w' = [(0x1800 - 64, replicate 64 0xFF, 64)] /\
    exists w1, w' = start_request pd :: w1.
Proof.
  intros E pd.
  destruct (session_state_lifecycle E pd []) as (_ & _ & _ & _ & Hdown).
  destruct Hdown as (pd' & w' & Hrun & Hsp & Hwlp & Hwrites & Hstart & _).
  - left. cbn. lia.
  - exists pd', w'. split; [exact Hrun |]. split; [exact Hsp |].
    split; [apply Hwlp; vm_compute; discriminate |].
    split; [exact Hwrites |]. apply Hstart. reflexivity.
Defined.

(** ** Paged write: chunking *)

Lemma ceil_div_0 P : 0 < P -> ceil_div 0 P = 0.
Proof. intros HP. unfold ceil_div. cbn. rewrite Z.div_0_l by lia. reflexivity. Qed.

Lemma ceil_div_small n P : 0 < n <= P -> ceil_div n P = 1.
Proof.
  intros Hn. rewrite <- round_up_div_ceil by lia.
  symmetry. apply (Z.div_unique _ _ 1 (n - 1)); lia.
Qed.

Lemma ceil_div_step n P : 0 < P -> ceil_div (n + P) P = ceil_div n P + 1.
Proof.
  intros HP. rewrite <- !round_up_div_ceil by lia.
  replace (n + P + P - 1) with (n + P - 1 + 1 * P) by lia.
  apply Z.div_add. lia.
Qed.

Lemma ceil_div_nonneg n P : 0 < P -> 0 <= n -> 0 <= ceil_div n P.
Proof.
  intros HP Hn. rewrite <- round_up_div_ceil by lia.
  apply Z.div_pos; lia.
Qed.

Lemma chunk_shift src P addr n i :
  chunk src P addr (n + P) (S i) = chunk src P (addr + P) n i.
Proof.
  unfold chunk. rewrite Nat2Z.inj_succ.
  replace (addr + Z.succ (Z.of_nat i) * P) with (addr + P + Z.of_nat i * P)
    by lia.
  replace (n + P - Z.succ (Z.of_nat i) * P) with (n - Z.of_nat i * P) by lia.
  reflexivity.
Qed.

Lemma chunks_0 src P addr : 0 < P -> chunks src P addr 0 = [].
Proof. intros HP. unfold chunks. rewrite ceil_div_0 by exact HP. reflexivity. Qed.

(** The first chunk and the chunks of what remains. *)
Lemma chunks_step src P addr n :
  0 < P -> 0 < n ->
  chunks src P addr n
  = (addr,
     take (Z.to_nat (Z.min n P)) (drop (Z.to_nat addr) src)
     ++ replicate (Z.to_nat (P - Z.min n P)) 0xFF)
    :: chunks src P (addr + Z.min n P) (n - Z.min n P).
Proof.
  intros HP Hn. unfold chunks.
  destruct (Z.le_gt_cases n P) as [Hle | Hgt].
  - rewrite Z.min_l by exact Hle.
    rewrite ceil_div_small by lia.
    replace (n - n) with 0 by lia. rewrite ceil_div_0 by exact HP.
    change (Z.to_nat 1) with 1%nat. change (Z.to_nat 0) with 0%nat.
    cbn [seq map]. unfold chunk. cbn [Z.of_nat].
    rewrite Z.mul_0_l, Z.add_0_r, Z.sub_0_r, Z.min_l by exact Hle.
    reflexivity.
  - rewrite Z.min_r by lia.
    replace n with (n - P + P) at 1 2 by lia.
    rewrite ceil_div_step by exact HP.
    pose proof (ceil_div_nonneg (n - P) P HP ltac:(lia)) as Hc.
    rewrite Z2Nat.inj_add by lia.
    change (Z.to_nat 1) with 1%nat.
    rewrite Nat.add_comm. cbn [Nat.add seq map].
    f_equal.
    + unfold chunk. cbn [Z.of_nat].
      rewrite Z.mul_0_l, Z.add_0_r, Z.sub_0_r, Z.min_r by lia.
      reflexivity.
    + rewrite <- fmap_S_seq, <- list_fmap_compose.
      apply list_fmap_ext. intros _ i _. cbn. apply chunk_shift.
Qed.

Lemma patch_reset_vector_length pd b r pd' b' :
  micronucleus_patch_reset_vector pd b = Some (r, pd', b') ->
  length b' = length b.
Proof.
  unfold micronucleus_patch_reset_vector. intros H.
  repeat (apply bind_Some in H as (? & ? & H)).
  destruct (decode_reset_vector _ _); [| injection H as _ _ <-; reflexivity].
  destruct (_ <? _);
    repeat (apply bind_Some in H as (? & ? & H));
    injection H as _ _ <-;
    repeat match goal with
    | Hs : buf_set _ _ _ = Some _ |- _ =>
        apply buf_set_inv in Hs as (_ & _ & Hs)
    end; congruence.
Qed.

Lemma patch_user_vector_length pd b b' :
  micronucleus_patch_user_vector pd b = Some b' -> length b' = length b.
Proof.
  unfold micronucleus_patch_user_vector. intros H.
  destruct (_ <? _);
    repeat (apply bind_Some in H as (? & ? & H));
    injection H as <-;
    repeat match goal with
    | Hs : buf_set _ _ _ = Some _ |- _ =>
        apply buf_set_inv in Hs as (_ & _ & Hs)
    end; congruence.
Qed.

Lemma write_page_length E pd a b s w r pd' b' w' :
  micronucleus_write_page E pd a b s w = Done (r, pd', b') w' ->
  length b' = length b.
Proof.
  unfold micronucleus_write_page. intros H. run_inv;
    repeat match goal with
    | H : write_page_transfer _ _ _ _ _ _ = Done _ _ |- _ =>
        apply write_page_transfer_Done in H as (-> & -> & _)
    | H : micronucleus_patch_reset_vector _ _ = Some _ |- _ =>
        apply patch_reset_vector_length in H
    | H : micronucleus_patch_user_vector _ _ = Some _ |- _ =>
        apply patch_user_vector_length in H
    end; auto.
Qed.

(** The page buffer after the [memcpy] and the [memset] of one turn of
    the loop. *)
Lemma fill_page_buffer pb src addr c P :
  0 <= addr -> 0 <= c <= P ->
  addr + c <= Z.of_nat (length src) ->
  Z.of_nat (length pb) = P ->
  exists pb1,
    memcpy pb src addr c = Some pb1 /\
    memset pb1 c 0xFF (P - c)
      = Some (take (Z.to_nat c) (drop (Z.to_nat addr) src)
              ++ replicate (Z.to_nat (P - c)) 0xFF).
Proof.
  intros Haddr Hc Hsrc Hpb.
  assert (length (take (Z.to_nat c) (drop (Z.to_nat addr) src)) = Z.to_nat c)
    as Hdata by (rewrite length_take, length_drop; lia).
  eexists. split.
  - unfold memcpy.
    destruct (Z.leb_spec 0 addr); [| lia].
    destruct (Z.leb_spec 0 c); [| lia].
    destruct (Z.leb_spec (addr + c) (Z.of_nat (length src))); [| lia].
    destruct (Z.leb_spec c (Z.of_nat (length pb))); [| lia].
    reflexivity.
  - unfold memset. rewrite length_app, Hdata, length_drop.
    destruct (Z.leb_spec 0 c); [| lia].
    destruct (Z.leb_spec 0 (P - c)); [| lia].
    destruct (Z.leb_spec (c + (P - c))
                (Z.of_nat (Z.to_nat c + (length pb - Z.to_nat c)))); [| lia].
    cbn [andb]. f_equal.
    rewrite take_app_length' by (symmetry; exact Hdata).
    f_equal. change (u8 0xFF) with 0xFF.
    rewrite drop_ge; [apply app_nil_r |].
    rewrite length_app, Hdata, length_drop. lia.
Qed.

Section Chunking.

Variable E : environment.

(** The loop of [micronucleus_paged_write] hands exactly the chunks of the
    spec to the page-write routine, in order, and stops at the first
    failure. *)
Lemma paged_write_loop_chunks fuel pd mem pb addr n res w :
  0 < page_size pd ->
  0 <= addr -> 0 <= n ->
  addr + n <= Z.of_nat (length (buf mem)) ->
  addr + n < 4294967296 ->
  Z.of_nat (length pb) = page_size pd ->
  n <= Z.of_nat fuel ->
  paged_write_loop E fuel pd mem pb addr n res w
  = write_chunks E pd (chunks (buf mem) (page_size pd) addr n) res w.
Proof.
  revert pd pb addr n res w.
  induction fuel as [|fuel IH]; intros pd pb addr n res w HP Haddr Hn Hsrc
    Hwrap Hpb Hfuel.
  - assert (n = 0) as -> by lia. cbn.
    rewrite chunks_0 by exact HP. reflexivity.
  - cbn [paged_write_loop].
    destruct (Z.ltb_spec 0 n) as [Hpos | Hzero].
    + rewrite chunks_step by lia. cbn [write_chunks].
      assert ((if n <? page_size pd then n else page_size pd)
              = Z.min n (page_size pd)) as ->.
      { destruct (Z.ltb_spec n (page_size pd)); lia. }
      set (c := Z.min n (page_size pd)) in *.
      destruct (fill_page_buffer pb (buf mem) addr c (page_size pd))
        as (pb1 & Hcpy & Hset); try lia.
      unfold bind at 1. rewrite Hcpy. cbn [lift_option ret].
      unfold bind at 1. rewrite Hset. cbn [lift_option ret].
      unfold bind.
      destruct (micronucleus_write_page E pd addr _ (page_size pd) w)
        as [[[r pd'] pb'] w'| |] eqn:Hrun; [| reflexivity | reflexivity].
      destruct (r <? 0); [reflexivity |].
      pose proof (write_page_length _ _ _ _ _ _ _ _ _ _ Hrun) as Hlen.
      apply write_page_Done in Hrun as [Hdev _].
      apply device_part_page_size in Hdev.
      rewrite (u32_small (addr + c)), (u32_small (n - c)) by lia.
      rewrite <- Hdev. apply IH; rewrite ?Hdev; try lia.
      rewrite Hlen, length_app, length_take, length_drop, length_replicate.
      lia.
    + assert (n = 0) as -> by lia.
      rewrite chunks_0 by exact HP. reflexivity.
Qed.

(** On success every chunk has been handed over, and nothing else. *)
Lemma write_chunks_writes cs pd res w r pd' w' :
  write_chunks E pd cs res w = Done (r, pd') w' ->
  0 <= r ->
  page_writes w'
  = page_writes w ++ map (fun c => (fst c, snd c, page_size pd)) cs.
Proof.
  revert pd res w. induction cs as [|[a b] cs IH]; intros pd res w Hrun Hr.
  - cbn in Hrun. injection Hrun as _ _ <-. cbn. rewrite app_nil_r. reflexivity.
  - cbn [write_chunks] in Hrun. apply bind_Done in Hrun
      as ([[r1 pd1] b1] & w1 & Hpage & Hrest).
    destruct (Z.ltb_spec r1 0).
    + injection Hrest as <- _ _. lia.
    + apply write_page_Done in Hpage as [Hdev Hw1].
      apply device_part_page_size in Hdev.
      apply IH in Hrest; [| exact Hr].
      rewrite Hrest, Hw1, Hdev, <- app_assoc. reflexivity.
Qed.

End Chunking.

Lemma chunk_index_bound n P (i : nat) :
  0 < P -> 0 <= n -> (i < Z.to_nat (ceil_div n P))%nat -> Z.of_nat i * P < n.
Proof.
  intros HP Hn Hi.
  pose proof (ceil_div_bounds n P HP) as Hb.
  pose proof (ceil_div_nonneg n P HP Hn) as Hk.
  assert (Z.of_nat i <= ceil_div n P - 1) by lia. nia.
Qed.

Lemma chunk_length src P addr n i :
  0 < P -> 0 <= addr -> Z.of_nat i * P < n ->
  addr + n <= Z.of_nat (length src) ->
  Z.of_nat (length (snd (chunk src P addr n i))) = P.
Proof.
  intros HP Haddr Hi Hsrc. unfold chunk. cbn [snd].
  rewrite length_app, length_take, length_drop, length_replicate. nia.
Qed.

Lemma chunks_lengths src P addr n :
  0 < P -> 0 <= addr -> 0 <= n ->
  addr + n <= Z.of_nat (length src) ->
  Forall (fun c => Z.of_nat (length (snd c)) = P) (chunks src P addr n).
Proof.
  intros HP Haddr Hn Hsrc. unfold chunks.
  apply Forall_forall. intros c Hc.
  apply list_elem_of_In, in_map_iff in Hc as (i & <- & Hi).
  apply in_seq in Hi. apply chunk_length; try assumption.
  apply chunk_index_bound; lia.
Qed.

Lemma length_concat_uniform (ls : list (list Z)) P :
  Forall (fun l => Z.of_nat (length l) = P) ls ->
  Z.of_nat (length (concat ls)) = Z.of_nat (length ls) * P.
Proof.
  induction 1 as [|l ls Hl _ IH]; [reflexivity |].
  cbn [concat length]. rewrite length_app. lia.
Qed.

Lemma chunks_count src P addr n :
  0 < P -> 0 <= n -> Z.of_nat (length (chunks src P addr n)) = ceil_div n P.
Proof.
  intros HP Hn. unfold chunks. rewrite length_map, length_seq.
  apply Z2Nat.id. apply ceil_div_nonneg; assumption.
Qed.

Lemma chunks_last src P addr n :
  0 < P -> 0 < n ->
  let k := ceil_div n P in
  last (chunks src P addr n)
  = Some (addr + (k - 1) * P,
          take (Z.to_nat (n - (k - 1) * P))
               (drop (Z.to_nat (addr + (k - 1) * P)) src)
          ++ replicate (Z.to_nat (k * P - n)) 0xFF).
Proof.
  intros HP Hn k. unfold chunks. fold k.
  pose proof (ceil_div_bounds n P HP) as Hb. fold k in Hb.
  assert (0 < k) as Hk by nia.
  destruct (Z.to_nat k) as [|k'] eqn:Hk'; [lia |].
  rewrite seq_S, map_app, last_app. cbn [map last Nat.add].
  unfold chunk.
  replace (Z.of_nat k') with (k - 1) by lia.
  rewrite Z.min_l by lia.
  replace (P - (n - (k - 1) * P)) with (k * P - n) by lia.
  reflexivity.
Qed.

(** C5, as stated, fails: a V2 session with device page size 64 is asked
    to write 128 bytes at address 0 with caller page size 128, and the
    data does not start with a branch. Both bounds checks pass, the first
    chunk is refused by the reset-vector patch, the loop stops, and one
    chunk instead of ceil(128/64) = 2 has been handed over. *)
Lemma chunking_counterexample :
  ~ chunking_claim (steady_env (0, [])) 128 (v2_session 0x1800)
      {| mem_is_flash := true; size := 128; buf := replicate 128 0 |}
      128 0 128 [].
Proof.
  intros (r & pd' & w' & calls & Hrun & Hcalls & Hcount & _).
  vm_compute in Hrun. injection Hrun as _ _ <-.
  cbn [page_writes app] in Hcalls. subst calls.
  vm_compute in Hcount. discriminate Hcount.
Qed.

(** C5 (amended): for every flash paged_write call with S > 0 bytes and
    device page size P > 0 that passes the bounds checks, the loop hands
    the ceil(S/P) chunks of the buffer to the page-write routine in order,
    each with size P, and stops at the first chunk whose page write fails.
    Every chunk is exactly P bytes long, the last one being the remaining
    S - (ceil(S/P) - 1) * P bytes followed by 0xFF up to P, and the chunks
    total ceil(S/P) * P bytes. When the call succeeds, exactly these
    ceil(S/P) chunks have been handed over. *)
Theorem paged_write_chunking (E : environment) (fuel : nat) (pd : pdata)
    (mem : AVRMEM) (caller_page_size addr n_bytes : Z) (w : world) :
  mem_is_flash mem = true ->
  0 < n_bytes -> n_bytes <= caller_page_size ->
  0 <= addr -> addr + n_bytes <= flash_size pd -> flash_size pd < 65536 ->
  0 < page_size pd ->
  addr + n_bytes <= Z.of_nat (length (buf mem)) ->
  n_bytes <= Z.of_nat fuel ->
  let P := page_size pd in
  let k := ceil_div n_bytes P in
  let cs := chunks (buf mem) P addr n_bytes in
  micronucleus_paged_write E fuel pd mem caller_page_size addr n_bytes w
    = write_chunks E pd cs 0 w /\
  Z.of_nat (length cs) = k /\
  Forall (fun c => Z.of_nat (length (snd c)) = P) cs /\
  last cs = Some (addr + (k - 1) * P,
                  take (Z.to_nat (n_bytes - (k - 1) * P))
                       (drop (Z.to_nat (addr + (k - 1) * P)) (buf mem))
                  ++ replicate (Z.to_nat (k * P - n_bytes)) 0xFF) /\
  Z.of_nat (length (concat (map snd cs))) = k * P /\
  (forall r pd' w',
     micronucleus_paged_write E fuel pd mem caller_page_size addr n_bytes w
       = Done (r, pd') w' ->
     0 <= r ->
     page_writes w'
     = page_writes w ++ map (fun c => (fst c, snd c, P)) cs).
Proof.
  intros Hflash Hn Hcps Haddr Hflashsz Hfs HP Hsrc Hfuel P k cs.
  assert (micronucleus_paged_write E fuel pd mem caller_page_size addr
            n_bytes w = write_chunks E pd cs 0 w) as Hrefine.
  { unfold micronucleus_paged_write. rewrite Hflash.
    destruct (Z.ltb_spec caller_page_size n_bytes); [lia |].
    rewrite u32_small by lia.
    destruct (Z.ltb_spec (flash_size pd) (addr + n_bytes)); [lia |].
    apply paged_write_loop_chunks; try lia.
    rewrite length_replicate. lia. }
  pose proof (chunks_lengths (buf mem) P addr n_bytes HP Haddr
                ltac:(lia) Hsrc) as Hlens.
  pose proof (chunks_count (buf mem) P addr n_bytes HP ltac:(lia)) as Hcount.
  split; [exact Hrefine |]. split; [exact Hcount |].
  split; [exact Hlens |].
  split; [apply chunks_last; assumption |].
  split.
  - rewrite (length_concat_uniform _ P).
    + rewrite length_map. unfold cs. rewrite Hcount. reflexivity.
    + apply Forall_fmap. exact Hlens.
  - intros r pd' w' Hrun Hr. rewrite Hrefine in Hrun.
    apply (write_chunks_writes E cs pd 0 w r pd' w' Hrun Hr).
Qed.

Lemma paged_write_chunking_witness :
  let E := steady_env (0, []) in
  let pd := set_bootloader_start 0x1800
              (set_pages 96 (set_info 0x1800 64 2 (fresh_pdata 1))) in
  let mem := {| mem_is_flash := true; size := 256;
                buf := replicate 256 0x12 |} in
  exists pd' w',
    micronucleus_paged_write E 100 pd mem 128 64 100 [] = Done (0, pd') w' /\
    page_writes w'
    = [(64, replicate 64 0x12, 64);
       (128, replicate 36 0x12 ++ replicate 28 0xFF, 64)].
Proof.
  intros E pd mem.
  assert (micronucleus_paged_write E 100 pd mem 128 64 100 []
          = Done (0, pd) _) as Hrun
    by (vm_compute; reflexivity).
  destruct (paged_write_chunking E 100 pd mem 128 64 100 [])
    as (_ & _ & _ & _ & _ & Hwrites).
  - reflexivity.
  - lia.
  - lia.
  - lia.
  - vm_compute. discriminate.
  - reflexivity.
  - reflexivity.
  - vm_compute. discriminate.
  - vm_compute. discriminate.
  - do 2 eexists. split; [exact Hrun |].
    rewrite (Hwrites _ _ _ Hrun ltac:(lia)). reflexivity.
Defined.

(** ** Discovery: the locator filter *)

Section Discovery.

Variable E : environment.

Lemma is_device_responsive_inv pd d w resp pd1 w1 :
  micronucleus_is_device_responsive E pd d w = Done (resp, pd1) w1 ->
  pd1 = set_usb_handle None pd /\
  (resp = true -> w1 = probe_history pd d w).
Proof.
  unfold micronucleus_is_device_responsive.
  unfold bind at 1. unfold usb_open.
  destruct (env_open E (Usb_open d :: w)).
  - unfold bind at 1. rewrite check_connection_run.
    unfold bind, usb_close, emit, ret. intros [= <- <- <-].
    split; [destruct pd; reflexivity |]. intros _. reflexivity.
  - unfold ret. intros [= <- <- <-].
    split; [destruct pd; reflexivity | discriminate].
Qed.

(** A device is retained only by the last step of [scan_device]. *)
Lemma scan_device_retains vid pid p bn dn bus d pd w pd' w' :
  scan_device E vid pid (Some p) (Some bn) (Some dn) bus d pd w
    = Done pd' w' ->
  usb_handle pd = None ->
  usb_handle pd' = None \/
  (usb_handle pd' = Some {| usb_device_of := d |} /\
   dirname bus = bn /\ filename d = dn).
Proof.
  unfold scan_device. intros Hrun Hnone.
  destruct ((idVendor d =? vid) && (idProduct d =? pid));
    [| apply ret_Done in Hrun as [-> _]; auto].
  apply bind_Done in Hrun as ([resp pd1] & w1 & Hprobe & Hrun).
  apply is_device_responsive_inv in Hprobe as [-> _].
  destruct resp; cbn [negb] in Hrun; [| apply ret_Done in Hrun as [-> _]; auto].
  unfold str_eq in Hrun.
  destruct (String.eqb_spec (dirname bus) bn) as [Hb | Hb];
    [| apply ret_Done in Hrun as [-> _]; auto].
  destruct (String.eqb_spec (filename d) dn) as [Hd | Hd];
    [| apply ret_Done in Hrun as [-> _]; auto].
  cbn [negb orb] in Hrun.
  destruct (_ <? _); [apply ret_Done in Hrun as [-> _]; auto |].
  apply bind_Done in Hrun as (h & w2 & Hopen & Hrun).
  apply usb_open_Done in Hopen as [-> ->].
  apply ret_Done in Hrun as [-> _].
  destruct (env_open E _); cbn; auto.
Qed.

Lemma scan_devices_retains vid pid p bn dn bus devs pd w pd' w' :
  scan_devices E vid pid (Some p) (Some bn) (Some dn) bus devs pd w
    = Done pd' w' ->
  usb_handle pd = None ->
  usb_handle pd' = None \/
  exists d, d ∈ devs /\ usb_handle pd' = Some {| usb_device_of := d |} /\
            dirname bus = bn /\ filename d = dn.
Proof.
  revert pd w. induction devs as [|d devs IH]; intros pd w Hrun Hnone.
  - apply ret_Done in Hrun as [-> _]. auto.
  - cbn [scan_devices] in Hrun. rewrite Hnone in Hrun.
    apply bind_Done in Hrun as (pd1 & w1 & Hdev & Hrun).
    apply scan_device_retains in Hdev as [Hn1 | (Hh & Hb & Hd)];
      [| | exact Hnone].
    + apply IH in Hrun as [Hn | (d' & Hin & Hrest)]; [auto | | exact Hn1].
      right. exists d'. split; [apply list_elem_of_further; exact Hin |].
      exact Hrest.
    + destruct devs as [|d2 devs]; cbn [scan_devices] in Hrun;
        [| rewrite Hh in Hrun]; apply ret_Done in Hrun as [-> _];
        right; exists d; (split; [apply list_elem_of_here | auto]).
Qed.

Lemma scan_busses_retains vid pid p bn dn busses pd w pd' w' :
  scan_busses E vid pid (Some p) (Some bn) (Some dn) busses pd w
    = Done pd' w' ->
  usb_handle pd = None ->
  usb_handle pd' = None \/
  exists bus d, bus ∈ busses /\ d ∈ devices bus /\
                usb_handle pd' = Some {| usb_device_of := d |} /\
                dirname bus = bn /\ filename d = dn.
Proof.
  revert pd w. induction busses as [|bus busses IH]; intros pd w Hrun Hnone.
  - apply ret_Done in Hrun as [-> _]. auto.
  - cbn [scan_busses] in Hrun. rewrite Hnone in Hrun.
    apply bind_Done in Hrun as (pd1 & w1 & Hbus & Hrun).
    apply scan_devices_retains in Hbus as [Hn1 | (d & Hin & Hh & Hb & Hd)];
      [| | exact Hnone].
    + apply IH in Hrun as [Hn | (bus' & d' & Hbin & Hrest)];
        [auto | | exact Hn1].
      right. exists bus', d'.
      split; [apply list_elem_of_further; exact Hbin | exact Hrest].
    + destruct busses as [|b2 busses]; cbn [scan_busses] in Hrun;
        [| rewrite Hh in Hrun]; apply ret_Done in Hrun as [-> _];
        right; exists bus, d; (split; [apply list_elem_of_here | auto]).
Qed.

Lemma open_loop_retains fuel vid pid p bn dn start pd w pd' w' :
  open_loop E fuel vid pid (Some p) (Some bn) (Some dn) start pd w
    = Done pd' w' ->
  usb_handle pd' = None \/
  exists hist bus d, bus ∈ env_busses E hist /\ d ∈ devices bus /\
                     usb_handle pd' = Some {| usb_device_of := d |} /\
                     dirname bus = bn /\ filename d = dn.
Proof.
  revert pd w. induction fuel as [|fuel IH]; intros pd w Hrun;
    [discriminate Hrun |].
  cbn [open_loop] in Hrun.
  apply bind_Done in Hrun as (busses & w1 & Hfind & Hrun).
  unfold usb_find in Hfind. injection Hfind as <- <-.
  apply bind_Done in Hrun as (pd1 & w2 & Hscan & Hrun).
  apply scan_busses_retains in Hscan as Hret; [| reflexivity].
  destruct Hret as [Hn | (bus & d & Hbin & Hdin & Hh & Hb & Hd)].
  - rewrite Hn in Hrun. cbn [andb] in Hrun.
    destruct (wait_until_device_present pd1).
    + destruct (wait_timout pd1 <? 0).
      * apply bind_Done in Hrun as (u & w3 & _ & Hrun).
        apply IH in Hrun. exact Hrun.
      * apply bind_Done in Hrun as (now & w3 & _ & Hrun).
        destruct (now - start <? wait_timout pd1).
        -- apply bind_Done in Hrun as (u & w4 & _ & Hrun).
           apply IH in Hrun. exact Hrun.
        -- apply ret_Done in Hrun as [-> _]. auto.
    + apply ret_Done in Hrun as [-> _]. auto.
  - rewrite Hh in Hrun. cbn [andb] in Hrun. apply ret_Done in Hrun as [-> _].
    right. exists (Usb_find_devices :: w), bus, d. auto.
Qed.

End Discovery.

Lemma scan_devices_rejects E vid pid p bn dn bus d rest pd w pd1 w1 :
  usb_handle pd = None ->
  idVendor d = vid -> idProduct d = pid ->
  dirname bus <> bn \/ filename d <> dn ->
  micronucleus_is_device_responsive E (with_device_version d pd) d w
    = Done (true, pd1) w1 ->
  usb_handle pd1 = None /\
  w1 = probe_history (with_device_version d pd) d w /\
  scan_devices E vid pid (Some p) (Some bn) (Some dn) bus (d :: rest) pd w
  = scan_devices E vid pid (Some p) (Some bn) (Some dn) bus rest pd1 w1.
Proof.
  intros Hnone Hvid Hpid Hnames Hprobe.
  pose proof (is_device_responsive_inv _ _ _ _ _ _ _ Hprobe) as [Hpd1 Hw1].
  split; [rewrite Hpd1; reflexivity |].
  split; [apply Hw1; reflexivity |].
  cbn [scan_devices]. rewrite Hnone.
  unfold bind at 1. unfold scan_device.
  rewrite Hvid, Hpid, !Z.eqb_refl. cbn [andb].
  fold (with_device_version d pd).
  unfold bind at 1. rewrite Hprobe. cbn [negb].
  unfold str_eq.
  assert (negb (String.eqb (dirname bus) bn)
          || negb (String.eqb (filename d) dn) = true) as ->.
  { destruct (String.eqb_spec (dirname bus) bn);
      destruct (String.eqb_spec (filename d) dn); cbn; try reflexivity.
    destruct Hnames; contradiction. }
  reflexivity.
Qed.

Lemma open_retains E fuel usbvid usbpid pd port p bn dn w code pd' w' h :
  parse_port port = (Some p, Some bn, Some dn) ->
  micronucleus_open E fuel usbvid usbpid pd port w = Done (code, pd') w' ->
  usb_handle pd' = Some h ->
  exists hist bus,
    bus ∈ env_busses E hist /\ usb_device_of h ∈ devices bus /\
    dirname bus = bn /\ filename (usb_device_of h) = dn.
Proof.
  intros Hparse Hrun Hh. unfold micronucleus_open in Hrun.
  rewrite Hparse in Hrun.
  apply bind_Done in Hrun as (u & w1 & _ & Hrun).
  apply bind_Done in Hrun as (start & w2 & _ & Hrun).
  apply bind_Done in Hrun as (pd2 & w3 & Hloop & Hrun).
  apply open_loop_retains in Hloop
    as [Hn | (hist & bus & d & Hbin & Hdin & Hh2 & Hb & Hd)].
  - rewrite Hn in Hrun. apply ret_Done in Hrun as [[= _ ->] _]. congruence.
  - rewrite Hh2 in Hrun. apply ret_Done in Hrun as [[= _ ->] _].
    rewrite Hh2 in Hh. injection Hh as <-.
    exists hist, bus. auto.
Qed.

(** *** The scan retains the first candidate that passes the tests *)

Lemma find_app {A : Type} (f : A -> bool) (l1 l2 : list A) :
  find f (l1 ++ l2)
  = match find f l1 with Some x => Some x | None => find f l2 end.
Proof.
  induction l1 as [|x l1 IH]; [reflexivity |].
  cbn. destruct (f x); [reflexivity | exact IH].
Qed.

Section DiscoveryOrder.

Variable E : environment.
Hypothesis Hrespond : all_respond E.

Lemma is_device_responsive_all pd d w :
  micronucleus_is_device_responsive E pd d w
  = Done (true, set_usb_handle None pd) (probe_history pd d w).
Proof.
  destruct Hrespond as [Hopen Hinfo].
  unfold micronucleus_is_device_responsive.
  unfold bind at 1. unfold usb_open. rewrite Hopen.
  unfold bind at 1. rewrite check_connection_run.
  rewrite Hinfo, Z.eqb_refl.
  reflexivity.
Qed.

Lemma scan_device_accepted vid pid p bn dn bus d pd w :
  usb_handle pd = None ->
  exists pd' w',
    scan_device E vid pid (Some p) (Some bn) (Some dn) bus d pd w
      = Done pd' w' /\
    usb_handle pd'
    = (if accepted vid pid bn dn (bus, d)
       then Some {| usb_device_of := d |} else None) /\
    wait_until_device_present pd' = wait_until_device_present pd /\
    wait_timout pd' = wait_timout pd.
Proof.
  intros Hnone. unfold scan_device, accepted. cbn [fst snd].
  destruct ((idVendor d =? vid) && (idProduct d =? pid));
    [| exists pd, w; cbn [andb]; auto].
  cbn [andb]. unfold bind at 1. rewrite is_device_responsive_all.
  cbn [negb].
  destruct (str_eq (dirname bus) bn);
    [| do 2 eexists; split; [reflexivity |]; cbn; auto].
  destruct (str_eq (filename d) dn);
    [| do 2 eexists; split; [reflexivity |]; cbn; auto].
  cbn [negb orb andb].
  change (major_version
            (set_usb_handle None
               (set_version (u8 (Z.shiftr (bcdDevice d) 8))
                            (u8 (Z.shiftr (bcdDevice d) 0)) pd)))
    with (u8 (Z.shiftr (bcdDevice d) 8)).
  destruct (Z.ltb_spec MICRONUCLEUS_MAX_MAJOR_VERSION
              (u8 (Z.shiftr (bcdDevice d) 8)));
    destruct (Z.leb_spec (u8 (Z.shiftr (bcdDevice d) 8))
                MICRONUCLEUS_MAX_MAJOR_VERSION); try lia.
  - do 2 eexists. split; [reflexivity |]. cbn. auto.
  - unfold bind, usb_open, ret. destruct Hrespond as [Hopen _].
    rewrite Hopen. do 2 eexists. split; [reflexivity |]. cbn. auto.
Qed.

Lemma scan_devices_first vid pid p bn dn bus devs pd w :
  usb_handle pd = None ->
  exists pd' w',
    scan_devices E vid pid (Some p) (Some bn) (Some dn) bus devs pd w
      = Done pd' w' /\
    usb_handle pd'
    = match find (accepted vid pid bn dn) (map (fun d => (bus, d)) devs) with
      | Some c => Some {| usb_device_of := snd c |}
      | None => None
      end /\
    wait_until_device_present pd' = wait_until_device_present pd /\
    wait_timout pd' = wait_timout pd.
Proof.
  revert pd w. induction devs as [|d devs IH]; intros pd w Hnone.
  - exists pd, w. cbn. auto.
  - cbn [scan_devices]. rewrite Hnone.
    destruct (scan_device_accepted vid pid p bn dn bus d pd w Hnone)
      as (pd1 & w1 & Hrun & Hh & Hwait & Hto).
    unfold bind at 1. rewrite Hrun. cbn [map find].
    destruct (accepted vid pid bn dn (bus, d)).
    + exists pd1, w1. split; [| cbn [snd]; auto].
      destruct devs; cbn [scan_devices]; [| rewrite Hh]; reflexivity.
    + destruct (IH pd1 w1 Hh) as (pd' & w' & Hrun' & Hh' & Hwait' & Hto').
      exists pd', w'. split; [exact Hrun' |]. split; [exact Hh' |].
      split; congruence.
Qed.

Lemma scan_busses_first vid pid p bn dn busses pd w :
  usb_handle pd = None ->
  exists pd' w',
    scan_busses E vid pid (Some p) (Some bn) (Some dn) busses pd w
      = Done pd' w' /\
    usb_handle pd'
    = match first_accepted vid pid bn dn busses with
      | Some d => Some {| usb_device_of := d |}
      | None => None
      end /\
    wait_until_device_present pd' = wait_until_device_present pd /\
    wait_timout pd' = wait_timout pd.
Proof.
  unfold first_accepted, candidates.
  revert pd w. induction busses as [|bus busses IH]; intros pd w Hnone.
  - exists pd, w. cbn. auto.
  - cbn [scan_busses]. rewrite Hnone.
    destruct (scan_devices_first vid pid p bn dn bus (devices bus) pd w Hnone)
      as (pd1 & w1 & Hrun & Hh & Hwait & Hto).
    unfold bind at 1. rewrite Hrun. cbn [flat_map]. rewrite find_app.
    destruct (find (accepted vid pid bn dn)
                (map (fun d => (bus, d)) (devices bus))) as [c|].
    + exists pd1, w1. split; [| auto].
      destruct busses; cbn [scan_busses]; [| rewrite Hh]; reflexivity.
    + destruct (IH pd1 w1 Hh) as (pd' & w' & Hrun' & Hh' & Hwait' & Hto').
      exists pd', w'. split; [exact Hrun' |]. split; [exact Hh' |].
      split; congruence.
Qed.

(** With a locator, [micronucleus_open] ends on the first candidate, in
    the order of the busses and of their devices, that passes the tests. *)
Lemma open_first_accepted fuel usbvid usbpid pd port p bn dn w :
  parse_port port = (Some p, Some bn, Some dn) ->
  let found :=
    first_accepted (search_vid usbvid) (search_pid usbpid) bn dn
      (env_busses E (Usb_find_devices :: Time_read :: Usb_init :: w)) in
  exists pd' w',
    usb_handle pd'
    = match found with
      | Some d => Some {| usb_device_of := d |}
      | None => None
      end /\
    (found <> None \/ wait_until_device_present pd = false ->
     micronucleus_open E (S fuel) usbvid usbpid pd port w
     = Done (match found with Some _ => 0 | None => -1 end, pd') w').
Proof.
  intros Hparse found.
  destruct (scan_busses_first (search_vid usbvid) (search_pid usbpid)
              p bn dn
              (env_busses E (Usb_find_devices :: Time_read :: Usb_init :: w))
              (set_usb_handle None pd)
              (Usb_find_devices :: Time_read :: Usb_init :: w) eq_refl)
    as (pd1 & w1 & Hrun & Hh & Hwait & _).
  fold found in Hh.
  exists pd1, w1. split; [exact Hh |]. intros Hends.
  unfold micronucleus_open. rewrite Hparse.
  fold (search_vid usbvid). fold (search_pid usbpid).
  unfold bind at 1. unfold emit. unfold bind at 1. unfold time.
  cbn [open_loop]. unfold bind at 1. unfold bind at 1. unfold usb_find.
  unfold bind at 1. rewrite Hrun. rewrite Hh.
  destruct found as [d|].
  - cbn [andb]. unfold ret. rewrite Hh. reflexivity.
  - destruct Hends as [Hfound | Hnowait]; [contradiction |].
    rewrite Hwait.
    change (wait_until_device_present (set_usb_handle None pd))
      with (wait_until_device_present pd).
    rewrite Hnowait. cbn [andb]. unfold ret. rewrite Hh. reflexivity.
Qed.

End DiscoveryOrder.

(** C9: the locator "usb:001:004" is parsed as bus "001", device "004".
    With it, a responsive device with bus name 001 and device name 005
    (whatever its version) is only probed: it is opened, asked for its
    info block and closed, no handle is kept, and the scan goes on with the
    devices after it. Whenever discovery ends with a handle and a locator
    was given, the handle is on a device found on a bus of that name and
    with that device name. And the scan goes on over all devices of all
    busses: when every device can be opened and answers its info request,
    micronucleus_open with a locator returns 0 holding the first candidate,
    in the order of the busses and of the devices on each, that has the
    identifiers searched for, the bus and device name of the locator and a
    supported version, whatever candidates come before it; when there is
    no such candidate and the wait option is off it returns -1 without a
    handle. *)
Theorem locator_filtering (E : environment) :
  parse_port "usb:001:004" = (Some "usb:001:004", Some "001", Some "004") /\
  (forall vid pid bus d rest pd w pd1 w1,
     usb_handle pd = None ->
     idVendor d = vid -> idProduct d = pid ->
     dirname bus = "001" -> filename d = "005" ->
     micronucleus_is_device_responsive E (with_device_version d pd) d w
       = Done (true, pd1) w1 ->
     usb_handle pd1 = None /\
     w1 = probe_history (with_device_version d pd) d w /\
     scan_devices E vid pid (Some "usb:001:004") (Some "001") (Some "004")
                  bus (d :: rest) pd w
     = scan_devices E vid pid (Some "usb:001:004") (Some "001") (Some "004")
                    bus rest pd1 w1) /\
  (forall fuel usbvid usbpid pd port p bn dn w code pd' w' h,
     parse_port port = (Some p, Some bn, Some dn) ->
     micronucleus_open E fuel usbvid usbpid pd port w = Done (code, pd') w' ->
     usb_handle pd' = Some h ->
     exists hist bus,
       bus ∈ env_busses E hist /\ usb_device_of h ∈ devices bus /\
       dirname bus = bn /\ filename (usb_device_of h) = dn) /\
  (forall fuel usbvid usbpid pd port p bn dn w,
     all_respond E ->
     parse_port port = (Some p, Some bn, Some dn) ->
     let found :=
       first_accepted (search_vid usbvid) (search_pid usbpid) bn dn
         (env_busses E (Usb_find_devices :: Time_read :: Usb_init :: w)) in
     exists pd' w',
       usb_handle pd'
       = match found with
         | Some d => Some {| usb_device_of := d |}
         | None => None
         end /\
       (found <> None \/ wait_until_device_present pd = false ->
        micronucleus_open E (S fuel) usbvid usbpid pd port w
        = Done (match found with Some _ => 0 | None => -1 end, pd') w')).
Proof.
  split; [reflexivity |]. split; [| split].
  - intros vid pid bus d rest pd w pd1 w1 Hnone Hvid Hpid Hbus Hdev Hprobe.
    apply scan_devices_rejects; try assumption.
    right. rewrite Hdev. discriminate.
  - intros fuel usbvid usbpid pd port p bn dn w code pd' w' h.
    apply open_retains.
  - intros fuel usbvid usbpid pd port p bn dn w Hall Hparse.
    exact (open_first_accepted E Hall fuel usbvid usbpid pd port p bn dn w
             Hparse).
Qed.

Lemma locator_filtering_witness :
  exists pd' w',
    micronucleus_open scenario_C_two_bus_env 1 0 [] (fresh_pdata 0)
                      "usb:001:004" []
      = Done (0, pd') w' /\
    usb_handle pd' = Some {| usb_device_of := some_device |} /\
    exists hist bus,
      bus ∈ env_busses scenario_C_two_bus_env hist /\
      some_device ∈ devices bus /\
      dirname bus = "001" /\ filename some_device = "004".
Proof.
  destruct (locator_filtering scenario_C_two_bus_env)
    as (Hparse & _ & Hretain & Hfirst).
  assert (all_respond scenario_C_two_bus_env) as Hall
    by (split; intros; reflexivity).
  destruct (Hfirst 0%nat 0 [] (fresh_pdata 0) "usb:001:004"%string _ _ _ []
              Hall Hparse) as (pd' & w' & Hh & Hrun).
  assert (first_accepted (search_vid 0) (search_pid []) "001" "004"
            (env_busses scenario_C_two_bus_env
               [Usb_find_devices; Time_read; Usb_init])
          = Some some_device) as Hfound
    by (vm_compute; reflexivity).
  rewrite Hfound in Hh.
  assert (micronucleus_open scenario_C_two_bus_env 1 0 [] (fresh_pdata 0)
            "usb:001:004" [] = Done (0, pd') w') as Hdone.
  { rewrite Hrun; [rewrite Hfound; reflexivity |].
    left. rewrite Hfound. discriminate. }
  exists pd', w'. split; [exact Hdone |]. split; [exact Hh |].
  exact (Hretain 1%nat 0 [] (fresh_pdata 0) "usb:001:004"%string _ _ _ []
           0 pd' w' _ Hparse Hdone Hh).
Defined.

(** * Further properties of the sources *)

(** ** The template index *)

(** X1: for indices inside their ranges, UL_BLN is a mixed-radix number:
    it lies below UL_MCU_N * UL_IOTYPE_N * UL_BLTYPE_N * UL_CONFIG_N and each
    of the four indices is recovered from it by division and remainder, so
    distinct index tuples get distinct numbers. *)
Theorem UL_BLN_decodes (mcu io blt cfg : Z) :
  0 <= mcu < UL_MCU_N -> 0 <= io < UL_IOTYPE_N ->
  0 <= blt < UL_BLTYPE_N -> 0 <= cfg < UL_CONFIG_N ->
  let n := UL_BLN mcu io blt cfg in
  0 <= n < UL_MCU_N * UL_IOTYPE_N * UL_BLTYPE_N * UL_CONFIG_N /\
  n mod UL_CONFIG_N = cfg /\
  (n / UL_CONFIG_N) mod UL_BLTYPE_N = blt /\
  (n / (UL_CONFIG_N * UL_BLTYPE_N)) mod UL_IOTYPE_N = io /\
  n / (UL_CONFIG_N * UL_BLTYPE_N * UL_IOTYPE_N) = mcu.
Proof.
  intros Hmcu Hio Hblt Hcfg n.
  unfold UL_BLN, UL_MCU_N, UL_IOTYPE_N, UL_BLTYPE_N, UL_CONFIG_N in *.
  assert (n / 14 = (mcu * 31 + io) * 3 + blt) as H14.
  { symmetry. apply (Z.div_unique n 14 _ cfg); subst n; lia. }
  assert (n / (14 * 3) = mcu * 31 + io) as H42.
  { rewrite <- Z.div_div, H14 by lia.
    symmetry. apply (Z.div_unique _ 3 _ blt); lia. }
  assert (n / (14 * 3 * 31) = mcu) as H1302.
  { rewrite <- Z.div_div, H42 by lia.
    symmetry. apply (Z.div_unique _ 31 _ io); lia. }
  split; [subst n; lia |].
  split; [symmetry; apply (Z.mod_unique n 14 ((mcu * 31 + io) * 3 + blt));
          subst n; lia |].
  split; [rewrite H14; symmetry;
          apply (Z.mod_unique _ 3 (mcu * 31 + io)); lia |].
  split; [rewrite H42; symmetry; apply (Z.mod_unique _ 31 mcu); lia |].
  exact H1302.
Qed.

Lemma UL_BLN_decodes_witness :
  let n := UL_BLN 165 30 2 13 in
  0 <= n < UL_MCU_N * UL_IOTYPE_N * UL_BLTYPE_N * UL_CONFIG_N /\
  n mod UL_CONFIG_N = 13 /\
  (n / UL_CONFIG_N) mod UL_BLTYPE_N = 2 /\
  (n / (UL_CONFIG_N * UL_BLTYPE_N)) mod UL_IOTYPE_N = 30 /\
  n / (UL_CONFIG_N * UL_BLTYPE_N * UL_IOTYPE_N) = 165.
Proof.
  apply (UL_BLN_decodes 165 30 2 13); vm_compute; split; congruence.
Defined.

(** ** The locator string *)

Lemma split_at_char_app bus dev :
  colon_free bus ->
  split_at_char ":" (bus ++ String ":" dev) = Some (bus, dev).
Proof.
  induction bus as [|a bus IH]; intros Hfree.
  - cbn. reflexivity.
  - destruct Hfree as [Ha Hfree].
    change (split_at_char ":" (String a (bus ++ String ":" dev))
            = Some (String a bus, dev)).
    cbn [split_at_char].
    destruct (Ascii.eqb_spec a ":"); [contradiction |].
    rewrite IH by exact Hfree. reflexivity.
Qed.

Lemma split_at_char_inv s bus dev :
  split_at_char ":" s = Some (bus, dev) ->
  s = (bus ++ String ":" dev)%string /\ colon_free bus.
Proof.
  revert bus. induction s as [|a s IH]; intros bus; cbn; [discriminate |].
  destruct (Ascii.eqb_spec a ":") as [-> | Hne].
  - intros [= <- <-]. split; [reflexivity | exact I].
  - destruct (split_at_char ":" s) as [[l r]|]; [| discriminate].
    intros [= <- <-]. destruct (IH l eq_refl) as [-> Hfree].
    split; [reflexivity | split; assumption].
Qed.

Lemma parse_port_usb_colon rest :
  let port := String "u" (String "s" (String "b" (String ":" rest))) in
  parse_port port
  = match split_at_char ":" rest with
    | Some (bus, dev) => (Some port, Some bus, Some dev)
    | None => (Some port, Some rest, None)
    end.
Proof. reflexivity. Qed.

Lemma locator_shape bus dev :
  locator bus dev
  = String "u" (String "s" (String "b" (String ":" (bus ++ String ":" dev)))).
Proof. reflexivity. Qed.

(** X2: a locator [usb:<bus>:<device>] whose bus name has no colon is
    parsed into exactly that bus name and that device name. *)
Theorem parse_port_locator (bus dev : string) :
  colon_free bus ->
  parse_port (locator bus dev) = (Some (locator bus dev), Some bus, Some dev).
Proof.
  intros Hfree. rewrite locator_shape, parse_port_usb_colon.
  rewrite split_at_char_app by exact Hfree. reflexivity.
Qed.

Lemma parse_port_locator_witness :
  parse_port (locator "003" "017")
  = (Some (locator "003" "017"), Some "003"%string, Some "017"%string).
Proof.
  apply (parse_port_locator "003" "017").
  cbn. repeat split; discriminate.
Defined.

(** What [parse_port] can return, and for which strings. *)
Lemma parse_port_cases port :
  (port = "usb"%string /\ parse_port port = (None, None, None)) \/
  (exists bus dev, colon_free bus /\ port = locator bus dev /\
                   parse_port port = (Some port, Some bus, Some dev)) \/
  (port <> "usb"%string /\
   (forall bus dev, colon_free bus -> port <> locator bus dev) /\
   exists bn, parse_port port = (Some port, bn, None)).
Proof.
  unfold parse_port, str_eq, str_starts.
  destruct (String.eqb_spec port "usb") as [-> | Hne]; [left; auto |].
  right.
  assert (forall bus dev, colon_free bus ->
            parse_port (locator bus dev)
            = (Some (locator bus dev), Some bus, Some dev)) as Hloc
    by (intros; apply parse_port_locator; assumption).
  destruct (String.prefix "usb" port
            && match String.get 3 port with
               | Some c => Ascii.eqb ":" c
               | None => false
               end) eqn:Hhead.
  - destruct (split_at_char ":" (string_drop 4 port)) as [[bus dev]|] eqn:Hs.
    + left. apply split_at_char_inv in Hs as [Hrest Hfree].
      exists bus, dev. split; [exact Hfree |]. split; [| reflexivity].
      apply andb_prop in Hhead as [Hprefix Hcolon].
      apply String.prefix_correct in Hprefix.
      destruct port as [|a0 [|a1 [|a2 [|a3 rest]]]]; try discriminate.
      cbn in Hprefix, Hrest. cbn [String.get] in Hcolon.
      injection Hprefix as -> -> ->.
      apply Ascii.eqb_eq in Hcolon as <-.
      rewrite Hrest. reflexivity.
    + right. split; [exact Hne |]. split; [| eauto].
      intros bus dev Hfree ->. rewrite locator_shape in Hs.
      change (split_at_char ":" (bus ++ String ":" dev) = None) in Hs.
      rewrite split_at_char_app in Hs by exact Hfree.
      discriminate.
  - right. split; [exact Hne |]. split; [| eauto].
    intros bus dev Hfree ->. cbn in Hhead. discriminate.
Qed.

(** X3: a port that is neither [usb] nor [usb:<bus>:<device>] makes
    micronucleus_open fail with -1 before anything is done: no libusb call
    is made and the session is returned as it was. *)
Theorem open_rejects_malformed_port (E : environment) (fuel : nat)
    (usbvid : Z) (usbpid : list Z) (pd : pdata) (port : string) (w : world) :
  port <> "usb"%string ->
  (forall bus dev, colon_free bus -> port <> locator bus dev) ->
  micronucleus_open E fuel usbvid usbpid pd port w = Done (-1, pd) w.
Proof.
  intros Hne Hform.
  destruct (parse_port_cases port)
    as [[Heq _] | [(bus & dev & Hfree & Heq & _) | (_ & _ & bn & Hparse)]].
  - contradiction.
  - exfalso. exact (Hform bus dev Hfree Heq).
  - unfold micronucleus_open. rewrite Hparse. reflexivity.
Qed.

Lemma open_rejects_malformed_port_witness :
  micronucleus_open scenario_C_env 3 0 [] (fresh_pdata 0) "usb:001" []
  = Done (-1, fresh_pdata 0) [].
Proof.
  apply (open_rejects_malformed_port scenario_C_env 3 0 [] (fresh_pdata 0)
           "usb:001" []).
  - discriminate.
  - intros bus dev Hfree Heq. apply (f_equal parse_port) in Heq.
    rewrite parse_port_locator in Heq by exact Hfree.
    discriminate Heq.
Defined.

(** ** Discovery: probing, retaining, waiting *)

Section DiscoveryRuns.

Variable E : environment.

Lemma is_device_responsive_run pd d w :
  micronucleus_is_device_responsive E pd d w =
  if env_open E (Usb_open d :: w)
  then Done (fst (env_control_msg E
                    (info_request (set_usb_handle
                                     (Some {| usb_device_of := d |}) pd)
                                  (info_size pd) :: Usb_open d :: w))
             =? Z.of_nat (info_size pd),
             set_usb_handle None pd)
            (probe_history pd d w)
  else Done (false, set_usb_handle None pd) (Usb_open d :: w).
Proof.
  unfold micronucleus_is_device_responsive.
  unfold bind at 1. unfold usb_open.
  destruct (env_open E (Usb_open d :: w)); [| reflexivity].
  unfold bind at 1. rewrite check_connection_run.
  change (info_size (set_usb_handle (Some {| usb_device_of := d |}) pd))
    with (info_size pd).
  unfold bind, usb_close, emit, ret, probe_history.
  destruct (_ =? Z.of_nat (info_size pd)); reflexivity.
Qed.

Lemma scan_device_run vid pid port bn dn bus d pd w :
  usb_handle pd = None ->
  exists pd' w',
    scan_device E vid pid port bn dn bus d pd w = Done pd' w' /\
    retained_ok vid pid pd' /\
    wait_until_device_present pd' = wait_until_device_present pd /\
    wait_timout pd' = wait_timout pd.
Proof.
  intros Hnone. unfold scan_device.
  destruct (Z.eqb_spec (idVendor d) vid) as [Hvid | Hvid];
    [| cbn [andb]; exists pd, w; unfold retained_ok; rewrite Hnone; auto].
  destruct (Z.eqb_spec (idProduct d) pid) as [Hpid | Hpid];
    [| cbn [andb]; exists pd, w; unfold retained_ok; rewrite Hnone; auto].
  cbn [andb]. unfold bind at 1. rewrite is_device_responsive_run.
  set (pdv := set_version _ _ pd).
  assert (forall w', exists pd' w'',
            ret (set_usb_handle None pdv) w' = Done pd' w'' /\
            retained_ok vid pid pd' /\
            wait_until_device_present pd' = wait_until_device_present pd /\
            wait_timout pd' = wait_timout pd) as Hskip.
  { intros w'. do 2 eexists. split; [reflexivity |].
    split; [exact I | split; reflexivity]. }
  destruct (env_open E (Usb_open d :: w)); [| apply Hskip].
  destruct (_ =? Z.of_nat (info_size pdv)); [| apply Hskip].
  cbn [negb].
  destruct (match port with Some _ => _ | None => false end);
    [apply Hskip |].
  destruct (Z.ltb_spec MICRONUCLEUS_MAX_MAJOR_VERSION
              (major_version (set_usb_handle None pdv)));
    [apply Hskip |].
  unfold bind, usb_open, ret.
  do 2 eexists. split; [reflexivity |].
  split; [| split; reflexivity].
  unfold retained_ok. cbn [usb_handle set_usb_handle].
  destruct (env_open E _); [| exact I].
  cbn. cbn in H. auto.
Qed.

Lemma scan_devices_run vid pid port bn dn bus devs pd w :
  retained_ok vid pid pd ->
  exists pd' w',
    scan_devices E vid pid port bn dn bus devs pd w = Done pd' w' /\
    retained_ok vid pid pd' /\
    wait_until_device_present pd' = wait_until_device_present pd /\
    wait_timout pd' = wait_timout pd.
Proof.
  revert pd w. induction devs as [|d devs IH]; intros pd w Hok.
  - exists pd, w. auto.
  - cbn [scan_devices]. destruct (usb_handle pd) eqn:Hh.
    + exists pd, w. auto.
    + destruct (scan_device_run vid pid port bn dn bus d pd w Hh)
        as (pd1 & w1 & Hrun & Hok1 & Hw1 & Ht1).
      unfold bind. rewrite Hrun.
      destruct (IH pd1 w1 Hok1) as (pd' & w' & Hrun' & Hok' & Hw' & Ht').
      exists pd', w'. rewrite Hrun'. split; [reflexivity |].
      split; [exact Hok' |]. split; congruence.
Qed.

Lemma scan_busses_run vid pid port bn dn busses pd w :
  retained_ok vid pid pd ->
  exists pd' w',
    scan_busses E vid pid port bn dn busses pd w = Done pd' w' /\
    retained_ok vid pid pd' /\
    wait_until_device_present pd' = wait_until_device_present pd /\
    wait_timout pd' = wait_timout pd.
Proof.
  revert pd w. induction busses as [|bus busses IH]; intros pd w Hok.
  - exists pd, w. auto.
  - cbn [scan_busses]. destruct (usb_handle pd) eqn:Hh.
    + exists pd, w. auto.
    + destruct (scan_devices_run vid pid port bn dn bus (devices bus) pd w Hok)
        as (pd1 & w1 & Hrun & Hok1 & Hw1 & Ht1).
      unfold bind. rewrite Hrun.
      destruct (IH pd1 w1 Hok1) as (pd' & w' & Hrun' & Hok' & Hw' & Ht').
      exists pd', w'. rewrite Hrun'. split; [reflexivity |].
      split; [exact Hok' |]. split; congruence.
Qed.

(** Whatever [open_loop] returns satisfies [retained_ok]. *)
Lemma open_loop_retained fuel vid pid port bn dn start pd w pd' w' :
  open_loop E fuel vid pid port bn dn start pd w = Done pd' w' ->
  retained_ok vid pid pd'.
Proof.
  revert pd w. induction fuel as [|fuel IH]; intros pd w Hrun;
    [discriminate Hrun |].
  cbn [open_loop] in Hrun. unfold bind at 1 in Hrun. unfold usb_find in Hrun.
  destruct (scan_busses_run vid pid port bn dn
              (env_busses E (Usb_find_devices :: w))
              (set_usb_handle None pd) (Usb_find_devices :: w) I)
    as (pd1 & w1 & Hscan & Hok & _ & _).
  unfold bind at 1 in Hrun. rewrite Hscan in Hrun.
  destruct (match usb_handle pd1 with None => true | Some _ => false end
            && wait_until_device_present pd1).
  - destruct (wait_timout pd1 <? 0).
    + apply bind_Done in Hrun as (u & w2 & _ & Hrun). eapply IH, Hrun.
    + apply bind_Done in Hrun as (now & w2 & _ & Hrun).
      destruct (now - start <? wait_timout pd1).
      * apply bind_Done in Hrun as (u & w3 & _ & Hrun). eapply IH, Hrun.
      * apply ret_Done in Hrun as [-> _]. exact Hok.
  - apply ret_Done in Hrun as [-> _]. exact Hok.
Qed.

(** Without the wait option one scan decides. *)
Lemma open_loop_no_wait fuel vid pid port bn dn start pd w :
  wait_until_device_present pd = false ->
  exists pd' w',
    open_loop E (S fuel) vid pid port bn dn start pd w = Done pd' w' /\
    scan_busses E vid pid port bn dn (env_busses E (Usb_find_devices :: w))
                (set_usb_handle None pd) (Usb_find_devices :: w)
    = Done pd' w'.
Proof.
  intros Hwait. cbn [open_loop]. unfold bind at 1. unfold usb_find.
  destruct (scan_busses_run vid pid port bn dn
              (env_busses E (Usb_find_devices :: w))
              (set_usb_handle None pd) (Usb_find_devices :: w) I)
    as (pd1 & w1 & Hscan & _ & Hw & _).
  unfold bind at 1. rewrite Hscan. cbn in Hw. rewrite Hw, Hwait.
  rewrite andb_false_r. exists pd1, w1. auto.
Qed.

(** With the wait option, no timeout and no bus in sight the loop goes
    round until the fuel is gone. *)
Lemma open_loop_waits fuel vid pid port bn dn start pd w :
  (forall hist, env_busses E hist = []) ->
  wait_until_device_present pd = true ->
  wait_timout pd < 0 ->
  open_loop E fuel vid pid port bn dn start pd w = OutOfFuel.
Proof.
  intros Hbus. revert pd w.
  induction fuel as [|fuel IH]; intros pd w Hwait Hto; [reflexivity |].
  cbn [open_loop]. unfold bind at 1. unfold usb_find. rewrite Hbus.
  cbn [scan_busses]. unfold bind at 1. cbn [ret usb_handle set_usb_handle].
  change (wait_until_device_present (set_usb_handle None pd))
    with (wait_until_device_present pd).
  change (wait_timout (set_usb_handle None pd)) with (wait_timout pd).
  rewrite Hwait. cbn [andb].
  destruct (Z.ltb_spec (wait_timout pd) 0); [| lia].
  unfold bind, delay_ms, emit. apply IH; assumption.
Qed.

End DiscoveryRuns.

(** X4: micronucleus_open returns 0 or -1. When it returns 0 the session
    holds a handle on a device with the vendor and product identifiers
    searched for (the configured vendor id or the default, the first
    configured product id or the default), the session's major and minor
    version are the two bytes of that device's bcdDevice, and the major
    version is at most 2. *)
Theorem open_retains_compatible_device (E : environment) (fuel : nat)
    (usbvid : Z) (usbpid : list Z) (pd : pdata) (port : string) (w : world)
    (code : Z) (pd' : pdata) (w' : world) :
  micronucleus_open E fuel usbvid usbpid pd port w = Done (code, pd') w' ->
  (code = 0 \/ code = -1) /\
  (code = 0 ->
   exists h,
     usb_handle pd' = Some h /\
     idVendor (usb_device_of h) = search_vid usbvid /\
     idProduct (usb_device_of h) = search_pid usbpid /\
     major_version pd' = u8 (Z.shiftr (bcdDevice (usb_device_of h)) 8) /\
     minor_version pd' = u8 (Z.shiftr (bcdDevice (usb_device_of h)) 0) /\
     major_version pd' <= 2).
Proof.
  unfold micronucleus_open.
  destruct (parse_port port) as [[po bn] dn].
  destruct (match po, dn with Some _, None => true | _, _ => false end).
  - intros Hrun. apply ret_Done in Hrun as [[= -> ->] _].
    split; [auto | discriminate].
  - intros Hrun.
    apply bind_Done in Hrun as (u & w1 & _ & Hrun).
    apply bind_Done in Hrun as (start & w2 & _ & Hrun).
    apply bind_Done in Hrun as (pd2 & w3 & Hloop & Hrun).
    apply open_loop_retained in Hloop.
    fold (search_vid usbvid) in Hloop. fold (search_pid usbpid) in Hloop.
    unfold retained_ok in Hloop.
    destruct (usb_handle pd2) as [h|] eqn:Hh;
      apply ret_Done in Hrun as [[= -> ->] _].
    + split; [auto |]. intros _. exists h. split; [exact Hh | exact Hloop].
    + split; [auto | discriminate].
Qed.

Lemma open_retains_compatible_device_witness :
  exists pd' w' h,
    micronucleus_open scenario_C_env 1 0 [] (fresh_pdata 0) "usb" []
      = Done (0, pd') w' /\
    usb_handle pd' = Some h /\
    idVendor (usb_device_of h) = MICRONUCLEUS_VID /\
    idProduct (usb_device_of h) = MICRONUCLEUS_PID /\
    major_version pd' = 2 /\ minor_version pd' = 5.
Proof.
  assert (exists pd' w',
            micronucleus_open scenario_C_env 1 0 [] (fresh_pdata 0) "usb" []
            = Done (0, pd') w' /\
            usb_handle pd' = Some {| usb_device_of := device_005 |})
    as (pd' & w' & Hrun & Hh)
    by (do 2 eexists; split; [vm_compute; reflexivity | reflexivity]).
  destruct (open_retains_compatible_device _ _ _ _ _ _ _ _ _ _ Hrun)
    as [_ Hok].
  destruct (Hok eq_refl) as (h & Hh' & Hvid & Hpid & Hmaj & Hmin & _).
  rewrite Hh in Hh'. injection Hh' as <-.
  exists pd', w', {| usb_device_of := device_005 |}.
  repeat split; assumption.
Defined.

(** X5: without the wait option micronucleus_open makes one pass and
    returns: the outcome is a result, and the same one for every amount of
    fuel from 1 on. *)
Theorem open_without_wait_returns (E : environment) (usbvid : Z)
    (usbpid : list Z) (pd : pdata) (port : string) (w : world) :
  wait_until_device_present pd = false ->
  exists code pd' w',
    forall fuel,
      micronucleus_open E (S fuel) usbvid usbpid pd port w
      = Done (code, pd') w'.
Proof.
  intros Hwait. unfold micronucleus_open.
  destruct (parse_port port) as [[po bn] dn].
  destruct (match po, dn with Some _, None => true | _, _ => false end).
  - do 3 eexists. intros fuel. reflexivity.
  - unfold bind at 1. unfold emit. unfold bind at 1. unfold time.
    set (w2 := Time_read :: Usb_init :: w).
    destruct (open_loop_no_wait E 0 (search_vid usbvid) (search_pid usbpid)
                po bn dn (env_time E w2) pd w2 Hwait)
      as (pd' & w' & _ & Hscan).
    exists (match usb_handle pd' with None => -1 | Some _ => 0 end), pd', w'.
    intros fuel.
    destruct (open_loop_no_wait E fuel (search_vid usbvid)
                (search_pid usbpid) po bn dn (env_time E w2) pd w2 Hwait)
      as (pd'' & w'' & Hloop & Hscan').
    rewrite Hscan in Hscan'. injection Hscan' as <- <-.
    unfold bind. unfold search_vid, search_pid in Hloop. rewrite Hloop.
    destruct (usb_handle pd'); reflexivity.
Qed.

Lemma open_without_wait_returns_witness :
  exists code pd' w',
    forall fuel,
      micronucleus_open (steady_env (0, [])) (S fuel) 0 [] (fresh_pdata 0)
                        "usb" []
      = Done (code, pd') w'.
Proof.
  apply (open_without_wait_returns (steady_env (0, [])) 0 []
           (fresh_pdata 0) "usb" []).
  reflexivity.
Defined.

(** X6: with the wait option and a negative timeout micronucleus_open
    never gives up while no bus shows up: for a well-formed port it does
    not return, whatever fuel it is given. *)
Theorem open_waits_indefinitely (E : environment) (fuel : nat) (usbvid : Z)
    (usbpid : list Z) (pd : pdata) (port : string) (w : world) :
  (forall hist, env_busses E hist = []) ->
  wait_until_device_present pd = true ->
  wait_timout pd < 0 ->
  port = "usb"%string \/
  (exists bus dev, colon_free bus /\ port = locator bus dev) ->
  micronucleus_open E fuel usbvid usbpid pd port w = OutOfFuel.
Proof.
  intros Hbus Hwait Hto Hport. unfold micronucleus_open.
  assert (exists po bn dn,
            parse_port port = (po, bn, dn) /\
            match po, dn with Some _, None => true | _, _ => false end
            = false) as (po & bn & dn & -> & ->).
  { destruct Hport as [-> | (bus & dev & Hfree & ->)].
    - do 3 eexists. split; reflexivity.
    - rewrite parse_port_locator by exact Hfree.
      do 3 eexists. split; reflexivity. }
  unfold bind at 1. unfold emit. unfold bind at 1. unfold time.
  unfold bind. rewrite open_loop_waits by assumption. reflexivity.
Qed.

Lemma open_waits_indefinitely_witness :
  micronucleus_open (steady_env (0, [])) 50 0 []
    (set_wait true (-1) (fresh_pdata 0)) "usb:001:004" []
  = OutOfFuel.
Proof.
  apply (open_waits_indefinitely (steady_env (0, [])) 50 0 []
           (set_wait true (-1) (fresh_pdata 0)) "usb:001:004" []).
  - reflexivity.
  - reflexivity.
  - cbn. lia.
  - right. exists "001"%string, "004"%string.
    split; [cbn; repeat split; discriminate | reflexivity].
Defined.

(** ** Extended parameters *)

Section ExtendedParameterProperties.

Variable atoi : string -> Z.
Variable LIBAVRDUDE_EXIT : Z.

Lemma parseextparams_wait pd p rest :
  is_wait_param p = true ->
  micronucleus_parseextparams atoi LIBAVRDUDE_EXIT pd (p :: rest)
  = micronucleus_parseextparams atoi LIBAVRDUDE_EXIT
      (set_wait true (wait_timeout_of atoi p) pd) rest.
Proof.
  unfold is_wait_param, wait_timeout_of. cbn [micronucleus_parseextparams].
  destruct (str_eq p "wait"); [reflexivity |].
  cbn [orb]. intros ->. reflexivity.
Qed.

Lemma parseextparams_other pd p rest :
  is_wait_param p = false ->
  micronucleus_parseextparams atoi LIBAVRDUDE_EXIT pd (p :: rest)
  = (if str_eq p "help" then LIBAVRDUDE_EXIT else -1, pd).
Proof.
  unfold is_wait_param. cbn [micronucleus_parseextparams].
  destruct (str_eq p "wait"); [discriminate |].
  cbn [orb]. intros ->. destruct (str_eq p "help"); reflexivity.
Qed.

Lemma parseextparams_waits pd params :
  Forall (fun p => is_wait_param p = true) params ->
  forall rest,
    micronucleus_parseextparams atoi LIBAVRDUDE_EXIT pd (params ++ rest)
    = micronucleus_parseextparams atoi LIBAVRDUDE_EXIT
        (snd (micronucleus_parseextparams atoi LIBAVRDUDE_EXIT pd params))
        rest /\
    fst (micronucleus_parseextparams atoi LIBAVRDUDE_EXIT pd params) = 0.
Proof.
  intros Hall. revert pd.
  induction Hall as [|p params Hp _ IH]; intros pd rest.
  - split; reflexivity.
  - change ((p :: params) ++ rest) with (p :: (params ++ rest)).
    rewrite !parseextparams_wait by exact Hp. apply IH.
Qed.

End ExtendedParameterProperties.

(** X7: when every extended parameter is [wait] or starts with [wait=],
    parsing succeeds with 0, waiting for the device is switched on, the
    timeout is the one of the last parameter (-1 for [wait], the number
    read by atoi after [wait=]), and nothing else in the session changes. *)
Theorem extparams_last_wait_wins (atoi : string -> Z) (LIBAVRDUDE_EXIT : Z)
    (pd : pdata) (params : list string) (p : string) :
  Forall (fun q => is_wait_param q = true) params ->
  is_wait_param p = true ->
  micronucleus_parseextparams atoi LIBAVRDUDE_EXIT pd (params ++ [p])
  = (0, set_wait true (wait_timeout_of atoi p) pd).
Proof.
  intros Hall Hp. revert pd.
  induction Hall as [|q params Hq _ IH]; intros pd.
  - cbn [app]. rewrite parseextparams_wait by exact Hp. reflexivity.
  - change ((q :: params) ++ [p]) with (q :: (params ++ [p])).
    rewrite parseextparams_wait by exact Hq. rewrite IH. reflexivity.
Qed.

Lemma extparams_last_wait_wins_witness :
  micronucleus_parseextparams (fun _ => 30) (-4) (fresh_pdata 0)
    (["wait"%string; "wait=30"%string] ++ ["wait"%string])
  = (0, set_wait true (-1) (fresh_pdata 0)).
Proof.
  apply (extparams_last_wait_wins (fun _ => 30) (-4) (fresh_pdata 0)
           ["wait"%string; "wait=30"%string] "wait"%string).
  - repeat constructor.
  - reflexivity.
Defined.

(** X8: parsing stops at the first extended parameter that is neither
    [wait] nor [wait=...]: the result is LIBAVRDUDE_EXIT when that parameter
    is [help] and -1 otherwise, the wait parameters before it have been
    applied, and the parameters after it have no influence. *)
Theorem extparams_stop_at_first_other (atoi : string -> Z)
    (LIBAVRDUDE_EXIT : Z) (pd : pdata) (good : list string) (other : string)
    (rest : list string) :
  Forall (fun q => is_wait_param q = true) good ->
  is_wait_param other = false ->
  micronucleus_parseextparams atoi LIBAVRDUDE_EXIT pd (good ++ other :: rest)
  = (if str_eq other "help" then LIBAVRDUDE_EXIT else -1,
     snd (micronucleus_parseextparams atoi LIBAVRDUDE_EXIT pd good)).
Proof.
  intros Hall Hother.
  destruct (parseextparams_waits atoi LIBAVRDUDE_EXIT pd good Hall
              (other :: rest)) as [-> _].
  apply parseextparams_other. exact Hother.
Qed.

Lemma extparams_stop_at_first_other_witness :
  micronucleus_parseextparams (fun _ => 30) (-4) (fresh_pdata 0)
    (["wait=30"%string] ++ "wiat"%string :: ["wait"%string; "help"%string])
  = (-1, set_wait true 30 (fresh_pdata 0)).
Proof.
  apply (extparams_stop_at_first_other (fun _ => 30) (-4) (fresh_pdata 0)
           ["wait=30"%string] "wiat"%string
           ["wait"%string; "help"%string]).
  - repeat constructor.
  - reflexivity.
Defined.

(** ** Closing, probing, initialising *)

(** X9: micronucleus_close releases the handle once: it closes the handle
    the session holds, leaves the session without a handle and otherwise
    unchanged, and closing again does nothing. *)
Theorem close_releases_once (pd : pdata) (w : world) :
  exists pd1 w1,
    micronucleus_close pd w = Done pd1 w1 /\
    pd1 = set_usb_handle None pd /\
    w1 = match usb_handle pd with
         | Some h => Usb_close (Some h) :: w
         | None => w
         end /\
    micronucleus_close pd1 w1 = Done pd1 w1.
Proof.
  unfold micronucleus_close.
  destruct (usb_handle pd) as [h|] eqn:Hh.
  - do 2 eexists. split; [reflexivity |]. repeat split.
  - exists pd, w. split; [reflexivity |].
    split; [destruct pd; cbn in Hh; subst; reflexivity |].
    split; [reflexivity |]. rewrite Hh. reflexivity.
Qed.

(** X10: the probe of a candidate device never leaves a handle in the
    session. If the device cannot be opened nothing more is sent to it; if
    it is opened it gets one info request and is closed again, whatever the
    answer. The device counts as responsive exactly when it could be opened
    and the answer has the full size of the info block. *)
Theorem probe_releases_device (E : environment) (pd : pdata)
    (d : usb_device) (w : world) :
  exists resp w1,
    micronucleus_is_device_responsive E pd d w
      = Done (resp, set_usb_handle None pd) w1 /\
    w1 = (if env_open E (Usb_open d :: w) then probe_history pd d w
          else Usb_open d :: w) /\
    (resp = true <->
     env_open E (Usb_open d :: w) = true /\
     fst (env_control_msg E
            (info_request (set_usb_handle (Some {| usb_device_of := d |}) pd)
                          (info_size pd) :: Usb_open d :: w))
     = Z.of_nat (info_size pd)).
Proof.
  rewrite is_device_responsive_run.
  destruct (env_open E (Usb_open d :: w)).
  - do 2 eexists. split; [reflexivity |]. split; [reflexivity |].
    rewrite Z.eqb_eq. tauto.
  - do 2 eexists. split; [reflexivity |]. split; [reflexivity |].
    split; [discriminate | intros [Hopen _]; discriminate Hopen].
Qed.

(** X11: when the info request is answered with an error or with fewer
    bytes than the info block has, micronucleus_initialize fails with that
    error (or -1 for a short answer) after that single request, and the
    session is unchanged. *)
Theorem initialize_failure (E : environment) (pd : pdata) (w : world)
    (r : Z) (data : list Z) :
  env_control_msg E (info_request pd (info_size pd) :: w) = (r, data) ->
  r < Z.of_nat (info_size pd) ->
  micronucleus_initialize E pd w
  = Done (if r <? 0 then r else -1, pd) (info_request pd (info_size pd) :: w).
Proof.
  unfold micronucleus_initialize, micronucleus_get_bootloader_info, info_size.
  intros Hresp Hr. unfold bind.
  destruct (2 <=? major_version pd).
  - rewrite (info_v2_short E pd w r data Hresp Hr).
    destruct (Z.ltb_spec r 0) as [Hneg | Hpos].
    + destruct (Z.ltb_spec r 0); [reflexivity | lia].
    + reflexivity.
  - rewrite (info_v1_short E pd w r data Hresp Hr).
    destruct (Z.ltb_spec r 0) as [Hneg | Hpos].
    + destruct (Z.ltb_spec r 0); [reflexivity | lia].
    + reflexivity.
Qed.

Lemma initialize_failure_witness :
  micronucleus_initialize (steady_env (4, [0x18; 0x00; 0x40; 0x05]))
    (fresh_pdata 2) []
  = Done (-1, fresh_pdata 2) [info_request (fresh_pdata 2) 6].
Proof.
  apply (initialize_failure (steady_env (4, [0x18; 0x00; 0x40; 0x05]))
           (fresh_pdata 2) [] 4 [0x18; 0x00; 0x40; 0x05]).
  - reflexivity.
  - cbn. lia.
Defined.

(** ** Page writes: the write sleep and what is left untouched *)

Section PageWriteProperties.

Variable E : environment.

Lemma write_page_v1_delays pd a b s w r w' :
  micronucleus_write_page_v1 E pd a b s w = Done r w' ->
  r <= 0 /\ delays w' = delays w.
Proof.
  unfold micronucleus_write_page_v1. intros H. run_inv.
  - split; [lia | reflexivity].
  - split; [lia | reflexivity].
Qed.

Lemma write_page_v2_loop_delays fuel pd b s i w r w' :
  write_page_v2_loop E fuel pd b s i w = Done r w' ->
  r <= 0 /\ delays w' = delays w.
Proof.
  revert i w. induction fuel as [|fuel IH]; intros i w; cbn.
  - destruct (i <? s); intros H; run_inv. split; [lia | reflexivity].
  - destruct (i <? s); intros H; run_inv.
    + split; [lia | reflexivity].
    + apply IH in H. exact H.
    + split; [lia | reflexivity].
Qed.

Lemma write_page_v2_delays pd a b s w r w' :
  micronucleus_write_page_v2 E pd a b s w = Done r w' ->
  r <= 0 /\ delays w' = delays w.
Proof.
  unfold micronucleus_write_page_v2. intros H. run_inv.
  - split; [lia | reflexivity].
  - apply write_page_v2_loop_delays in H. exact H.
Qed.

Lemma write_page_transfer_delays pd a b s w r pd' b' w' :
  write_page_transfer E pd a b s w = Done (r, pd', b') w' ->
  r <= 0 /\
  delays w' = delays w ++ (if r =? 0 then [write_sleep pd] else []).
Proof.
  unfold write_page_transfer. intros H. run_inv;
    match goal with
    | H : micronucleus_write_page_v2 _ _ _ _ _ _ = _ |- _ =>
        apply write_page_v2_delays in H as [Hle Hd]
    | H : micronucleus_write_page_v1 _ _ _ _ _ _ = _ |- _ =>
        apply write_page_v1_delays in H as [Hle Hd]
    end;
    match goal with
    | Hlt : (?x <? 0) = true |- _ =>
        apply Z.ltb_lt in Hlt; split; [lia |];
        destruct (Z.eqb_spec x 0); [lia |]; rewrite app_nil_r; exact Hd
    | Hlt : (?x <? 0) = false |- _ =>
        split; [lia |]; cbn; rewrite Hd; reflexivity
    end.
Qed.

Lemma write_page_delays pd a b s w r pd' b' w' :
  micronucleus_write_page E pd a b s w = Done (r, pd', b') w' ->
  r <= 0 /\
  delays w' = delays w ++ (if r =? 0 then [write_sleep pd] else []).
Proof.
  unfold micronucleus_write_page. intros H. run_inv;
    try match goal with
    | H : write_page_transfer _ _ _ _ _ _ = Done _ _ |- _ =>
        apply write_page_transfer_delays in H as [Hle Hd]
    end.
  - match goal with
    | H : micronucleus_patch_reset_vector _ _ = Some _ |- _ =>
        apply patch_reset_vector_Some in H as (_ & _ & _ & [-> | (-> & _ & _)])
    end.
    + match goal with Hlt : (0 <? 0) = true |- _ => discriminate Hlt end.
    + split; [lia |]. cbn. rewrite app_nil_r. reflexivity.
  - match goal with
    | H : micronucleus_patch_reset_vector _ _ = Some _ |- _ =>
        apply patch_reset_vector_Some in H as (Hdev & _)
    end.
    split; [exact Hle |]. rewrite Hd. cbn [write_sleep set_start_program
      set_write_last_page].
    match type of Hdev with
    | device_part ?p = _ =>
        assert (Hws : write_sleep p = write_sleep pd)
          by (unfold device_part, geometry in Hdev; congruence)
    end.
    cbn. rewrite Hws. reflexivity.
  - split; [exact Hle | exact Hd].
  - split; [exact Hle | exact Hd].
  - split; [exact Hle | exact Hd].
  - split; [exact Hle | exact Hd].
Qed.

(** X12: a page write never returns a positive code, and it sleeps
    exactly when it returns 0: then once, for the session's write sleep,
    after the transfer; a write that fails does not sleep. *)
Theorem write_page_sleeps_iff_success pd a b s w r pd' b' w' :
  micronucleus_write_page E pd a b s w = Done (r, pd', b') w' ->
  r <= 0 /\
  delays w' = delays w ++ (if r =? 0 then [write_sleep pd] else []).
Proof.
  intros H. exact (write_page_delays pd a b s w r pd' b' w' H).
Qed.

Lemma write_page_transfer_v1_run pd a b s w :
  major_version pd < 2 ->
  write_page_transfer E pd a b s w
  = let w1 := transfer_request_v1 pd a b s :: w in
    let t := fst (env_control_msg E w1) in
    if t <? 0 then Done (t, pd, b) w1
    else Done (0, pd, b) (Delay_ms (write_sleep pd) :: w1).
Proof.
  intros Hv. unfold write_page_transfer.
  destruct (Z.leb_spec 2 (major_version pd)); [lia |].
  unfold micronucleus_write_page_v1, bind, usb_control_msg.
  fold (transfer_request_v1 pd a b s). cbv zeta.
  destruct (env_control_msg E (transfer_request_v1 pd a b s :: w))
    as [t d].
  cbn [fst]. unfold ret.
  destruct (t <? 0) eqn:Ht; [rewrite Ht |]; reflexivity.
Qed.

Lemma write_page_v1_run pd a b s w :
  major_version pd < 2 ->
  exists pd',
    user_reset_vector pd' = user_reset_vector pd /\
    micronucleus_write_page E pd a b s w
    = let w1 := transfer_request_v1 pd a b s :: Write_page a b s :: w in
      let t := fst (env_control_msg E w1) in
      if t <? 0 then Done (t, pd', b) w1
      else Done (0, pd', b) (Delay_ms (write_sleep pd) :: w1).
Proof.
  intros Hv. unfold micronucleus_write_page, bind, emit.
  destruct (Z.leb_spec 2 (major_version pd)); [lia |].
  destruct (a =? 0); [| destruct (_ <=? a)];
    eexists; (split; [| rewrite write_page_transfer_v1_run by exact Hv;
                        reflexivity]); reflexivity.
Qed.

(** X13: under protocol V1 a page write sends the page as given: after the
    entry the history holds exactly one request, the TRANSFER request with
    the caller's buffer as its payload, followed by the write sleep if that
    request did not fail; the result is the error of that request or 0, and
    neither the buffer nor the captured reset vector is touched. Under
    either protocol a page that is neither page 0 nor at or above the final
    page changes neither the session nor the page buffer. *)
Theorem write_page_leaves_ordinary_pages pd a b s w r pd' b' w' :
  micronucleus_write_page E pd a b s w = Done (r, pd', b') w' ->
  (major_version pd < 2 ->
   let w1 := transfer_request_v1 pd a b s :: Write_page a b s :: w in
   let t := fst (env_control_msg E w1) in
   b' = b /\ user_reset_vector pd' = user_reset_vector pd /\
   r = (if t <? 0 then t else 0) /\
   w' = (if t <? 0 then [] else [Delay_ms (write_sleep pd)]) ++ w1) /\
  (a <> 0 -> a < final_page_address pd -> pd' = pd /\ b' = b).
Proof.
  intros Hrun. split.
  - intros Hv w1 t.
    destruct (write_page_v1_run pd a b s w Hv) as (pd1 & Hurv & Heq).
    rewrite Heq in Hrun. cbv zeta in Hrun. fold w1 in Hrun. fold t in Hrun.
    destruct (t <? 0); injection Hrun as <- <- <- <-; auto.
  - revert Hrun.
    unfold micronucleus_write_page, final_page_address. intros H. run_inv;
      repeat match goal with
      | H : write_page_transfer _ _ _ _ _ _ = Done _ _ |- _ =>
          apply write_page_transfer_Done in H as (-> & -> & _)
      | H : (_ =? _) = true |- _ => apply Z.eqb_eq in H
      | H : (_ =? _) = false |- _ => apply Z.eqb_neq in H
      | H : (_ <=? _) = true |- _ => apply Z.leb_le in H
      | H : (_ <=? _) = false |- _ => apply Z.leb_gt in H
      end;
      intros Ha Hfinal; try lia; try (split; reflexivity).
Qed.

(** *** What the V2 transfer puts on the wire *)

Lemma drop_four (b : list Z) (i b0 b1 b2 b3 : Z) :
  0 <= i ->
  buf_get b (i + 0) = Some b0 -> buf_get b (i + 1) = Some b1 ->
  buf_get b (i + 2) = Some b2 -> buf_get b (i + 3) = Some b3 ->
  drop (Z.to_nat i) b = b0 :: b1 :: b2 :: b3 :: drop (Z.to_nat (i + 4)) b.
Proof.
  intros Hi H0 H1 H2 H3. unfold buf_get in *.
  destruct (Z.ltb_spec (i + 0) 0); [lia |].
  destruct (Z.ltb_spec (i + 1) 0); [lia |].
  destruct (Z.ltb_spec (i + 2) 0); [lia |].
  destruct (Z.ltb_spec (i + 3) 0); [lia |].
  replace (Z.to_nat (i + 0)) with (Z.to_nat i) in H0 by lia.
  replace (Z.to_nat (i + 1)) with (S (Z.to_nat i)) in H1 by lia.
  replace (Z.to_nat (i + 2)) with (S (S (Z.to_nat i))) in H2 by lia.
  replace (Z.to_nat (i + 3)) with (S (S (S (Z.to_nat i)))) in H3 by lia.
  replace (Z.to_nat (i + 4)) with (S (S (S (S (Z.to_nat i))))) by lia.
  rewrite (drop_S _ _ _ H0), (drop_S _ _ _ H1), (drop_S _ _ _ H2),
    (drop_S _ _ _ H3).
  reflexivity.
Qed.

Lemma word_count_done (s i : Z) : s <= i -> Z.to_nat ((s - i + 3) / 4) = 0%nat.
Proof.
  intros H.
  assert ((s - i + 3) / 4 < 1) by (apply Z.div_lt_upper_bound; lia).
  lia.
Qed.

Lemma word_count_step (s i : Z) :
  i < s ->
  Z.to_nat ((s - i + 3) / 4) = S (Z.to_nat ((s - (i + 4) + 3) / 4)).
Proof.
  intros H.
  replace (s - i + 3) with ((s - (i + 4) + 3) + 1 * 4) by lia.
  rewrite Z.div_add by lia.
  assert (0 <= (s - (i + 4) + 3) / 4) by (apply Z.div_pos; lia).
  lia.
Qed.

Lemma write_page_v2_loop_words fuel pd b s i w w' :
  0 <= i ->
  write_page_v2_loop E fuel pd b s i w = Done 0 w' ->
  program_words w'
  = program_words w
    ++ take (Z.to_nat ((s - i + 3) / 4))
            (words_of_bytes (drop (Z.to_nat i) b)) /\
  (4 * Z.to_nat ((s - i + 3) / 4) <= length (drop (Z.to_nat i) b))%nat.
Proof.
  revert i w. induction fuel as [|fuel IH]; intros i w Hi; cbn.
  - destruct (Z.ltb_spec i s); intros Hrun; run_inv.
    rewrite word_count_done by lia. cbn. rewrite app_nil_r.
    split; [reflexivity | lia].
  - destruct (Z.ltb_spec i s); intros Hrun; run_inv.
    + match goal with Hlt : (_ <? 0) = true |- _ => apply Z.ltb_lt in Hlt end.
      lia.
    + apply IH in Hrun as [Hwords Hlen]; [| lia].
      rewrite word_count_step by lia.
      match goal with
      | H0 : buf_get b (i + 0) = Some _, H1 : buf_get b (i + 1) = Some _,
        H2 : buf_get b (i + 2) = Some _, H3 : buf_get b (i + 3) = Some _ |- _ =>
          rewrite (drop_four b i _ _ _ _ Hi H0 H1 H2 H3)
      end.
      split.
      * rewrite Hwords. cbn. rewrite <- app_assoc. reflexivity.
      * cbn [length]. lia.
    + rewrite word_count_done by lia. cbn. rewrite app_nil_r.
      split; [reflexivity | lia].
Qed.

Lemma word_bytes (b0 b1 : Z) :
  0 <= b0 < 256 -> 0 <= b1 < 256 ->
  Z.lor (Z.shiftl b1 8) (Z.shiftl b0 0) mod 256 = b0 /\
  Z.lor (Z.shiftl b1 8) (Z.shiftl b0 0) / 256 = b1.
Proof.
  intros H0 H1. rewrite Z.shiftl_0_r.
  rewrite lor_shiftl_low by (change (2 ^ 8) with 256; lia).
  change (2 ^ 8) with 256. split.
  - rewrite Z.add_comm, Z.mod_add by lia. apply Z.mod_small. exact H0.
  - rewrite Z.add_comm, Z.div_add by lia.
    rewrite Z.div_small by exact H0. reflexivity.
Qed.

Lemma bytes_of_words_take (k : nat) (b : list Z) :
  Forall (fun x => 0 <= x < 256) b ->
  (4 * k <= length b)%nat ->
  length (take k (words_of_bytes b)) = k /\
  bytes_of_words (take k (words_of_bytes b)) = take (4 * k) b.
Proof.
  revert b. induction k as [|k IH]; intros b Hb Hlen.
  - split; reflexivity.
  - destruct b as [|b0 [|b1 [|b2 [|b3 rest]]]]; cbn in Hlen; try lia.
    inversion Hb as [|? ? Hb0 Hb']; subst.
    inversion Hb' as [|? ? Hb1 Hb'']; subst.
    inversion Hb'' as [|? ? Hb2 Hb''']; subst.
    inversion Hb''' as [|? ? Hb3 Hrest]; subst.
    destruct (IH rest Hrest ltac:(lia)) as [IHlen IHbytes].
    destruct (word_bytes b0 b1 Hb0 Hb1) as [E0 E1].
    destruct (word_bytes b2 b3 Hb2 Hb3) as [E2 E3].
    replace (4 * S k)%nat with (S (S (S (S (4 * k))))) by lia.
    cbn [words_of_bytes take length]. split.
    + rewrite IHlen. reflexivity.
    + unfold bytes_of_words in *. cbn [flat_map fst snd app].
      rewrite E0, E1, E2, E3, IHbytes. reflexivity.
Qed.

(** X14: what a successful V2 page transfer puts on the wire. After the
    TRANSFER request the page goes out in PROGRAM requests, each carrying
    four bytes as two little-endian words, in order; there are
    ceil(size / 4) of them, so that a size which is no multiple of four
    sends up to three bytes from beyond the size. *)
Theorem write_page_v2_wire_format pd a b s w w' :
  micronucleus_write_page_v2 E pd a b s w = Done 0 w' ->
  Forall (fun x => 0 <= x < 256) b ->
  exists ws,
    program_words w' = program_words w ++ ws /\
    length ws = Z.to_nat ((s + 3) / 4) /\
    bytes_of_words ws = take (4 * Z.to_nat ((s + 3) / 4)) b.
Proof.
  unfold micronucleus_write_page_v2. intros H Hb. run_inv.
  - match goal with Hlt : (_ <? 0) = true |- _ => apply Z.ltb_lt in Hlt end.
    lia.
  - apply write_page_v2_loop_words in H as [Hwords Hlen]; [| lia].
    replace (s - 0 + 3) with (s + 3) in * by lia.
    change (Z.to_nat 0) with 0%nat in *. rewrite drop_0 in *.
    destruct (bytes_of_words_take _ b Hb Hlen) as [Hk Hbytes].
    eexists. split; [exact Hwords |]. split; [exact Hk | exact Hbytes].
Qed.

End PageWriteProperties.

Lemma write_page_sleeps_iff_success_witness :
  exists r pd' b' w',
    micronucleus_write_page (steady_env (0, [])) (v2_session 0x1800) 64
                            (replicate 8 0xFF) 8 []
    = Done (r, pd', b') w' /\
    r <= 0 /\
    delays w'
    = delays [] ++ (if r =? 0 then [write_sleep (v2_session 0x1800)] else []).
Proof.
  do 4 eexists. split.
  - vm_compute. reflexivity.
  - eapply (write_page_sleeps_iff_success (steady_env (0, []))
              (v2_session 0x1800) 64 (replicate 8 0xFF) 8 []).
    vm_compute. reflexivity.
Defined.

Lemma write_page_leaves_ordinary_pages_witness :
  let pd := v1_session 0x1800 in
  let b := [1; 2; 3; 4; 5; 6; 7; 8] in
  exists r pd' b' w',
    micronucleus_write_page (steady_env (0, [])) pd 64 b 8 []
    = Done (r, pd', b') w' /\
    (b' = b /\ user_reset_vector pd' = user_reset_vector pd /\
     r = 0 /\
     w' = [Delay_ms (write_sleep pd); transfer_request_v1 pd 64 b 8;
           Write_page 64 b 8]) /\
    (pd' = pd /\ b' = b).
Proof.
  intros pd b.
  assert (exists r pd' b' w',
            micronucleus_write_page (steady_env (0, [])) pd 64 b 8 []
            = Done (r, pd', b') w') as (r & pd' & b' & w' & Hrun)
    by (do 4 eexists; vm_compute; reflexivity).
  destruct (write_page_leaves_ordinary_pages (steady_env (0, [])) pd 64 b 8
              [] r pd' b' w' Hrun) as [Hv1 Hordinary].
  exists r, pd', b', w'. split; [exact Hrun |]. split.
  - apply Hv1. cbn. lia.
  - apply Hordinary; [lia | vm_compute; reflexivity].
Defined.

Lemma write_page_v2_wire_format_witness :
  exists w',
    micronucleus_write_page_v2 (steady_env (0, [])) (v2_session 0x1800) 64
                               [1; 2; 3; 4; 5; 6; 7; 8] 6 []
    = Done 0 w' /\
    exists ws,
      program_words w' = program_words [] ++ ws /\
      length ws = Z.to_nat ((6 + 3) / 4) /\
      bytes_of_words ws
      = take (4 * Z.to_nat ((6 + 3) / 4)) [1; 2; 3; 4; 5; 6; 7; 8].
Proof.
  eexists. split.
  - vm_compute. reflexivity.
  - eapply (write_page_v2_wire_format (steady_env (0, []))
              (v2_session 0x1800) 64 [1; 2; 3; 4; 5; 6; 7; 8] 6 []).
    + vm_compute. reflexivity.
    + repeat (constructor; [lia |]). constructor.
Defined.

(** ** The two patches: what they write and what they leave *)

(** What a successful reset-vector patch writes, for either kind of
    branch. *)
Lemma patch_reset_vector_head (pd pd' : pdata) (b b' : list Z) :
  micronucleus_patch_reset_vector pd b = Some (0, pd', b') ->
  0 <= bootloader_start pd < 65536 ->
  length b' = length b /\
  if 0x2000 <? bootloader_start pd
  then read_word b' 0 = Some 0x940C /\
       read_word b' 2 = Some (bootloader_start pd) /\
       drop 4 b' = drop 4 b
  else drop 2 b' = drop 2 b /\
       (2 <= bootloader_start pd ->
        exists w1,
          read_word b' 0 = Some (0xC000 + (bootloader_start pd / 2 - 1)) /\
          read_word b' 2 = Some w1 /\
          decode_reset_vector (0xC000 + (bootloader_start pd / 2 - 1)) w1
          = Some (bootloader_start pd / 2)).
Proof.
  intros Hrun Hbs. revert Hrun. unfold micronucleus_patch_reset_vector.
  intros Hrun.
  apply bind_Some in Hrun as (b0 & Hb0 & Hrun).
  apply bind_Some in Hrun as (b1 & Hb1 & Hrun).
  apply bind_Some in Hrun as (b2 & Hb2 & Hrun).
  apply bind_Some in Hrun as (b3 & Hb3 & Hrun).
  pose proof (buf_get_inv _ _ _ Hb3) as Hlen.
  destruct (decode_reset_vector _ _) as [target|]; [| discriminate Hrun].
  change (bootloader_start (set_user_reset_vector (u16 target) pd))
    with (bootloader_start pd) in Hrun.
  revert Hrun.
  destruct (Z.ltb_spec 0x2000 (bootloader_start pd)) as [Hbig | Hsmall];
    intros Hrun.
  - apply bind_Some in Hrun as (x0 & Hx0 & Hrun).
    apply bind_Some in Hrun as (x1 & Hx1 & Hrun).
    apply bind_Some in Hrun as (x2 & Hx2 & Hrun).
    apply bind_Some in Hrun as (x3 & Hx3 & Hrun).
    apply buf_set_inv in Hx0 as (_ & -> & _).
    apply buf_set_inv in Hx1 as (_ & -> & _).
    apply buf_set_inv in Hx2 as (_ & -> & _).
    apply buf_set_inv in Hx3 as (_ & -> & _).
    injection Hrun as _ <-.
    split; [rewrite !length_insert; reflexivity |].
    split; [| split].
    + rewrite !read_word_set_ne by lia.
      apply (read_word_stored b 0 0x940C); lia.
    + apply (read_word_stored _ 2 (bootloader_start pd));
        rewrite ?length_insert; lia.
    + rewrite !drop_insert_lt by lia. reflexivity.
  - apply bind_Some in Hrun as (x0 & Hx0 & Hrun).
    apply bind_Some in Hrun as (x1 & Hx1 & Hrun).
    apply buf_set_inv in Hx0 as (_ & -> & _).
    apply buf_set_inv in Hx1 as (_ & -> & _).
    injection Hrun as _ <-.
    split; [rewrite !length_insert; reflexivity |].
    split; [rewrite !drop_insert_lt by lia; reflexivity |].
    intros Hlow.
    assert (1 <= bootloader_start pd / 2)
      by (apply Z.div_le_lower_bound; lia).
    assert (bootloader_start pd / 2 <= 0x1000)
      by (apply Z.div_le_upper_bound; lia).
    assert (0 <= bootloader_start pd / 2 - 1 < 4096) as Hk by lia.
    rewrite land_0FFF, (Z.mod_small _ 4096) by exact Hk.
    destruct (rjmp_word _ Hk) as (Hsum & Hop & Harg).
    rewrite (u16_small (Z.lor 0xC000 _)) by (rewrite Hsum; lia).
    rewrite Hsum in Hop, Harg |- *.
    destruct (read_word_is_Some b 2 ltac:(lia) ltac:(lia)) as (w1 & Hw1 & _).
    exists w1.
    split; [| split].
    + apply (read_word_stored b 0); lia.
    + rewrite !read_word_set_ne by lia. exact Hw1.
    + unfold decode_reset_vector.
      destruct (Z.eqb_spec (0xC000 + (bootloader_start pd / 2 - 1))
                           0x940C) as [Heq | _]; [lia |].
      rewrite Hop, Harg. cbn. f_equal. lia.
Qed.

(** X15: for a bootloader that starts at a byte address from 2 to
    0x2000, a successful reset-vector patch changes only the first two
    bytes of page 0, and they hold a relative jump to the bootloader: the
    first word is 0xC000 + (bootloader_start / 2 - 1), which the branch
    decoding of the driver reads as a jump to the word address
    bootloader_start / 2. *)
Theorem patch_reset_vector_jumps_to_bootloader (pd pd' : pdata)
    (b b' : list Z) :
  micronucleus_patch_reset_vector pd b = Some (0, pd', b') ->
  2 <= bootloader_start pd <= 0x2000 ->
  length b' = length b /\
  drop 2 b' = drop 2 b /\
  exists w1,
    read_word b' 0 = Some (0xC000 + (bootloader_start pd / 2 - 1)) /\
    read_word b' 2 = Some w1 /\
    decode_reset_vector (0xC000 + (bootloader_start pd / 2 - 1)) w1
    = Some (bootloader_start pd / 2).
Proof.
  intros Hrun Hbs.
  destruct (patch_reset_vector_head pd pd' b b' Hrun ltac:(lia))
    as [Hlen Hhead].
  destruct (Z.ltb_spec 0x2000 (bootloader_start pd)); [lia |].
  destruct Hhead as [Hdrop Hjump].
  split; [exact Hlen |]. split; [exact Hdrop |].
  apply Hjump. lia.
Qed.

Lemma patch_reset_vector_jumps_to_bootloader_witness :
  let pd := v2_session 0x1800 in
  let b := [0x0F; 0xC0; 0x00; 0x00; 0xAA; 0xBB] in
  exists pd' b',
    micronucleus_patch_reset_vector pd b = Some (0, pd', b') /\
    length b' = length b /\
    drop 2 b' = drop 2 b /\
    exists w1,
      read_word b' 0 = Some (0xC000 + (bootloader_start pd / 2 - 1)) /\
      read_word b' 2 = Some w1 /\
      decode_reset_vector (0xC000 + (bootloader_start pd / 2 - 1)) w1
      = Some (bootloader_start pd / 2).
Proof.
  intros pd b. do 2 eexists. split.
  - vm_compute. reflexivity.
  - eapply (patch_reset_vector_jumps_to_bootloader pd _ b).
    + vm_compute. reflexivity.
    + cbn. lia.
Defined.

(** X21: for a bootloader above 0x2000 a successful reset-vector patch
    changes only the first four bytes of page 0: the first word becomes
    the long-jump opcode 0x940C and the second word bootloader_start, the
    byte address as it is. The branch decoding of the driver reads these
    two words as a jump to the word address bootloader_start. *)
Theorem patch_reset_vector_long_jump (pd pd' : pdata) (b b' : list Z) :
  micronucleus_patch_reset_vector pd b = Some (0, pd', b') ->
  0x2000 < bootloader_start pd < 65536 ->
  length b' = length b /\
  drop 4 b' = drop 4 b /\
  read_word b' 0 = Some 0x940C /\
  read_word b' 2 = Some (bootloader_start pd) /\
  decode_reset_vector 0x940C (bootloader_start pd)
  = Some (bootloader_start pd).
Proof.
  intros Hrun Hbs.
  destruct (patch_reset_vector_head pd pd' b b' Hrun ltac:(lia))
    as [Hlen Hhead].
  destruct (Z.ltb_spec 0x2000 (bootloader_start pd)); [| lia].
  destruct Hhead as (Hw0 & Hw1 & Hdrop).
  split; [exact Hlen |]. split; [exact Hdrop |].
  split; [exact Hw0 |]. split; [exact Hw1 | reflexivity].
Qed.

Lemma patch_reset_vector_long_jump_witness :
  let pd := v2_session 0x3000 in
  let b := [0x0F; 0xC0; 0x00; 0x00; 0xAA; 0xBB] in
  exists pd' b',
    micronucleus_patch_reset_vector pd b = Some (0, pd', b') /\
    length b' = length b /\
    drop 4 b' = drop 4 b /\
    read_word b' 0 = Some 0x940C /\
    read_word b' 2 = Some (bootloader_start pd) /\
    decode_reset_vector 0x940C (bootloader_start pd)
    = Some (bootloader_start pd).
Proof.
  intros pd b. do 2 eexists. split.
  - vm_compute. reflexivity.
  - eapply (patch_reset_vector_long_jump pd _ b).
    + vm_compute. reflexivity.
    + cbn. lia.
Defined.

(** X16: the application-vector patch touches only the four bytes below
    the bootloader: the page before its last four bytes, and whatever the
    buffer holds beyond the page, stay as they were. When the vector sits
    at or below 0x2000 only the first two of those four bytes change. *)
Theorem patch_user_vector_frame (pd : pdata) (b b' : list Z) :
  micronucleus_patch_user_vector pd b = Some b' ->
  4 <= page_size pd ->
  page_size pd <= bootloader_start pd < 65536 ->
  length b' = length b /\
  take (Z.to_nat (page_size pd - 4)) b' = take (Z.to_nat (page_size pd - 4)) b /\
  drop (Z.to_nat (page_size pd)) b' = drop (Z.to_nat (page_size pd)) b /\
  (bootloader_start pd - 4 <= 0x2000 ->
   drop (Z.to_nat (page_size pd - 2)) b'
   = drop (Z.to_nat (page_size pd - 2)) b).
Proof.
  intros Hrun Hps Hbs. revert Hrun. unfold micronucleus_patch_user_vector.
  rewrite (u16_small (bootloader_start pd - 4)) by lia.
  rewrite (u16_small (bootloader_start pd - page_size pd)) by lia.
  destruct (Z.ltb_spec 0x2000 (bootloader_start pd - 4)) as [Hbig | Hsmall];
    intros Hrun.
  - apply bind_Some in Hrun as (x0 & Hx0 & Hrun).
    apply bind_Some in Hrun as (x1 & Hx1 & Hrun).
    apply bind_Some in Hrun as (x2 & Hx2 & Hrun).
    apply bind_Some in Hrun as (x3 & Hx3 & Hrun).
    apply buf_set_inv in Hx0 as (_ & -> & _).
    apply buf_set_inv in Hx1 as (_ & -> & _).
    apply buf_set_inv in Hx2 as (_ & -> & _).
    apply buf_set_inv in Hx3 as (_ & -> & _).
    injection Hrun as <-.
    split; [rewrite !length_insert; reflexivity |].
    split; [rewrite !take_insert_ge by lia; reflexivity |].
    split; [rewrite !drop_insert_lt by lia; reflexivity |].
    intros Hlow. lia.
  - apply bind_Some in Hrun as (x0 & Hx0 & Hrun).
    apply bind_Some in Hrun as (x1 & Hx1 & Hrun).
    apply buf_set_inv in Hx0 as (_ & -> & _).
    apply buf_set_inv in Hx1 as (_ & -> & _).
    injection Hrun as <-.
    split; [rewrite !length_insert; reflexivity |].
    split; [rewrite !take_insert_ge by lia; reflexivity |].
    split; [rewrite !drop_insert_lt by lia; reflexivity |].
    intros _. rewrite !drop_insert_lt by lia. reflexivity.
Qed.

Lemma patch_user_vector_frame_witness :
  let pd := set_user_reset_vector 0x0010 (set_info 0x1800 8 7 (v2_session 0x1800)) in
  let b := [1; 2; 3; 4; 5; 6; 7; 8; 9] in
  exists b',
    micronucleus_patch_user_vector pd b = Some b' /\
    length b' = length b /\
    take (Z.to_nat (page_size pd - 4)) b' = take (Z.to_nat (page_size pd - 4)) b /\
    drop (Z.to_nat (page_size pd)) b' = drop (Z.to_nat (page_size pd)) b /\
    (bootloader_start pd - 4 <= 0x2000 ->
     drop (Z.to_nat (page_size pd - 2)) b'
     = drop (Z.to_nat (page_size pd - 2)) b).
Proof.
  intros pd b. eexists. split.
  - vm_compute. reflexivity.
  - eapply (patch_user_vector_frame pd b).
    + vm_compute. reflexivity.
    + cbn. lia.
    + cbn. lia.
Defined.

(** ** Powerdown, chip erase and paged writes as a whole *)

Section SessionProperties.

Variable E : environment.

Lemma write_page_flags_nonzero pd a b s w r pd' b' w' :
  micronucleus_write_page E pd a b s w = Done (r, pd', b') w' ->
  a <> 0 ->
  start_program pd' = start_program pd /\
  (write_last_page pd = false -> write_last_page pd' = false).
Proof.
  unfold micronucleus_write_page. intros H Ha. run_inv;
    repeat match goal with
    | H : write_page_transfer _ _ _ _ _ _ = Done _ _ |- _ =>
        apply write_page_transfer_Done in H as (-> & -> & _)
    | H : (_ =? _) = true |- _ => apply Z.eqb_eq in H
    end;
    try lia; split; auto.
Qed.

Lemma powerdown_idle pd w :
  write_last_page pd = false -> start_program pd = false ->
  micronucleus_powerdown E pd w = Done pd w.
Proof.
  intros Hwlp Hsp. unfold micronucleus_powerdown, bind.
  rewrite Hwlp. cbn [ret]. rewrite Hsp. reflexivity.
Qed.

(** X17: powerdown finishes the session once. After a powerdown that
    returned (with the final page not being page 0 if one was pending), a
    second powerdown sends nothing and leaves the session as it is. *)
Theorem powerdown_twice (pd pd' : pdata) (w w' : world) :
  micronucleus_powerdown E pd w = Done pd' w' ->
  (write_last_page pd = true -> final_page_address pd <> 0) ->
  micronucleus_powerdown E pd' w' = Done pd' w'.
Proof.
  unfold final_page_address. intros Hrun Hfinal.
  assert (write_last_page pd' = false /\ start_program pd' = false)
    as [Hwlp Hsp].
  { unfold micronucleus_powerdown in Hrun. run_inv;
      repeat match goal with
      | H : micronucleus_write_page _ _ _ _ _ _ = Done _ _ |- _ =>
          apply write_page_flags_nonzero in H as [Hs Hl];
          [specialize (Hl eq_refl) | apply Hfinal; reflexivity]
      end; split; auto. }
  apply powerdown_idle; assumption.
Qed.

(** X18: chip_erase never returns a positive code and changes nothing in
    the session but the handle; when it returns 0 the session holds a
    handle on the device it was connected to before. *)
Theorem chip_erase_keeps_session (pd pd' : pdata) (h : usb_dev_handle)
    (w w' : world) (r : Z) :
  usb_handle pd = Some h ->
  micronucleus_chip_erase E pd w = Done (r, pd') w' ->
  r <= 0 /\
  pd' = set_usb_handle (usb_handle pd') pd /\
  (r = 0 ->
   usb_handle pd' = Some {| usb_device_of := usb_device_of h |}).
Proof.
  intros Hh. unfold micronucleus_chip_erase. rewrite erase_device_run.
  cbv zeta.
  set (r0 := fst (env_control_msg E (erase_request pd :: w))).
  destruct ((r0 <? 0) && negb ((r0 =? - EIO) || (r0 =? - EPIPE))) eqn:Hfail.
  - intros [= <- <- <-]. apply andb_true_iff in Hfail as [Hneg _].
    apply Z.ltb_lt in Hneg.
    split; [lia |]. split; [destruct pd; reflexivity | lia].
  - destruct (fst (env_control_msg E (erase_probed pd w))
              =? Z.of_nat (info_size pd)).
    + intros [= <- <- <-]. split; [lia |].
      split; [destruct pd; reflexivity |].
      intros _. rewrite Hh. destruct h. reflexivity.
    + destruct (reconnect_run E pd h (erase_probed pd w) Hh)
        as (k & Hk & ->).
      destruct (k <? 25)%nat; intros [= <- <- <-].
      * split; [cbn; lia |]. split; [reflexivity |]. intros _. reflexivity.
      * split; [cbn; lia |]. split; [reflexivity |]. cbn. lia.
Qed.

Lemma paged_write_loop_result fuel pd mem pb addr n res w r pd' w' :
  paged_write_loop E fuel pd mem pb addr n res w = Done (r, pd') w' ->
  res <= 0 -> r <= 0.
Proof.
  revert pd pb addr n res w.
  induction fuel as [|fuel IH]; intros pd pb addr n res w; cbn;
    destruct (0 <? n); intros H Hres; run_inv; try lia;
    match goal with
    | Hw : micronucleus_write_page _ _ _ _ _ _ = Done _ _ |- _ =>
        apply write_page_delays in Hw as [Hle _]
    end; try lia.
  eapply IH; [exact H | exact Hle].
Qed.

(** X19: the result of paged_write is never positive: success is 0, not a
    byte count. Memory other than flash is refused with -1 before anything
    happens, and a flash write of no bytes that passes the bounds checks
    returns 0 without a page write. *)
Theorem paged_write_result (fuel : nat) (pd pd' : pdata) (mem : AVRMEM)
    (caller_page_size addr n_bytes r : Z) (w w' : world) :
  micronucleus_paged_write E fuel pd mem caller_page_size addr n_bytes w
    = Done (r, pd') w' ->
  r <= 0 /\
  (mem_is_flash mem = false -> r = -1 /\ pd' = pd /\ w' = w) /\
  (mem_is_flash mem = true -> n_bytes = 0 -> 0 <= caller_page_size ->
   u32 addr <= flash_size pd -> r = 0 /\ pd' = pd /\ w' = w).
Proof.
  unfold micronucleus_paged_write. intros H.
  destruct (mem_is_flash mem).
  - split; [| split; [discriminate |]].
    + run_inv; try lia.
      eapply paged_write_loop_result; [exact H | lia].
    + intros _ -> Hcps Haddr.
      destruct (Z.ltb_spec caller_page_size 0); [lia |].
      rewrite Z.add_0_r in H.
      destruct (Z.ltb_spec (flash_size pd) (u32 addr)); [lia |].
      destruct fuel; cbn in H; run_inv; auto.
  - run_inv. split; [lia |]. split; [auto | discriminate].
Qed.

End SessionProperties.

Lemma powerdown_twice_witness :
  exists pd' w',
    micronucleus_powerdown (steady_env (0, []))
      (with_pending (v2_session 0x1800)) [] = Done pd' w' /\
    micronucleus_powerdown (steady_env (0, [])) pd' w' = Done pd' w'.
Proof.
  do 2 eexists. split.
  - vm_compute. reflexivity.
  - eapply (powerdown_twice (steady_env (0, []))
              (with_pending (v2_session 0x1800)) _ []).
    + vm_compute. reflexivity.
    + intros _. vm_compute. discriminate.
Defined.

Lemma chip_erase_keeps_session_witness :
  let pd := set_usb_handle (Some {| usb_device_of := some_device |})
              (v2_session 0x1800) in
  exists r pd' w',
    micronucleus_chip_erase (steady_env (6, [])) pd [] = Done (r, pd') w' /\
    r <= 0 /\
    pd' = set_usb_handle (usb_handle pd') pd /\
    (r = 0 ->
     usb_handle pd'
     = Some {| usb_device_of :=
                 usb_device_of {| usb_device_of := some_device |} |}).
Proof.
  intros pd. do 3 eexists. split.
  - vm_compute. reflexivity.
  - eapply (chip_erase_keeps_session (steady_env (6, [])) pd _
              {| usb_device_of := some_device |} []).
    + reflexivity.
    + vm_compute. reflexivity.
Defined.

Lemma paged_write_result_witness :
  let mem := {| mem_is_flash := true; size := 16;
                buf := replicate 16 0x55 |} in
  exists r pd' w',
    micronucleus_paged_write (steady_env (0, [])) 8
      (set_info 0x1800 8 7 (v2_session 0x1800)) mem 8 8 8 []
    = Done (r, pd') w' /\
    r <= 0 /\
    (mem_is_flash mem = false ->
     r = -1 /\ pd' = set_info 0x1800 8 7 (v2_session 0x1800) /\ w' = []) /\
    (mem_is_flash mem = true -> 8 = 0 -> 0 <= 8 ->
     u32 8 <= flash_size (set_info 0x1800 8 7 (v2_session 0x1800)) ->
     r = 0 /\ pd' = set_info 0x1800 8 7 (v2_session 0x1800) /\ w' = []).
Proof.
  intros mem. do 3 eexists. split.
  - vm_compute. reflexivity.
  - eapply (paged_write_result (steady_env (0, [])) 8
              (set_info 0x1800 8 7 (v2_session 0x1800)) _ mem 8 8 8).
    vm_compute. reflexivity.
Defined.

Section PagedWriteTiming.

Variable E : environment.

Lemma ceil_div_chunk (n P : Z) :
  0 < P -> 0 < n ->
  ceil_div n P = ceil_div (n - (if n <? P then n else P)) P + 1.
Proof.
  intros HP Hn. destruct (Z.ltb_spec n P).
  - rewrite Z.sub_diag, ceil_div_0, ceil_div_small by lia. reflexivity.
  - rewrite <- ceil_div_step by exact HP. f_equal. lia.
Qed.

Lemma paged_write_loop_sleeps fuel pd mem pb addr n res w r pd' w' :
  paged_write_loop E fuel pd mem pb addr n res w = Done (r, pd') w' ->
  0 <= r -> 0 < page_size pd -> 0 <= n < 4294967296 ->
  delays w'
  = delays w
    ++ replicate (Z.to_nat (ceil_div n (page_size pd))) (write_sleep pd).
Proof.
  revert pd pb addr n res w.
  induction fuel as [|fuel IH]; intros pd pb addr n res w; cbn;
    destruct (Z.ltb_spec 0 n) as [Hpos | Hzero]; intros Hrun Hr HP Hn;
    run_inv.
  - replace n with 0 by lia. rewrite ceil_div_0 by exact HP.
    cbn. rewrite app_nil_r. reflexivity.
  - match goal with Hlt : (_ <? 0) = true |- _ => apply Z.ltb_lt in Hlt end.
    lia.
  - match goal with
    | Hw : micronucleus_write_page _ _ _ _ _ _ = Done _ _ |- _ =>
        pose proof (write_page_delays _ _ _ _ _ _ _ _ _ _ Hw) as [Hle Hd];
        apply write_page_Done in Hw as [Hdev _]
    end.
    match goal with Hlt : (_ <? 0) = false |- _ => apply Z.ltb_ge in Hlt end.
    match type of Hdev with
    | device_part ?p = _ =>
        assert (page_size p = page_size pd /\ write_sleep p = write_sleep pd)
          as [Hps Hws]
          by (unfold device_part, geometry in Hdev; split; congruence)
    end.
    set (c := if n <? page_size pd then n else page_size pd) in *.
    assert (0 < c <= n) as Hc
      by (unfold c; destruct (Z.ltb_spec n (page_size pd)); lia).
    rewrite (u32_small (n - c)) in Hrun by lia.
    apply IH in Hrun; [| lia | lia | lia].
    rewrite Hrun, Hd, Hps, Hws.
    rewrite (ceil_div_chunk n (page_size pd) HP Hpos). fold c.
    pose proof (ceil_div_nonneg (n - c) (page_size pd) HP ltac:(lia)) as Hk.
    rewrite Z2Nat.inj_add by lia. change (Z.to_nat 1) with 1%nat.
    rewrite Nat.add_comm. cbn [Nat.add replicate].
    match goal with
    | |- context [?z =? 0] =>
        destruct (Z.eqb_spec z 0) as [_ | Hne]; [| lia]
    end.
    rewrite <- app_assoc. reflexivity.
  - replace n with 0 by lia. rewrite ceil_div_0 by exact HP.
    cbn. rewrite app_nil_r. reflexivity.
Qed.

(** X20: a paged write that succeeds sleeps once per page it writes:
    ceil(n_bytes / page_size) times the write sleep of the session, and
    nothing else. *)
Theorem paged_write_sleeps (fuel : nat) (pd pd' : pdata) (mem : AVRMEM)
    (caller_page_size addr n_bytes r : Z) (w w' : world) :
  micronucleus_paged_write E fuel pd mem caller_page_size addr n_bytes w
    = Done (r, pd') w' ->
  0 <= r -> 0 < page_size pd -> 0 <= n_bytes < 4294967296 ->
  delays w'
  = delays w
    ++ replicate (Z.to_nat (ceil_div n_bytes (page_size pd)))
                 (write_sleep pd).
Proof.
  unfold micronucleus_paged_write. intros Hrun Hr HP Hn.
  run_inv; try lia.
  eapply paged_write_loop_sleeps; eassumption.
Qed.

End PagedWriteTiming.

Lemma paged_write_sleeps_witness :
  let mem := {| mem_is_flash := true; size := 32;
                buf := replicate 32 0x55 |} in
  let pd := set_info 0x1800 8 7 (v2_session 0x1800) in
  exists r pd' w',
    micronucleus_paged_write (steady_env (0, [])) 20 pd mem 32 8 20 []
    = Done (r, pd') w' /\
    delays w'
    = delays [] ++ replicate (Z.to_nat (ceil_div 20 (page_size pd)))
                             (write_sleep pd).
Proof.
  intros mem pd. do 3 eexists. split.
  - vm_compute. reflexivity.
  - eapply (paged_write_sleeps (steady_env (0, [])) 20 pd _ mem 32 8 20).
    + vm_compute. reflexivity.
    + lia.
    + cbn. lia.
    + lia.
Defined.
